(** * FNOL agent: field extraction and routing, embedded in Rocq

    A shallow embedding of the first-notice-of-loss pipeline:
    [config.py], [routing_engine.py], [field_extractor.py],
    [acord_parser.py], the text cleaning of [document_loader.py] and
    the processing of a loaded document of [main.py].

    Modelling conventions.
    - A Python [str] is a [string] of 8-bit characters; the case mapping
      and the character classes are the ASCII ones.
    - A Python [float] (or [int]) amount is kept as its exact rational
      value in [Q]; rounding to binary64 is not modelled.
    - The extracted-fields [dict] is a [gmap string pyobj].
    - A raised exception is the [Raise] outcome of the [py] monad.
    - The clock is an argument, and a document is given by what the
      loader returned for it: its text, or the exception raised. *)

From Stdlib Require Import QArith Qround Lqa.
From Stdlib Require Import Ascii String DecimalString.
From stdpp Require Import base option list strings gmap.

Local Open Scope Z_scope.

(** ** Python strings *)

Module Str.

Definition of_list (l : list ascii) : string := string_of_list_ascii l.
Definition to_list (s : string) : list ascii := list_ascii_of_string s.

Definition code (c : ascii) : nat := nat_of_ascii c.

Definition is_upper (c : ascii) : bool :=
  ((65 <=? code c) && (code c <=? 90))%nat.
Definition is_lower (c : ascii) : bool :=
  ((97 <=? code c) && (code c <=? 122))%nat.
Definition is_digit (c : ascii) : bool :=
  ((48 <=? code c) && (code c <=? 57))%nat.
Definition is_alpha (c : ascii) : bool := is_upper c || is_lower c.
(** [\w]: letters, digits and the underscore. *)
Definition is_word (c : ascii) : bool :=
  is_alpha c || is_digit c || (code c =? 95)%nat.
(** [str.isspace] and [\s] on ASCII: TAB, LF, VT, FF, CR, the four
    separators FS, GS, RS, US, and the space. *)
Definition is_space (c : ascii) : bool :=
  ((9 <=? code c) && (code c <=? 13))%nat
  || ((28 <=? code c) && (code c <=? 32))%nat.

Definition lower_char (c : ascii) : ascii :=
  if is_upper c then ascii_of_nat (code c + 32) else c.
Definition upper_char (c : ascii) : ascii :=
  if is_lower c then ascii_of_nat (code c - 32) else c.

Fixpoint map (f : ascii → ascii) (s : string) : string :=
  match s with
  | EmptyString => EmptyString
  | String c s' => String (f c) (map f s')
  end.

(** [s.lower()] and [s.upper()] *)
Definition lower : string → string := map lower_char.
Definition upper : string → string := map upper_char.

(** [s.startswith(p)] *)
Fixpoint starts_with (p s : string) : bool :=
  match p, s with
  | EmptyString, _ => true
  | String _ _, EmptyString => false
  | String a p', String b s' => Ascii.eqb a b && starts_with p' s'
  end.

(** [p in s] *)
Fixpoint contains (p s : string) : bool :=
  starts_with p s ||
  match s with
  | EmptyString => false
  | String _ s' => contains p s'
  end.

Fixpoint drop (n : nat) (s : string) : string :=
  match n, s with
  | O, _ => s
  | S _, EmptyString => EmptyString
  | S n', String _ s' => drop n' s'
  end.

Fixpoint take (n : nat) (s : string) : string :=
  match n, s with
  | O, _ => EmptyString
  | S _, EmptyString => EmptyString
  | S n', String c s' => String c (take n' s')
  end.

(** [s.count(sub)]: occurrences that do not overlap, from the left. *)
Fixpoint count_go (fuel : nat) (sub s : string) : nat :=
  match fuel with
  | O => O
  | S fuel' =>
      if starts_with sub s then S (count_go fuel' sub (drop (String.length sub) s))
      else match s with
           | EmptyString => O
           | String _ s' => count_go fuel' sub s'
           end
  end.

Definition count (sub s : string) : nat :=
  match sub with
  | EmptyString => S (String.length s)
  | _ => count_go (S (String.length s)) sub s
  end.

(** [sep.join(parts)] *)
Fixpoint join (sep : string) (parts : list string) : string :=
  match parts with
  | [] => EmptyString
  | [p] => p
  | p :: rest => p +:+ sep +:+ join sep rest
  end.

(** [s.replace(old, new)] for a non-empty [old]. *)
Fixpoint replace_go (fuel : nat) (old new s : string) : string :=
  match fuel with
  | O => s
  | S fuel' =>
      if starts_with old s
      then new +:+ replace_go fuel' old new (drop (String.length old) s)
      else match s with
           | EmptyString => EmptyString
           | String c s' => String c (replace_go fuel' old new s')
           end
  end.

Definition replace (old new s : string) : string :=
  match old with
  | EmptyString => s
  | _ => replace_go (S (String.length s)) old new s
  end.

(** [s.strip()], [s.lstrip()], [s.rstrip()] *)
Fixpoint lstrip_by (p : ascii → bool) (s : string) : string :=
  match s with
  | EmptyString => EmptyString
  | String c s' => if p c then lstrip_by p s' else s
  end.

Fixpoint rstrip_by (p : ascii → bool) (s : string) : string :=
  match s with
  | EmptyString => EmptyString
  | String c s' =>
      match rstrip_by p s' with
      | EmptyString => if p c then EmptyString else String c EmptyString
      | r => String c r
      end
  end.

Definition strip (s : string) : string :=
  rstrip_by is_space (lstrip_by is_space s).

Definition is_empty (s : string) : bool :=
  match s with EmptyString => true | _ => false end.

(** The characters of [s] that satisfy [p], in order. *)
Definition filter (p : ascii → bool) (s : string) : string :=
  of_list (List.filter p (to_list s)).

End Str.

(** ** Python values, exceptions and number formatting *)

Inductive pyobj : Type :=
| VStr (s : string)
| VNum (q : Q).

(** Truth value of an object: the empty string and zero are falsy. *)
Definition truthy (v : pyobj) : bool :=
  match v with
  | VStr s => negb (Str.is_empty s)
  | VNum q => negb (Qeq_bool q 0)
  end.

Definition value_eqb (v w : pyobj) : bool :=
  match v, w with
  | VStr s, VStr t => String.eqb s t
  | VNum p, VNum q => Qeq_bool p q
  | _, _ => false
  end.

Inductive exn : Type := AttributeError | TypeError | ValueError | ReError.

Inductive py (A : Type) : Type :=
| Ok (a : A)
| Raise (e : exn).
Arguments Ok {A} a.
Arguments Raise {A} e.

Definition py_bind {A B : Type} (m : py A) (k : A → py B) : py B :=
  match m with
  | Ok a => k a
  | Raise e => Raise e
  end.

Notation "'let*' x ':=' m 'in' k" := (py_bind m (fun x => k))
  (at level 10, x name, m at level 100, k at level 200).

(** [d.get(key, default)] *)
Definition dict_get (d : gmap string pyobj) (key : string) (dflt : pyobj) : pyobj :=
  default dflt (d !! key).

(** [v.lower()]: only strings have the method. *)
Definition py_lower (v : pyobj) : py string :=
  match v with
  | VStr s => Ok (Str.lower s)
  | VNum _ => Raise AttributeError
  end.

(** [v > q] and [v < q] against a number: a string operand is a [TypeError]. *)
Definition py_gt (v : pyobj) (q : Q) : py bool :=
  match v with
  | VNum x => Ok (negb (Qle_bool x q))
  | VStr _ => Raise TypeError
  end.

Definition py_lt (v : pyobj) (q : Q) : py bool :=
  match v with
  | VNum x => Ok (negb (Qle_bool q x))
  | VStr _ => Raise TypeError
  end.

Module Fmt.

(** Nearest integer, ties to the even one. *)
Definition round_half_even (q : Q) : Z :=
  let n := Qnum q in
  let d := Zpos (Qden q) in
  let fl := n / d in
  match (2 * (n mod d) ?= d) with
  | Lt => fl
  | Gt => fl + 1
  | Eq => if Z.even fl then fl else fl + 1
  end.

Definition digits (n : Z) : string :=
  NilEmpty.string_of_uint (N.to_uint (Z.to_N n)).

(** Thousands separators, counted from the right. *)
Fixpoint group_rev (l : list ascii) (k : nat) : list ascii :=
  match l with
  | [] => []
  | c :: l' =>
      match k with
      | O => "," %char :: c :: group_rev l' 2
      | S k' => c :: group_rev l' k'
      end
  end.

Definition group (s : string) : string :=
  Str.of_list (rev (group_rev (rev (Str.to_list s)) 3)).

Fixpoint zeros (n : nat) : string :=
  match n with
  | O => EmptyString
  | S n' => String "0" (zeros n')
  end.

Definition pad_left (width : nat) (s : string) : string :=
  zeros (width - String.length s) +:+ s.

(** [format(x, ",.<prec>f")] *)
Definition comma_fixed (prec : nat) (x : Q) : string :=
  let scale := 10 ^ Z.of_nat prec in
  let n := Z.abs (round_half_even (x * inject_Z scale)) in
  let sign := if Qle_bool 0 x then EmptyString else "-" in
  let frac := match prec with
              | O => EmptyString
              | _ => "." +:+ pad_left prec (digits (n mod scale))
              end in
  sign +:+ group (digits (n / scale)) +:+ frac.

(** [format(v, ",.<prec>f")]: a string operand is a [ValueError]. *)
Definition py_comma_fixed (prec : nat) (v : pyobj) : py string :=
  match v with
  | VNum x => Ok (comma_fixed prec x)
  | VStr _ => Raise ValueError
  end.

End Fmt.


(** ** The regular expressions of Python's [re] module

    Patterns are kept as the source writes them and compiled by
    [Re.compile]; matching is the backtracking search of [re]: leftmost
    start, alternatives and repetitions tried in priority order.  Every
    repeated body of the catalogue consumes at least one character, so an
    iteration that does not advance ends the repetition. *)

Module Re.

Inductive item : Type :=
| IChar (c : ascii)
| IRange (lo hi : ascii)
| ISpace
| IDigit
| IWord.

Inductive re : Type :=
| Eps
| Chr (c : ascii)
| Dot
| Set_ (negated : bool) (items : list item)
| Seq (r1 r2 : re)
| Alt (r1 r2 : re)
| Rep (greedy : bool) (lo : nat) (hi : option nat) (body : re)
| Group (index : nat) (body : re)
| Ahead (body : re)
| Behind (width : nat) (body : re)
| Bol
| Eol
| EndZ
| WordB.

Record flags : Type := Flags {
  IGNORECASE : bool;
  MULTILINE : bool;
  DOTALL : bool
}.

Definition NOFLAG : flags := Flags false false false.
Definition I : flags := Flags true false false.
Definition IM : flags := Flags true true false.
Definition IS : flags := Flags true false true.

(** *** Compiling a pattern *)

Definition digit_val (c : ascii) : nat := Str.code c - 48.

Fixpoint parse_nat (acc : nat) (s : list ascii) : nat * list ascii :=
  match s with
  | c :: s' => if Str.is_digit c then parse_nat (10 * acc + digit_val c) s'
               else (acc, s)
  | [] => (acc, s)
  end.

Definition NL : ascii := ascii_of_nat 10.
Definition CR : ascii := ascii_of_nat 13.
Definition TAB : ascii := ascii_of_nat 9.

(** An escape that stands for one character or one class item. *)
Definition escape_item (c : ascii) : option item :=
  if Ascii.eqb c "s" then Some ISpace
  else if Ascii.eqb c "d" then Some IDigit
  else if Ascii.eqb c "w" then Some IWord
  else if Ascii.eqb c "n" then Some (IChar NL)
  else if Ascii.eqb c "r" then Some (IChar CR)
  else if Ascii.eqb c "t" then Some (IChar TAB)
  else if Str.is_alpha c || Str.is_digit c then None
  else Some (IChar c).

Definition item_char (i : item) : option ascii :=
  match i with IChar c => Some c | _ => None end.

(** The items of a class, up to the closing bracket. *)
Fixpoint parse_items (fuel : nat) (s : list ascii) : option (list item * list ascii) :=
  match fuel with
  | O => None
  | S fuel' =>
      match s with
      | [] => None
      | "]"%char :: s' => Some ([], s')
      | _ =>
          '(first, s1) ←
            match s with
            | "\"%char :: c :: s' => i ← escape_item c; Some (i, s')
            | c :: s' => Some (IChar c, s')
            | [] => None
            end;
          match s1 with
          | "-"%char :: "]"%char :: s2 =>
              Some ([first; IChar "-"], s2)
          | "-"%char :: s2 =>
              lo ← item_char first;
              '(last, s3) ←
                match s2 with
                | "\"%char :: c :: s' => i ← escape_item c; Some (i, s')
                | c :: s' => Some (IChar c, s')
                | [] => None
                end;
              hi ← item_char last;
              '(rest, s4) ← parse_items fuel' s3;
              Some (IRange lo hi :: rest, s4)
          | _ =>
              '(rest, s2) ← parse_items fuel' s1;
              Some (first :: rest, s2)
          end
      end
  end.

(** The width of every match of [r], when they all have the same. *)
Fixpoint fixed_width (r : re) : option nat :=
  match r with
  | Eps | Ahead _ | Behind _ _ | Bol | Eol | EndZ | WordB => Some O
  | Chr _ | Dot | Set_ _ _ => Some 1%nat
  | Seq a b => x ← fixed_width a; y ← fixed_width b; Some (x + y)%nat
  | Alt a b =>
      x ← fixed_width a; y ← fixed_width b;
      if (x =? y)%nat then Some x else None
  | Rep _ lo (Some hi) body =>
      x ← fixed_width body;
      if (lo =? hi)%nat then Some (lo * x)%nat else None
  | Rep _ _ None _ => None
  | Group _ body => fixed_width body
  end.

(** A quantifier after an atom: [*], [+], [?], [{n}], [{n,}], [{n,m}],
    each lazy when followed by [?]. *)
Definition parse_quant (atom : re) (s : list ascii) : re * list ascii :=
  let lazy (lo : nat) (hi : option nat) (s' : list ascii) :=
    match s' with
    | "?"%char :: s'' => (Rep false lo hi atom, s'')
    | _ => (Rep true lo hi atom, s')
    end in
  match s with
  | "*"%char :: s' => lazy O None s'
  | "+"%char :: s' => lazy 1%nat None s'
  | "?"%char :: s' => lazy O (Some 1%nat) s'
  | "{"%char :: s' =>
      match s' with
      | c :: _ =>
          if Str.is_digit c then
            let '(lo, s1) := parse_nat O s' in
            match s1 with
            | "}"%char :: s2 => lazy lo (Some lo) s2
            | ","%char :: "}"%char :: s2 => lazy lo None s2
            | ","%char :: s2 =>
                let '(hi, s3) := parse_nat O s2 in
                match s3 with
                | "}"%char :: s4 => lazy lo (Some hi) s4
                | _ => (atom, s)
                end
            | _ => (atom, s)
            end
          else (atom, s)
      | [] => (atom, s)
      end
  | _ => (atom, s)
  end.

Definition expect_close (s : list ascii) : option (list ascii) :=
  match s with
  | ")"%char :: s' => Some s'
  | _ => None
  end.

(** [g] counts the capturing groups opened so far. *)
Fixpoint parse_alt (fuel : nat) (s : list ascii) (g : nat)
  : option (re * list ascii * nat) :=
  match fuel with
  | O => None
  | S fuel' =>
      '(r1, s1, g1) ← parse_seq fuel' s g;
      match s1 with
      | "|"%char :: s2 =>
          '(r2, s3, g2) ← parse_alt fuel' s2 g1;
          Some (Alt r1 r2, s3, g2)
      | _ => Some (r1, s1, g1)
      end
  end
with parse_seq (fuel : nat) (s : list ascii) (g : nat)
  : option (re * list ascii * nat) :=
  match fuel with
  | O => None
  | S fuel' =>
      match s with
      | [] | "|"%char :: _ | ")"%char :: _ => Some (Eps, s, g)
      | _ =>
          '(a, s1, g1) ← parse_atom fuel' s g;
          let '(q, s2) := parse_quant a s1 in
          '(rest, s3, g2) ← parse_seq fuel' s2 g1;
          Some (match rest with Eps => q | _ => Seq q rest end, s3, g2)
      end
  end
with parse_atom (fuel : nat) (s : list ascii) (g : nat)
  : option (re * list ascii * nat) :=
  match fuel with
  | O => None
  | S fuel' =>
      match s with
      | "("%char :: "?"%char :: ":"%char :: s' =>
          '(r, s1, g1) ← parse_alt fuel' s' g;
          s2 ← expect_close s1; Some (r, s2, g1)
      | "("%char :: "?"%char :: "="%char :: s' =>
          '(r, s1, g1) ← parse_alt fuel' s' g;
          s2 ← expect_close s1; Some (Ahead r, s2, g1)
      | "("%char :: "?"%char :: "<"%char :: "="%char :: s' =>
          '(r, s1, g1) ← parse_alt fuel' s' g;
          s2 ← expect_close s1;
          (* look-behind requires fixed-width pattern *)
          w ← fixed_width r; Some (Behind w r, s2, g1)
      | "("%char :: "?"%char :: _ => None
      | "("%char :: s' =>
          '(r, s1, g1) ← parse_alt fuel' s' (S g);
          s2 ← expect_close s1; Some (Group (S g) r, s2, g1)
      | "["%char :: "^"%char :: s' =>
          '(items, s1) ← parse_items (S (length s')) s';
          Some (Set_ true items, s1, g)
      | "["%char :: s' =>
          '(items, s1) ← parse_items (S (length s')) s';
          Some (Set_ false items, s1, g)
      | "\"%char :: c :: s' =>
          if Ascii.eqb c "b" then Some (WordB, s', g)
          else if Ascii.eqb c "Z" then Some (EndZ, s', g)
          else
            i ← escape_item c;
            Some (match i with
                  | IChar x => Chr x
                  | _ => Set_ false [i]
                  end, s', g)
      | "."%char :: s' => Some (Dot, s', g)
      | "^"%char :: s' => Some (Bol, s', g)
      | "$"%char :: s' => Some (Eol, s', g)
      | "*"%char :: _ | "+"%char :: _ | "?"%char :: _ | ")"%char :: _
      | "|"%char :: _ | [] => None
      | c :: s' => Some (Chr c, s', g)
      end
  end.

(** [re.compile(pattern)]: the expression and its number of groups, or
    [None] when the pattern is rejected ([re.error]). *)
Definition compile (pattern : string) : option (re * nat) :=
  let s := Str.to_list pattern in
  '(r, rest, g) ← parse_alt (3 * length s + 3) s O;
  match rest with
  | [] => Some (r, g)
  | _ => None
  end.

(** *** Matching *)

(** A position in the subject: the text before it (nearest character
    first), the text after it, its offset, and the groups captured on
    the way (latest first). *)
Record state : Type := State {
  before : list ascii;
  after : list ascii;
  offset : nat;
  captures : list (nat * string)
}.

Definition advance (st : state) (c : ascii) (rest : list ascii) : state :=
  State (c :: before st) rest (S (offset st)) (captures st).

Definition with_captures (st : state) (caps : list (nat * string)) : state :=
  State (before st) (after st) (offset st) caps.

Definition in_item (i : item) (c : ascii) : bool :=
  match i with
  | IChar x => Ascii.eqb x c
  | IRange lo hi => ((Str.code lo <=? Str.code c) && (Str.code c <=? Str.code hi))%nat
  | ISpace => Str.is_space c
  | IDigit => Str.is_digit c
  | IWord => Str.is_word c
  end.

Definition in_items (items : list item) (c : ascii) : bool :=
  existsb (fun i => in_item i c) items.

Definition in_set (fl : flags) (negated : bool) (items : list item) (c : ascii) : bool :=
  let hit :=
    if IGNORECASE fl
    then in_items items c || in_items items (Str.lower_char c)
         || in_items items (Str.upper_char c)
    else in_items items c in
  if negated then negb hit else hit.

Definition same_char (fl : flags) (a b : ascii) : bool :=
  if IGNORECASE fl then Ascii.eqb (Str.lower_char a) (Str.lower_char b)
  else Ascii.eqb a b.

Definition at_bol (fl : flags) (st : state) : bool :=
  match before st with
  | [] => true
  | c :: _ => MULTILINE fl && Ascii.eqb c NL
  end.

Definition at_eol (fl : flags) (st : state) : bool :=
  match after st with
  | [] => true
  | [c] => Ascii.eqb c NL
  | c :: _ => MULTILINE fl && Ascii.eqb c NL
  end.

Definition at_end (st : state) : bool :=
  match after st with [] => true | _ => false end.

Definition at_word_boundary (st : state) : bool :=
  let w (l : list ascii) :=
    match l with c :: _ => Str.is_word c | [] => false end in
  xorb (w (before st)) (w (after st)).

Definition or_else {A : Type} (a b : option A) : option A :=
  match a with Some _ => a | None => b end.

(** The text between two positions of one subject. *)
Definition span (start stop : state) : string :=
  Str.of_list (take (offset stop - offset start) (after start)).

(** A repetition of [body], given as a matcher: between [lo] and [hi]
    rounds, as many as possible first when greedy, as few as possible
    first otherwise.  A round that does not advance ends it. *)
Fixpoint repeat_ (body : state → (state → option state) → option state)
    (greedy : bool) (k : state → option state)
    (fuel lo : nat) (hi : option nat) (st : state) {struct fuel} : option state :=
  match fuel with
  | O => None
  | S fuel' =>
      let more :=
        match hi with
        | Some O => None
        | _ =>
            body st (fun st' =>
              if (offset st' =? offset st)%nat && (lo =? 0)%nat then None
              else repeat_ body greedy k fuel' (Nat.pred lo) (Nat.pred <$> hi) st')
        end in
      if (0 <? lo)%nat then more
      else if greedy then or_else more (k st)
      else or_else (k st) more
  end.

(** [run fl r st k]: match [r] at [st], then continue with [k]; the
    first success in priority order is the answer. *)
Fixpoint run (fl : flags) (r : re) (st : state) (k : state → option state)
  {struct r} : option state :=
  match r with
  | Eps => k st
  | Chr c =>
      match after st with
      | x :: rest => if same_char fl c x then k (advance st x rest) else None
      | [] => None
      end
  | Dot =>
      match after st with
      | x :: rest =>
          if DOTALL fl || negb (Ascii.eqb x NL) then k (advance st x rest) else None
      | [] => None
      end
  | Set_ negated items =>
      match after st with
      | x :: rest => if in_set fl negated items x then k (advance st x rest) else None
      | [] => None
      end
  | Seq r1 r2 => run fl r1 st (fun st' => run fl r2 st' k)
  | Alt r1 r2 => or_else (run fl r1 st k) (run fl r2 st k)
  | Rep greedy lo hi body =>
      repeat_ (run fl body) greedy k (S (length (after st) + lo)) lo hi st
  | Group index body =>
      run fl body st (fun st' =>
        k (with_captures st' ((index, span st st') :: captures st')))
  | Ahead body =>
      match run fl body st Some with
      | Some st' => k (with_captures st (captures st'))
      | None => None
      end
  | Behind width body =>
      if (width <=? length (before st))%nat then
        let back :=
          State (drop width (before st))
                (rev_append (take width (before st)) (after st))
                (offset st - width) (captures st) in
        match run fl body back
                (fun st' => if (offset st' =? offset st)%nat then Some st' else None) with
        | Some st' => k (with_captures st (captures st'))
        | None => None
        end
      else None
  | Bol => if at_bol fl st then k st else None
  | Eol => if at_eol fl st then k st else None
  | EndZ => if at_end st then k st else None
  | WordB => if at_word_boundary st then k st else None
  end.

(** A match object: where it starts and stops, and its groups. *)
Record match_ : Type := Match {
  m_start : nat;
  m_end : nat;
  m_text : string;
  m_captures : list (nat * string)
}.

Definition match_at (fl : flags) (r : re) (st : state) : option match_ :=
  st' ← run fl r st Some;
  Some (Match (offset st) (offset st') (span st st') (captures st')).

Fixpoint scan (fl : flags) (r : re) (st : state) (rest : list ascii)
  {struct rest} : option match_ :=
  match match_at fl r st with
  | Some m => Some m
  | None =>
      match rest with
      | [] => None
      | c :: rest' => scan fl r (advance st c rest') rest'
      end
  end.

Definition start_of (text : string) : state :=
  State [] (Str.to_list text) O [].

(** [m.groups()]: [None] for a group that took no part in the match. *)
Definition groups (ngroups : nat) (m : match_) : list (option string) :=
  List.map
    (fun i => snd <$> List.find (fun e => (fst e =? i)%nat) (m_captures m))
    (seq 1 ngroups).

(** [m.group(i)] for a group that took part in the match. *)
Definition group (m : match_) (i : nat) : string :=
  match i with
  | O => m_text m
  | _ => default EmptyString
           (snd <$> List.find (fun e => (fst e =? i)%nat) (m_captures m))
  end.

(** [re.search(pattern, text, flags)]; a rejected pattern raises. *)
Definition search (fl : flags) (pattern text : string) : py (option match_) :=
  match compile pattern with
  | Some (r, _) => Ok (scan fl r (start_of text) (Str.to_list text))
  | None => Raise ReError
  end.

(** The number of capturing groups of a pattern. *)
Definition ngroups (pattern : string) : nat :=
  match compile pattern with
  | Some (_, n) => n
  | None => O
  end.

(** [re.match]: a match that starts at the beginning of the text. *)
Definition match_start (fl : flags) (pattern text : string) : py (option match_) :=
  match compile pattern with
  | Some (r, _) => Ok (match_at fl r (start_of text))
  | None => Raise ReError
  end.

(** [re.sub(pattern, repl, text)] for a literal replacement: matches are
    replaced from left to right, without overlap. *)
Fixpoint sub_go (fl : flags) (r : re) (repl : string) (fuel : nat)
    (st : state) : string :=
  match fuel with
  | O => Str.of_list (after st)
  | S fuel' =>
      match match_at fl r st with
      | Some m =>
          if (m_end m =? m_start m)%nat then
            match after st with
            | [] => repl
            | c :: rest => repl +:+ String c (sub_go fl r repl fuel' (advance st c rest))
            end
          else
            let skipped := take (m_end m - m_start m) (after st) in
            let st' := State (rev_append skipped (before st))
                             (drop (m_end m - m_start m) (after st))
                             (m_end m) [] in
            repl +:+ sub_go fl r repl fuel' st'
      | None =>
          match after st with
          | [] => EmptyString
          | c :: rest => String c (sub_go fl r repl fuel' (advance st c rest))
          end
      end
  end.

Definition sub (fl : flags) (pattern repl text : string) : py string :=
  match compile pattern with
  | Some (r, _) => Ok (sub_go fl r repl (S (String.length text)) (start_of text))
  | None => Raise ReError
  end.

(** [re.split(pattern, text)] for a pattern without groups whose matches
    are never empty. *)
Fixpoint split_go (fl : flags) (r : re) (fuel : nat) (st : state)
    (piece : list ascii) : list string :=
  match fuel with
  | O => [Str.of_list (rev piece)]
  | S fuel' =>
      match after st with
      | [] => [Str.of_list (rev piece)]
      | c :: rest =>
          match match_at fl r st with
          | Some m =>
              if (m_end m =? m_start m)%nat then
                split_go fl r fuel' (advance st c rest) (c :: piece)
              else
                let skipped := take (m_end m - m_start m) (after st) in
                let st' := State (rev_append skipped (before st))
                                 (drop (m_end m - m_start m) (after st))
                                 (m_end m) [] in
                Str.of_list (rev piece) :: split_go fl r fuel' st' []
          | None => split_go fl r fuel' (advance st c rest) (c :: piece)
          end
      end
  end.

Definition split (fl : flags) (pattern text : string) : py (list string) :=
  match compile pattern with
  | Some (r, _) => Ok (split_go fl r (S (String.length text)) (start_of text) [])
  | None => Raise ReError
  end.

End Re.
(** ** config.py *)

Module Config.

Definition FAST_TRACK_THRESHOLD : Q := 25000.

Definition FRAUD_KEYWORDS : list string :=
  [ "fraud"; "fraudulent"; "false"; "fake"; "staged"; "setup";
    "inconsistent"; "contradict"; "lie"; "lied"; "lying";
    "misrepresent"; "exaggerat"; "inflated"; "suspicious";
    "fabricated"; "concocted"; "scam"; "scheme" ].

Definition INJURY_KEYWORDS : list string :=
  [ "injury"; "injured"; "hurt"; "pain"; "hospital";
    "ambulance"; "medical"; "doctor"; "fracture"; "broken";
    "whiplash"; "concussion"; "bleeding"; "wound"; "laceration";
    "surgery"; "therapy"; "treatment"; "paramedic"; "emergency" ].

Definition REQUIRED_FIELDS : list string :=
  [ "policy_number"; "policyholder_name"; "date_of_loss"; "location";
    "description"; "estimated_damage"; "claim_type" ].

End Config.

(** ** routing_engine.py *)

Module RoutingEngine.

Definition MANUAL_REVIEW : string := "Manual Review".
Definition INVESTIGATION_FLAG : string := "Investigation Flag".
Definition SPECIALIST_QUEUE : string := "Specialist Queue".
Definition FAST_TRACK : string := "Fast-track".
Definition STANDARD_PROCESSING : string := "Standard Processing".

(** The five routes of the decision record. *)
Definition ROUTES : list string :=
  [ FAST_TRACK; STANDARD_PROCESSING; SPECIALIST_QUEUE;
    INVESTIGATION_FLAG; MANUAL_REVIEW ].

(** [any(word in description for word in words)] *)
Definition any_in (words : list string) (description : string) : bool :=
  existsb (fun w => Str.contains w description) words.

(** [for keyword in keywords: if keyword in description: found.append(keyword)] *)
Definition keywords_in (keywords : list string) (description : string) : list string :=
  fold_left
    (fun found keyword =>
       if Str.contains keyword description then found ++ [keyword] else found)
    keywords [].

Definition _check_additional_factors (extracted_fields : gmap string pyobj)
  : py (list string) :=
  let* description := py_lower (dict_get extracted_fields "description" (VStr "")) in
  let reasons := [] in
  let reasons :=
    if ((1 <? Str.count "vehicle" description)
        || (1 <? Str.count "car" description))%nat
    then reasons ++ ["Multiple vehicles involved"] else reasons in
  let reasons :=
    if Str.contains "hit and run" description
       || Str.contains "hit & run" description
    then reasons ++ ["Hit-and-run incident"] else reasons in
  let reasons :=
    if any_in ["commercial"; "truck"; "semi"; "fleet"; "business"] description
    then reasons ++ ["Commercial vehicle involved"] else reasons in
  let reasons :=
    if any_in ["previous"; "prior"; "last claim"; "before"] description
    then reasons ++ ["Reference to previous claims"] else reasons in
  Ok reasons.

Definition determine_route (extracted_fields : gmap string pyobj)
    (missing_fields : list string) : py (string * string) :=
  match missing_fields with
  | _ :: _ =>
      (* Rule 1: missing mandatory fields *)
      let missing_str := Str.join ", " missing_fields in
      Ok (MANUAL_REVIEW,
          Str.join ". " ["Missing required fields: " +:+ missing_str])
  | [] =>
      let* description := py_lower (dict_get extracted_fields "description" (VStr "")) in
      let damage := dict_get extracted_fields "estimated_damage" (VNum 0) in
      let claim_type := dict_get extracted_fields "claim_type" (VStr "property_damage") in
      (* Rule 2: fraud indicators *)
      let fraud_keywords_found := keywords_in Config.FRAUD_KEYWORDS description in
      match fraud_keywords_found with
      | _ :: _ =>
          let keywords_str := Str.join ", " (take 3 fraud_keywords_found) in
          Ok (INVESTIGATION_FLAG,
              Str.join ". " ["Fraud indicators detected: " +:+ keywords_str])
      | [] =>
          (* Rule 3: injury claims *)
          if value_eqb claim_type (VStr "injury") then
            let injury_keywords := keywords_in Config.INJURY_KEYWORDS description in
            let part :=
              match injury_keywords with
              | _ :: _ =>
                  "Injury claim with indicators: "
                    +:+ Str.join ", " (take 3 injury_keywords)
              | [] => "Injury claim type identified"
              end in
            Ok (SPECIALIST_QUEUE, Str.join ". " [part])
          else
            (* Rule 4: damage amount against the fast-track threshold *)
            let* positive := py_gt damage 0 in
            let* decision :=
              (if positive then
                 let* below := py_lt damage Config.FAST_TRACK_THRESHOLD in
                 let* amount := Fmt.py_comma_fixed 2 damage in
                 let limit := Fmt.comma_fixed 0 Config.FAST_TRACK_THRESHOLD in
                 if below then
                   Ok (FAST_TRACK,
                       "Estimated damage ($" +:+ amount +:+ ") is below $"
                         +:+ limit +:+ " threshold")
                 else
                   Ok (STANDARD_PROCESSING,
                       "Estimated damage ($" +:+ amount
                         +:+ ") meets or exceeds $" +:+ limit +:+ " threshold")
               else
                 Ok (MANUAL_REVIEW,
                     "Damage amount not specified or could not be extracted")) in
            let* additional_reasons := _check_additional_factors extracted_fields in
            Ok (decision.1, Str.join ". " (decision.2 :: additional_reasons))
      end
  end.

End RoutingEngine.


(** ** [datetime.strptime] and [strftime], for the formats of [_parse_date] *)

Module Datetime.

Definition FULL_MONTHS : list string :=
  [ "january"; "february"; "march"; "april"; "may"; "june"; "july";
    "august"; "september"; "october"; "november"; "december" ].

Definition ABBR_MONTHS : list string :=
  [ "jan"; "feb"; "mar"; "apr"; "may"; "jun"; "jul"; "aug"; "sep";
    "oct"; "nov"; "dec" ].

(** The expression a directive stands for; the names of a locale table
    are tried longest first. *)
Definition directive (d : ascii) : option string :=
  if Ascii.eqb d "B" then
    Some "(september|february|november|december|january|october|august|march|april|june|july|may)"
  else if Ascii.eqb d "b" then
    Some "(jan|feb|mar|apr|may|jun|jul|aug|sep|oct|nov|dec)"
  else if Ascii.eqb d "d" then Some "(3[0-1]|[1-2]\d|0[1-9]|[1-9]| [1-9])"
  else if Ascii.eqb d "m" then Some "(1[0-2]|0[1-9]|[1-9])"
  else if Ascii.eqb d "I" then Some "(1[0-2]|0[1-9]|[1-9])"
  else if Ascii.eqb d "M" then Some "([0-5]\d|\d)"
  else if Ascii.eqb d "y" then Some "(\d\d)"
  else if Ascii.eqb d "Y" then Some "(\d\d\d\d)"
  else if Ascii.eqb d "p" then Some "(am|pm)"
  else None.

Definition is_regex_char (c : ascii) : bool :=
  existsb (Ascii.eqb c) (Str.to_list "\.^$*+?(){}[]|").

(** The expression of a format and its directives, in group order.  A
    run of blanks in the format stands for [\s+]. *)
Fixpoint format_regex (fmt : list ascii) (in_blank : bool)
  : option (string * list ascii) :=
  match fmt with
  | [] => Some (EmptyString, [])
  | "%"%char :: d :: rest =>
      p ← directive d;
      '(tail, ds) ← format_regex rest false;
      Some (p +:+ tail, d :: ds)
  | c :: rest =>
      if Str.is_space c then
        '(tail, ds) ← format_regex rest true;
        Some ((if in_blank then EmptyString else "\s+") +:+ tail, ds)
      else
        '(tail, ds) ← format_regex rest false;
        Some ((if is_regex_char c then String "\" (String c EmptyString)
               else String c EmptyString) +:+ tail, ds)
  end.

(** [int(s)] for a run of digits after optional blanks. *)
Definition int_of (s : string) : Z :=
  Z.of_nat (fst (Re.parse_nat O (Str.to_list (Str.lstrip_by Str.is_space s)))).

Fixpoint index_of (x : string) (l : list string) (i : Z) : option Z :=
  match l with
  | [] => None
  | y :: l' => if String.eqb x y then Some i else index_of x l' (i + 1)
  end.

Record date : Type := Date { year : Z; month : Z; day : Z }.

Definition is_leap (y : Z) : bool :=
  ((y mod 4 =? 0) && negb (y mod 100 =? 0)) || (y mod 400 =? 0).

Definition days_in_month (y m : Z) : Z :=
  if m =? 2 then (if is_leap y then 29 else 28)
  else if (m =? 4) || (m =? 6) || (m =? 9) || (m =? 11) then 30
  else 31.

(** [datetime.date(y, m, d)] *)
Definition make_date (y m d : Z) : py date :=
  if (1 <=? y) && (y <=? 9999) && (1 <=? m) && (m <=? 12)
     && (1 <=? d) && (d <=? days_in_month y m)
  then Ok (Date y m d) else Raise ValueError.

(** The fields found by the directives, from the defaults 1900-01-01. *)
Fixpoint read_fields (ds : list ascii) (gs : list (option string))
    (acc : Z * Z * Z) : Z * Z * Z :=
  match ds, gs with
  | d :: ds', Some g :: gs' =>
      let '(y, m, dd) := acc in
      let acc' :=
        if Ascii.eqb d "y" then
          let v := int_of g in ((if v <=? 68 then v + 2000 else v + 1900), m, dd)
        else if Ascii.eqb d "Y" then (int_of g, m, dd)
        else if Ascii.eqb d "m" then (y, int_of g, dd)
        else if Ascii.eqb d "B" then
          (y, default m (index_of (Str.lower g) FULL_MONTHS 1), dd)
        else if Ascii.eqb d "b" then
          (y, default m (index_of (Str.lower g) ABBR_MONTHS 1), dd)
        else if Ascii.eqb d "d" then (y, m, int_of g)
        else acc in
      read_fields ds' gs' acc'
  | _ :: ds', None :: gs' => read_fields ds' gs' acc
  | _, _ => acc
  end.

(** [datetime.strptime(date_string, format)], as far as the date goes. *)
Definition strptime (date_string format : string) : py date :=
  match format_regex (Str.to_list format) false with
  | None => Raise ValueError
  | Some (pattern, ds) =>
      let* found := Re.match_start Re.I pattern date_string in
      match found with
      | None => Raise ValueError
      | Some m =>
          if negb (Re.m_end m =? String.length date_string)%nat
          then Raise ValueError
          else
            let '(y, mo, d) :=
              read_fields ds (Re.groups (length ds) m) (1900, 1, 1) in
            make_date y mo d
      end
  end.

Definition two_digits (n : Z) : string := Fmt.pad_left 2 (Fmt.digits n).

(** [dt.strftime('%Y-%m-%d')]; the C library does not pad the year. *)
Definition strftime_ymd (dt : date) : string :=
  Fmt.digits (year dt) +:+ "-" +:+ two_digits (month dt)
    +:+ "-" +:+ two_digits (day dt).

End Datetime.

(** ** field_extractor.py *)

Module FieldExtractor.

(** The catalogue, in the order the dictionary is written. *)
Definition PATTERNS : list (string * list string) :=
  [
    ("policy_number",
      [ "Policy\s*Number[:\s]+([A-Z0-9\-_]+[A-Z0-9])(?=\s|$|\n)";
        "POLICY\s*NUMBER[:\s]+([A-Z0-9\-_]+[A-Z0-9])(?=\s|$|\n)";
        "Policy\s*#[:\s]+([A-Z0-9\-_]+[A-Z0-9])(?=\s|$|\n)";
        "POLICY[:\s]+([A-Z0-9\-_]+[A-Z0-9])(?=\s|$|\n)";
        "(?<=\bPolicy(?: Number|#| No\.?)?[:\s])([A-Z0-9\-_]+[A-Z0-9])" ]);
    ("policyholder_name",
      [ "Policyholder\s*Name[:\s]+([A-Z][a-zA-Z\s]+?)(?=\s*\n|\s*$|\s*[A-Z])";
        "NAME\s*OF\s*INSURED[:\s]+([A-Z][a-zA-Z\s]+?)(?=\s*\n|\s*$)";
        "Named\s*Insured[:\s]+([A-Z][a-zA-Z\s]+?)(?=\s*\n|\s*$)";
        "Insured\s*Name[:\s]+([A-Z][a-zA-Z\s]+?)(?=\s*\n|\s*$)";
        "Name[:\s]+([A-Z][a-zA-Z\s]+?)(?=\s*\n|\s*[0-9]|\s*[A-Z]{2,})";
        "CLAIMANT[:\s]+([A-Z][a-zA-Z\s]+?)(?=\s*\n|\s*$)" ]);
    ("effective_dates",
      [ "Effective\s*Date[:\s]+([0-9]{1,2}/[0-9]{1,2}/[0-9]{4})";
        "Policy\s*Period[:\s]+([0-9]{1,2}/[0-9]{1,2}/[0-9]{4})";
        "Coverage\s*Dates[:\s]+([0-9]{1,2}/[0-9]{1,2}/[0-9]{4})" ]);
    ("date_of_loss",
      [ "Date\s*of\s*Loss[:\s]+([A-Z][a-z]+\s+\d{1,2},\s+\d{4})";
        "DATE\s*OF\s*LOSS[:\s]+([0-9]{1,2}/[0-9]{1,2}/[0-9]{4})";
        "Date[:\s]+([A-Z][a-z]+\s+\d{1,2},\s+\d{4})";
        "Loss\s*Date[:\s]+([0-9]{1,2}/[0-9]{1,2}/[0-9]{4})";
        "Incident\s*Date[:\s]+([0-9]{1,2}/[0-9]{1,2}/[0-9]{4})" ]);
    ("time_of_loss",
      [ "Time[:\s]+(\d{1,2}:\d{2}\s*[AP]M)";
        "Time\s*of\s*Loss[:\s]+(\d{1,2}:\d{2}\s*[AP]M)";
        "(\d{1,2}:\d{2}\s*[AP]M)(?=\s*on|\s*date)" ]);
    ("location",
      [ "Location[:\s]+(.*?)(?=\s*\n[A-Z]|\s*\n\d|\s*$)";
        "LOCATION\s*OF\s*LOSS[:\s]+(.*?)(?=\s*\n[A-Z]|\s*\n\d|\s*$)";
        "Address[:\s]+(.*?)(?=\s*\n[A-Z]|\s*\n\d|\s*$)";
        "STREET[:\s]+(.*?)(?=\s*\n[A-Z]|\s*\n\d|\s*$)" ]);
    ("description",
      [ "Description[:\s]+(.*?)(?=\n[A-Z]{2,}|\n\d|\n\n|\Z)";
        "DESCRIPTION[:\s]+(.*?)(?=\n[A-Z]{2,}|\n\d|\n\n|\Z)";
        "Loss\s*Description[:\s]+(.*?)(?=\n[A-Z]{2,}|\n\d|\n\n|\Z)";
        "Remarks[:\s]+(.*?)(?=\n[A-Z]{2,}|\n\d|\n\n|\Z)";
        "DESCRIPTION\s*OF\s*(?:ACCIDENT|LOSS|INCIDENT)[:\s]+(.*?)(?=\n1\.|\n[A-Z]{2,}|\n\d|\Z)" ]);
    ("asset_type",
      [ "Vehicle\s*Type[:\s]+([A-Za-z\s]+)";
        "Asset\s*Type[:\s]+([A-Za-z\s]+)";
        "Type\s*of\s*Vehicle[:\s]+([A-Za-z\s]+)" ]);
    ("asset_id",
      [ "V\.I\.N\.\s*[:\s]+([A-Z0-9]{17})";
        "VIN[:\s]+([A-Z0-9]{17})";
        "Vehicle\s*ID[:\s]+([A-Z0-9]+)" ]);
    ("estimated_damage",
      [ "Damage\s*Estimate[:\s]+\$?\s*([0-9,]+\.?[0-9]*)";
        "ESTIMATE\s*AMOUNT[:\s]+\$?\s*([0-9,]+\.?[0-9]*)";
        "Estimated\s*Damage[:\s]+\$?\s*([0-9,]+\.?[0-9]*)";
        "Amount[:\s]+\$?\s*([0-9,]+\.?[0-9]*)";
        "(?:Estimate|Damage|Amount)[:\s]+\$?\s*([0-9,]+\.?[0-9]*)" ]);
    ("estimate_amount",
      [ "ESTIMATE\s*AMOUNT[:\s]+\$?\s*([0-9,]+\.?[0-9]*)";
        "Damage\s*Estimate[:\s]+\$?\s*([0-9,]+\.?[0-9]*)";
        "Estimated\s*Damage[:\s]+\$?\s*([0-9,]+\.?[0-9]*)";
        "\$([0-9,]+\.?[0-9]*)" ]);
    ("claimant",
      [ "Claimant[:\s]+([A-Z][a-zA-Z\s]+?)(?=\s*\n|\s*$)";
        "Driver\s*Name[:\s]+([A-Z][a-zA-Z\s]+?)(?=\s*\n|\s*$)";
        "NAME\s*OF\s*CONTACT[:\s]+([A-Z][a-zA-Z\s]+?)(?=\s*\n|\s*$)" ]);
    ("contact_details",
      [ "Phone[:\s]+(?:\(?[A-Z]?\)?\s*)?([0-9\-\(\)\.\s]{10,})";
        "PHONE[:\s]+(?:\(?[A-Z]?\)?\s*)?([0-9\-\(\)\.\s]{10,})";
        "Contact[:\s]+(?:\(?[A-Z]?\)?\s*)?([0-9\-\(\)\.\s]{10,})";
        "E-MAIL[:\s]+([A-Za-z0-9._%+-]+@[A-Za-z0-9.-]+\.[A-Z|a-z]{2,})";
        "Email[:\s]+([A-Za-z0-9._%+-]+@[A-Za-z0-9.-]+\.[A-Z|a-z]{2,})" ]);
    ("attachments",
      [ "Attachments[:\s]+(.*?)(?=\s*\n|\s*$)";
        "Documents\s*Attached[:\s]+(.*?)(?=\s*\n|\s*$)";
        "Photos[:\s]+(.*?)(?=\s*\n|\s*$)" ]);
    ("initial_estimate",
      [ "Initial\s*Estimate[:\s]+\$?\s*([0-9,]+\.?[0-9]*)";
        "Initial\s*Assessment[:\s]+\$?\s*([0-9,]+\.?[0-9]*)" ]) ].

Definition LF : string := String Re.NL EmptyString.

Definition _normalize_text (text : option string) : py string :=
  match text with
  | None => Ok EmptyString
  | Some text =>
      if Str.is_empty text then Ok EmptyString
      else
        (* multiple spaces, line endings, runs of empty lines *)
        let* text := Re.sub Re.NOFLAG " {2,}" " " text in
        let* text := Re.sub Re.NOFLAG "\r\n" LF text in
        let* text := Re.sub Re.NOFLAG "\n{3,}" (LF +:+ LF) text in
        Ok (Str.strip text)
  end.

(** [float(s)] for a string over the digits and the decimal point, all
    that [_parse_amount] hands over: digits with at most one point and
    at least one digit; anything else is a [ValueError]. *)
Fixpoint digits_value (acc : Z) (s : string) : option Z :=
  match s with
  | EmptyString => Some acc
  | String c s' =>
      if Str.is_digit c
      then digits_value (10 * acc + Z.of_nat (Re.digit_val c)) s'
      else None
  end.

Fixpoint split_point (s : string) : string * option string :=
  match s with
  | EmptyString => (EmptyString, None)
  | String c s' =>
      if Ascii.eqb c "." then (EmptyString, Some s')
      else let '(a, b) := split_point s' in (String c a, b)
  end.

Definition py_float (s : string) : py Q :=
  let '(whole, frac) := split_point s in
  let frac := default EmptyString frac in
  if Str.is_empty whole && Str.is_empty frac then Raise ValueError
  else
    match digits_value 0 whole, digits_value 0 frac with
    | Some w, Some f =>
        let scale := 10 ^ Z.of_nat (String.length frac) in
        Ok (Qmake (w * scale + f) (Z.to_pos scale))
    | _, _ => Raise ValueError
    end.

(** Every exception is swallowed: the result is then [0.0]. *)
Definition _parse_amount (amount_str : string) : Q :=
  let attempt :=
    let* clean_str := Re.sub Re.NOFLAG "[^\d.]" "" amount_str in
    if negb (Str.is_empty clean_str)
    then let* x := py_float clean_str in Ok (Some x)
    else Ok None in
  match attempt with
  | Ok (Some x) => x
  | Ok None | Raise _ => 0
  end.

Definition DATE_FORMATS : list string :=
  [ "%B %d, %Y"; "%b %d, %Y"; "%B %d, %Y %I:%M %p";
    "%m/%d/%Y"; "%m/%d/%y"; "%d/%m/%Y"; "%d/%m/%y";
    "%Y-%m-%d"; "%d-%m-%Y" ].

Fixpoint try_formats (date_str : string) (formats : list string) : string :=
  match formats with
  | [] => date_str
  | fmt :: rest =>
      match Datetime.strptime date_str fmt with
      | Ok dt => Datetime.strftime_ymd dt
      | Raise _ => try_formats date_str rest
      end
  end.

Definition _parse_date (date_str : string) : string :=
  try_formats date_str DATE_FORMATS.

Definition OCR_CORRECTIONS : list (string * string) :=
  [ ("Iight", "light"); ("poIe", "pole"); ("Iot", "lot");
    ("corners", "corners") ].

Definition apply_corrections (table : list (string * string)) (desc : string) : string :=
  fold_left (fun d '(wrong, correct) => Str.replace wrong correct d) table desc.

(** [for sentence in sentences: if len(trimmed + sentence) < 1500: ... else: break] *)
Fixpoint accumulate (trimmed : string) (sentences : list string) : string :=
  match sentences with
  | [] => trimmed
  | sentence :: rest =>
      if (String.length (trimmed +:+ sentence) <? 1500)%nat
      then accumulate (trimmed +:+ sentence +:+ ".") rest
      else trimmed
  end.

(** The first half of [_clean_description]: whitespace, the prefixes and
    suffixes, the corrections. *)
Definition tidy_description (desc : string) : py string :=
  let* desc := Re.sub Re.NOFLAG "\s+" " " (Str.strip desc) in
  let* desc := Re.sub Re.NOFLAG "^[:\.\-\s]+" "" desc in
  let* desc := Re.sub Re.NOFLAG "[:\.\-\s]+$" "" desc in
  Ok (apply_corrections OCR_CORRECTIONS desc).

(** The second half: the length limit. *)
Definition limit_description (desc : string) : py string :=
  if (2000 <? String.length desc)%nat then
    let* sentences := Re.split Re.NOFLAG "[.!?]+" desc in
    let trimmed := accumulate EmptyString sentences in
    Ok (if negb (Str.is_empty trimmed) then trimmed
        else Str.take 1500 desc +:+ "...")
  else Ok desc.

Definition _clean_description (desc : string) : py string :=
  if Str.is_empty desc then Ok EmptyString
  else
    let* desc := tidy_description desc in
    limit_description desc.

Definition member (x : string) (l : list string) : bool :=
  existsb (String.eqb x) l.

Definition _clean_field_value (value field_name : string) : py (option pyobj) :=
  if Str.is_empty value then Ok None
  else
    let* value := Re.sub Re.NOFLAG "\s+" " " (Str.strip value) in
    if member field_name ["estimated_damage"; "initial_estimate"; "estimate_amount"]
    then Ok (Some (VNum (_parse_amount value)))
    else if member field_name ["date_of_loss"]
    then Ok (Some (VStr (_parse_date value)))
    else if member field_name ["policy_number"; "asset_id"]
    then Ok (Some (VStr (Str.upper value)))
    else if member field_name ["description"]
    then let* d := _clean_description value in Ok (Some (VStr d))
    else if member field_name ["policyholder_name"; "claimant"]
    then
      let* value := Re.sub Re.NOFLAG "\s+[A-Z]\.?$" "" value in
      let* value := Re.sub Re.I "\s+(?:JR|SR|II|III|IV|V)$" "" value in
      Ok (Some (VStr value))
    else Ok (Some (VStr value)).

(** The first group that is not blank. *)
Fixpoint first_group (gs : list (option string)) : option string :=
  match gs with
  | [] => None
  | Some g :: rest =>
      if negb (Str.is_empty g) && negb (Str.is_empty (Str.strip g))
      then Some g else first_group rest
  | None :: rest => first_group rest
  end.

(** An exception under a pattern moves on to the next pattern. *)
Fixpoint _extract_with_patterns (text : string) (patterns : list string)
    (field_name : string) : option pyobj :=
  match patterns with
  | [] => None
  | pattern :: rest =>
      let attempt :=
        let* found := Re.search Re.IM pattern text in
        match found with
        | Some m =>
            match first_group (Re.groups (Re.ngroups pattern) m) with
            | Some g =>
                let* v := _clean_field_value (Str.strip g) field_name in
                Ok (Some v)
            | None => Ok None
            end
        | None => Ok None
        end in
      match attempt with
      | Ok (Some returned) => returned
      | Ok None | Raise _ => _extract_with_patterns text rest field_name
      end
  end.

(** [for field, patterns in PATTERNS.items(): ... if value: results[field] = value] *)
Definition extract_patterns (catalogue : list (string * list string))
    (text : string) : gmap string pyobj :=
  fold_left
    (fun results '(field, patterns) =>
       match _extract_with_patterns text patterns field with
       | Some v => if truthy v then <[field := v]> results else results
       | None => results
       end)
    catalogue ∅.

Definition INJURY_WORDS : list string :=
  [ "injury"; "injured"; "hurt"; "pain"; "hospital"; "ambulance";
    "medical"; "whiplash"; "fracture"; "broken bone"; "concussion";
    "emergency room"; "er" ].
Definition THEFT_WORDS : list string :=
  [ "stolen"; "theft"; "robbery"; "burglary"; "break-in";
    "missing vehicle"; "car stolen"; "auto theft" ].
Definition FIRE_WORDS : list string :=
  [ "fire"; "burned"; "arson"; "smoke"; "flame"; "ignite" ].
Definition WATER_WORDS : list string :=
  [ "flood"; "water"; "leak"; "pipe burst"; "rain"; "storm";
    "hurricane"; "flooding" ].
Definition VANDALISM_WORDS : list string :=
  [ "vandal"; "graffiti"; "broken window"; "keyed"; "scratched";
    "malicious"; "intentional" ].
Definition VEHICLE_WORDS : list string :=
  [ "vehicle"; "car"; "truck"; "auto"; "accident"; "collision";
    "crash"; "wreck"; "rear-end"; "bumper" ].

Definition _infer_claim_type (description : pyobj) : py string :=
  if negb (truthy description) then Ok "property_damage"
  else
    let* desc_lower := py_lower description in
    if RoutingEngine.any_in INJURY_WORDS desc_lower then Ok "injury"
    else if RoutingEngine.any_in THEFT_WORDS desc_lower then Ok "theft"
    else if RoutingEngine.any_in FIRE_WORDS desc_lower then Ok "fire"
    else if RoutingEngine.any_in WATER_WORDS desc_lower then Ok "water_damage"
    else if RoutingEngine.any_in VANDALISM_WORDS desc_lower then Ok "vandalism"
    else if RoutingEngine.any_in VEHICLE_WORDS desc_lower then Ok "vehicle_damage"
    else Ok "property_damage".

(** [d.update(other)]: the keys of [other] win. *)
Definition dict_update (d other : gmap string pyobj) : gmap string pyobj :=
  other ∪ d.

Definition VEHICLE_SECTION_PATTERNS : list string :=
  [ "VEH\s*#.*?DESCRIBE DAMAGE";
    "VEHICLE INFORMATION.*?DESCRIBE DAMAGE";
    "YEAR.*?MAKE.*?MODEL.*?VIN" ].

(** [m = re.search(pattern, text, re.IGNORECASE); if m: info[key] = f(m.group(1))] *)
Definition pick (pattern text key : string) (f : string → string)
    (info : gmap string pyobj) : py (gmap string pyobj) :=
  let* found := Re.search Re.I pattern text in
  match found with
  | Some m => Ok (<[key := VStr (f (Re.group m 1))]> info)
  | None => Ok info
  end.

Fixpoint vehicle_sections (text : string) (patterns : list string)
  : py (gmap string pyobj) :=
  match patterns with
  | [] => Ok ∅
  | pattern :: rest =>
      let* vehicle_match := Re.search Re.IS pattern text in
      match vehicle_match with
      | Some m =>
          let vehicle_text := Re.group m 0 in
          let* info := pick "YEAR\s*[:\s]*([0-9]{4})" vehicle_text "year" Str.strip ∅ in
          let* info := pick "MAKE\s*[:\s]*([A-Za-z\s]+)" vehicle_text "make" Str.strip info in
          let* info := pick "MODEL\s*[:\s]*([A-Za-z0-9\s\-]+)" vehicle_text "model" Str.strip info in
          let* info := pick "V\.?I\.?N\.?\s*[:\s]*([A-Z0-9]{17})" vehicle_text "vin" Str.upper info in
          let* info := pick "PLATE\s*(?:NUMBER|NO|#)\s*[:\s]*([A-Z0-9\-\s]+)" vehicle_text
                         "plate_number" (fun g => Str.upper (Str.strip g)) info in
          Ok info   (* stop after the first section found *)
      | None => vehicle_sections text rest
      end
  end.

Definition _extract_vehicle_info (text : string) : py (gmap string pyobj) :=
  vehicle_sections text VEHICLE_SECTION_PATTERNS.

Definition PHONE_PATTERNS : list string :=
  [ "Phone[:\s]+(?:\(?\d{3}\)?[-.\s]?)?(\d{3}[-.\s]?\d{4})";
    "PHONE[:\s]+(?:\(?\d{3}\)?[-.\s]?)?(\d{3}[-.\s]?\d{4})";
    "Contact[:\s]+(?:\(?\d{3}\)?[-.\s]?)?(\d{3}[-.\s]?\d{4})";
    "Telephone[:\s]+(?:\(?\d{3}\)?[-.\s]?)?(\d{3}[-.\s]?\d{4})";
    "Tel[:\s]+(?:\(?\d{3}\)?[-.\s]?)?(\d{3}[-.\s]?\d{4})";
    "(\d{3}[-.\s]?\d{3}[-.\s]?\d{4})(?=\s|$|\n)" ].

Definition EMAIL_PATTERNS : list string :=
  [ "Email[:\s]+([a-zA-Z0-9._%+-]+@[a-zA-Z0-9.-]+\.[a-zA-Z]{2,})";
    "E-MAIL[:\s]+([a-zA-Z0-9._%+-]+@[a-zA-Z0-9.-]+\.[a-zA-Z]{2,})";
    "Contact[:\s]+([a-zA-Z0-9._%+-]+@[a-zA-Z0-9.-]+\.[a-zA-Z]{2,})";
    "([a-zA-Z0-9._%+-]+@[a-zA-Z0-9.-]+\.[a-zA-Z]{2,})" ].

Fixpoint find_phone (text : string) (patterns : list string)
    (info : gmap string pyobj) : py (gmap string pyobj) :=
  match patterns with
  | [] => Ok info
  | pattern :: rest =>
      let* found := Re.search Re.I pattern text in
      match found with
      | Some m =>
          let* phone := Re.sub Re.NOFLAG "[^\d]" "" (Re.group m 1) in
          if (10 <=? String.length phone)%nat
          then Ok (<["contact_phone" := VStr phone]> info)
          else find_phone text rest info
      | None => find_phone text rest info
      end
  end.

Fixpoint find_email (text : string) (patterns : list string)
    (info : gmap string pyobj) : py (gmap string pyobj) :=
  match patterns with
  | [] => Ok info
  | pattern :: rest =>
      let* found := Re.search Re.I pattern text in
      match found with
      | Some m => Ok (<["contact_email" := VStr (Str.lower (Re.group m 1))]> info)
      | None => find_email text rest info
      end
  end.

Definition _extract_contact_info (text : string) : py (gmap string pyobj) :=
  let* info := find_phone text PHONE_PATTERNS ∅ in
  find_email text EMAIL_PATTERNS info.

(** [if isinstance(value, str): extracted[key] = value.strip()] *)
Definition strip_value (v : pyobj) : pyobj :=
  match v with
  | VStr s => VStr (Str.strip s)
  | VNum q => VNum q
  end.

(** ['k' not in d or not d['k']] *)
Definition absent_or_falsy (d : gmap string pyobj) (key : string) : bool :=
  match d !! key with
  | Some v => negb (truthy v)
  | None => true
  end.

Definition has_key (d : gmap string pyobj) (key : string) : bool :=
  bool_decide (is_Some (d !! key)).

(** The first step: one of the two amount keys fills in the other. *)
Definition sync_amounts (extracted : gmap string pyobj) : gmap string pyobj :=
  match extracted !! "estimated_damage", extracted !! "estimate_amount" with
  | Some v, None => <["estimate_amount" := v]> extracted
  | None, Some v => <["estimated_damage" := v]> extracted
  | _, _ => extracted
  end.

Definition _post_process_fields (extracted : gmap string pyobj) (full_text : string)
  : py (gmap string pyobj) :=
  let extracted := sync_amounts extracted in
  (* claim type from the description *)
  let* extracted :=
    if negb (has_key extracted "claim_type") then
      let* claim_type :=
        _infer_claim_type (dict_get extracted "description" (VStr "")) in
      Ok (<["claim_type" := VStr claim_type]> extracted)
    else Ok extracted in
  (* no amount so far: any dollar amount of the text *)
  let* extracted :=
    if absent_or_falsy extracted "estimated_damage" then
      let* amount_match := Re.search Re.NOFLAG "\$([0-9,]+\.?[0-9]*)" full_text in
      match amount_match with
      | Some m =>
          let amount := _parse_amount (Re.group m 1) in
          Ok (<["estimate_amount" := VNum amount]>
                (<["estimated_damage" := VNum amount]> extracted))
      | None => Ok extracted
      end
    else Ok extracted in
  let* vehicle_info := _extract_vehicle_info full_text in
  let extracted := dict_update extracted vehicle_info in
  let* contact_info := _extract_contact_info full_text in
  let extracted := dict_update extracted contact_info in
  Ok (strip_value <$> extracted).

Definition extract_all_fields (document_text : option string)
  : py (gmap string pyobj) :=
  let* text := _normalize_text document_text in
  let results := extract_patterns PATTERNS text in
  _post_process_fields results text.

(** [if field not in extracted_fields or not extracted_fields.get(field)] *)
Definition identify_missing_fields (extracted_fields : gmap string pyobj)
  : list string :=
  List.filter (absent_or_falsy extracted_fields) Config.REQUIRED_FIELDS.

End FieldExtractor.

(** ** acord_parser.py *)

Module ACORDParser.

Import FieldExtractor.

Definition ACORD_PATTERNS : list (string * list string) :=
  [
    ("policy_number",
      [ "POLICY\s*NUMBER\s*([A-Z0-9\-]+)";
        "POLICY\s*#\s*([A-Z0-9\-]+)";
        "NAIC\s*CODE.*?POLICY\s*NUMBER\s*([A-Z0-9\-]+)" ]);
    ("policyholder_name",
      [ "NAME\s*OF\s*INSURED\s*(?:\(First,\s*Middle,\s*Last\))?\s*([A-Z][A-Za-z\s,\.]+?(?=\s{2,}|\n|INSURED|CONTACT))";
        "INSURED\s*NAME[:\s]*([A-Za-z\s\.,]+?)(?=\s{2,}|\n)" ]);
    ("date_of_loss",
      [ "DATE\s*OF\s*LOSS\s*AND\s*TIME\s*([0-9]{1,2}/[0-9]{1,2}/[0-9]{2,4})";
        "DATE\s*OF\s*LOSS[:\s]*([0-9]{1,2}/[0-9]{1,2}/[0-9]{2,4})" ]);
    ("time_of_loss",
      [ "DATE\s*OF\s*LOSS\s*AND\s*TIME.*?([0-9]{1,2}:[0-9]{2}\s*[AP]M)";
        "TIME\s*([0-9]{1,2}:[0-9]{2}\s*[AP]M)" ]);
    ("location",
      [ "LOCATION\s*OF\s*LOSS\s*(.*?)(?=POLICE\s*OR\s*FIRE|DESCRIBE\s*LOCATION)";
        "STREET[:\s]*(.*?)(?=\n|CITY)";
        "CITY,\s*STATE,\s*ZIP[:\s]*(.*?)(?=\n|REPORT)" ]);
    ("description",
      [ "DESCRIPTION\s*OF\s*ACCIDENT\s*(.*?)(?=1\.\s*WAS\s*A\s*STANDARD|Page\s*\d+|ACORD)";
        "DESCRIBE\s*DAMAGE\s*(.*?)(?=\n\n|ESTIMATE\s*AMOUNT)" ]);
    ("estimate_amount",
      [ "ESTIMATE\s*AMOUNT[:\s]*\$?\s*([0-9,]+\.?[0-9]*)";
        "Damage\s*Estimate[:\s]*\$?\s*([0-9,]+\.?[0-9]*)" ]);
    ("vin",
      [ "V\.I\.N\.\s*[:\s]*([A-Z0-9]{17})";
        "VIN[:\s]*([A-Z0-9]{17})" ]);
    ("make",
      [ "MAKE[:\s]*([A-Za-z\s]+)(?=\n|MODEL|BODY)" ]);
    ("model",
      [ "MODEL[:\s]*([A-Za-z0-9\s]+)(?=\n|V\.I\.N\.)" ]);
    ("year",
      [ "YEAR\s*([0-9]{4})" ]);
    ("plate_number",
      [ "PLATE\s*NUMBER\s*([A-Z0-9\-\s]+)(?=\n|STATE)" ]);
    ("carrier",
      [ "CARRIER\s*([A-Za-z\s]+)(?=\n|NAIC)" ]);
    ("naic_code",
      [ "NAIC\s*CODE\s*([0-9]+)" ]) ].

(** The character table of [_clean_acord_text]; the full-width forms
    are written as their UTF-8 bytes. *)
Definition REPLACEMENTS : list (string * string) :=
  [ ("l", "I"); ("|", "I");
    ("１", "1"); ("２", "2"); ("３", "3"); ("４", "4"); ("５", "5");
    ("６", "6"); ("７", "7"); ("８", "8"); ("９", "9"); ("０", "0");
    ("．", "."); ("，", ","); ("；", ";"); ("：", ":");
    ("（", "("); ("）", ")"); ("［", "["); ("］", "]");
    ("｛", "{"); ("｝", "}"); ("＄", "$") ].

Definition STANDARDIZATIONS : list (string * string) :=
  [ ("POLICY NO", "POLICY NUMBER");
    ("POLICY#", "POLICY NUMBER");
    ("POL NO", "POLICY NUMBER");
    ("VEHICLE ID NUMBER", "V.I.N.");
    ("VEHICLE ID", "V.I.N.");
    ("ESTIMATED DAMAGES", "ESTIMATE AMOUNT");
    ("LOSS DATE", "DATE OF LOSS");
    ("INSUREDS NAME", "NAME OF INSURED");
    ("NAIC NO", "NAIC CODE") ].

Definition _clean_acord_text (text : string) : py string :=
  if Str.is_empty text then Ok EmptyString
  else
    (* double spaces are kept, as field separators *)
    let* text := Re.sub Re.NOFLAG " {2,}" "  " text in
    let text := apply_corrections REPLACEMENTS text in
    let text := apply_corrections STANDARDIZATIONS text in
    Ok text.

Definition SECTION_PATTERNS : list string :=
  [ "VEH\s*#.*?DESCRIBE DAMAGE";
    "VEHICLE INFORMATION.*?DESCRIBE DAMAGE";
    "YEAR.*?DESCRIBE DAMAGE" ].

Fixpoint find_section (text : string) (patterns : list string)
  : py (option string) :=
  match patterns with
  | [] => Ok None
  | pattern :: rest =>
      let* found := Re.search Re.IS pattern text in
      match found with
      | Some m => Ok (Some (Re.group m 0))
      | None => find_section text rest
      end
  end.

Definition _find_vehicle_section (text : string) : py (option string) :=
  find_section text SECTION_PATTERNS.

(** [m = re.search(pattern, section); if m: table_data[key] = f(m.group(1))] *)
Definition cell (pattern section key : string) (f : string → string)
    (table_data : gmap string pyobj) : py (gmap string pyobj) :=
  let* found := Re.search Re.NOFLAG pattern section in
  match found with
  | Some m => Ok (<[key := VStr (f (Re.group m 1))]> table_data)
  | None => Ok table_data
  end.

Definition _extract_from_acord_tables (text : string) : py (gmap string pyobj) :=
  let* vehicle_section := _find_vehicle_section text in
  match vehicle_section with
  | Some section =>
      if Str.is_empty section then Ok ∅
      else
        let* t := cell "YEAR\s*([0-9]{4})" section "year" id ∅ in
        let* t := cell "MAKE[:\s]*([A-Za-z\s]+?)(?=\s{2,}|\n|MODEL|BODY)" section
                    "make" Str.strip t in
        let* t := cell "MODEL[:\s]*([A-Za-z0-9\s]+?)(?=\s{2,}|\n|V\.I\.N\.)" section
                    "model" Str.strip t in
        let* t := cell "V\.I\.N\.\s*[:\s]*([A-Z0-9]{17})" section "vin" id t in
        let* t := cell "PLATE\s*NUMBER\s*([A-Z0-9\-\s]+?)(?=\s{2,}|\n|STATE)" section
                    "plate_number" Str.strip t in
        Ok t
  | None => Ok ∅
  end.

Definition ACORD_INJURY_WORDS : list string :=
  [ "injury"; "injured"; "hurt"; "pain"; "hospital"; "ambulance" ].

Definition AMOUNT_PATTERNS : list string :=
  [ "\$([0-9,]+\.?[0-9]*)\s*(?:estimate|damage|amount)";
    "Amount[:\s]*\$?\s*([0-9,]+\.?[0-9]*)";
    "([0-9,]+\.?[0-9]*)\s*dollars" ].

Fixpoint find_amount (full_text : string) (patterns : list string)
    (extracted : gmap string pyobj) : py (gmap string pyobj) :=
  match patterns with
  | [] => Ok extracted
  | pattern :: rest =>
      let* found := Re.search Re.I pattern full_text in
      match found with
      | Some m =>
          Ok (<["estimate_amount" := VNum (_parse_amount (Re.group m 1))]> extracted)
      | None => find_amount full_text rest extracted
      end
  end.

(** The claim-type step of the post-processing. *)
Definition set_claim_type (extracted : gmap string pyobj) : py (gmap string pyobj) :=
  let extracted :=
    if negb (has_key extracted "claim_type")
    then <["claim_type" := VStr "vehicle_damage"]> extracted
    else extracted in
  match extracted !! "description" with
  | Some description =>
      let* desc := py_lower description in
      if RoutingEngine.any_in ACORD_INJURY_WORDS desc
      then Ok (<["claim_type" := VStr "injury"]> extracted)
      else Ok extracted
  | None => Ok extracted
  end.

Definition _post_process_acord_fields (extracted : gmap string pyobj)
    (full_text : string) : py (gmap string pyobj) :=
  let* extracted := set_claim_type extracted in
  (* the amount, looked for in other places *)
  let* extracted :=
    if absent_or_falsy extracted "estimate_amount"
    then find_amount full_text AMOUNT_PATTERNS extracted
    else Ok extracted in
  if negb (has_key extracted "estimate_amount") then
    let* estimate_section :=
      Re.search Re.I "ESTIMATE AMOUNT[:\s]*(.*?)(?:\n|$)" full_text in
    match estimate_section with
    | Some m =>
        let value := Str.strip (Re.group m 1) in
        if negb (Str.is_empty value)
        then Ok (<["estimate_amount" := VNum (_parse_amount value)]> extracted)
        else Ok extracted
    | None => Ok extracted
    end
  else Ok extracted.

Definition extract_acord_fields (document_text : string) : py (gmap string pyobj) :=
  let* text := _clean_acord_text document_text in
  let results := extract_patterns ACORD_PATTERNS text in
  let* table_data := _extract_from_acord_tables text in
  let results := dict_update results table_data in
  _post_process_acord_fields results text.

End ACORDParser.

(** ** The typed mapping of the data model

    Currency fields hold amounts and every other field holds text; the
    routing engine reads the description as text and the estimated
    damage as an amount. *)

Definition is_text (v : pyobj) : Prop := ∃ s, v = VStr s.
Definition is_amount (v : pyobj) : Prop := ∃ q, v = VNum q.

Definition well_typed (fields : gmap string pyobj) : Prop :=
  (∀ v, fields !! "description" = Some v → is_text v)
  ∧ (∀ v, fields !! "estimated_damage" = Some v → is_amount v).

(** The characters [_parse_amount] keeps. *)
Definition amount_char (c : ascii) : bool := Str.is_digit c || Ascii.eqb c ".".

(** The claim type the loss-notice post-processing gives a mapping that
    has none: "injury" when the description names an injury, the
    automobile default otherwise. *)
Definition acord_claim_type (extracted : gmap string pyobj) : string :=
  match extracted !! "description" with
  | Some (VStr d) =>
      if RoutingEngine.any_in ACORDParser.ACORD_INJURY_WORDS (Str.lower d)
      then "injury" else "vehicle_damage"
  | _ => "vehicle_damage"
  end.

(** ** Direct forms of the cleaning steps

    What the substitutions of [_clean_description] compute, written
    without regular expressions. *)

(** [l] without its leading characters that satisfy [p]. *)
Fixpoint skip (p : ascii → bool) (l : list ascii) : list ascii :=
  match l with
  | c :: rest => if p c then skip p rest else l
  | [] => []
  end.

(** The position reached from one by reading the characters that
    satisfy [p]. *)
Fixpoint run_past (p : ascii → bool) (bef aft : list ascii) (off : nat)
    (caps : list (nat * string)) : Re.state :=
  match aft with
  | c :: rest =>
      if p c then run_past p (c :: bef) rest (S off) caps
      else Re.State bef aft off caps
  | [] => Re.State bef aft off caps
  end.

(** Every run of characters that satisfy [p] becomes one [fill]. *)
Fixpoint squeeze (p : ascii → bool) (fill : string) (in_run : bool)
    (l : list ascii) : string :=
  match l with
  | [] => EmptyString
  | c :: rest =>
      if p c then
        (if in_run then squeeze p fill true rest
         else fill +:+ squeeze p fill true rest)
      else String c (squeeze p fill false rest)
  end.

(** [re.sub(r'\s+', ' ', s)] *)
Definition collapse_whitespace (s : string) : string :=
  squeeze Str.is_space " " false (Str.to_list s).



(** Every whitespace character is a space, and no two are adjacent. *)
Fixpoint single_spaced (l : list ascii) : bool :=
  match l with
  | [] => true
  | c :: rest =>
      (negb (Str.is_space c) || Ascii.eqb c " ")
      && match rest with
         | d :: _ => negb (Str.is_space c && Str.is_space d)
         | [] => true
         end
      && single_spaced rest
  end.

(** The keys of the vehicle block. *)
Definition vehicle_key (k : string) : Prop :=
  k = "year" ∨ k = "make" ∨ k = "model" ∨ k = "vin" ∨ k = "plate_number".

(** The two amount keys of a mapping: absent together, or equal. *)
Definition amounts_agree (fields : gmap string pyobj) : Prop :=
  fields !! "estimated_damage" = fields !! "estimate_amount".

(** ** Worked documents *)

Module Scenarios.

Definition lines (l : list string) : string := Str.join FieldExtractor.LF l.

(** A complete notice with a small amount. *)
Definition fast_track_notice : string :=
  lines [ "FNOL REPORT";
          "Policy Number: AUTO-78901234";
          "Policyholder Name: Sarah Johnson";
          "Date of Loss: February 1, 2024";
          "Location: 456 Oak Avenue, Springfield, IL 62704";
          "Estimate Amount: $8,200";
          "Description: Vehicle was side-swiped in a parking lot. Minor damage" ].

(** A notice that says too little. *)
Definition sparse_notice : string :=
  lines [ "Policy: ABC123"; "Name: John Doe"; "Date: Last week";
          "Car got hit."; "Estimate: Unknown" ].

(** Steps 2, 3 and 5 of [FNOLAgent.process_document], for a document that
    is not a loss-notice form: extraction, the missing fields, the route. *)
Definition process (text : string)
  : py (gmap string pyobj * list string * (string * string)) :=
  let* fields := FieldExtractor.extract_all_fields (Some text) in
  let missing := FieldExtractor.identify_missing_fields fields in
  let* decision := RoutingEngine.determine_route fields missing in
  Ok (fields, missing, decision).

End Scenarios.

(** ** routing_engine.py: the data-quality checks *)

Module Validator.

(** The three lists of [validation_results]. *)
Record report : Type := Report {
  warnings : list string;
  errors : list string;
  inconsistencies : list string
}.

(** A reading of the clock: the day and the microseconds since midnight. *)
Record moment : Type := Moment {
  today : Datetime.date;
  micros : N
}.

Definition date_ltb (a b : Datetime.date) : bool :=
  (Datetime.year a <? Datetime.year b)
  || ((Datetime.year a =? Datetime.year b)
      && ((Datetime.month a <? Datetime.month b)
          || ((Datetime.month a =? Datetime.month b)
              && (Datetime.day a <? Datetime.day b)))).

Definition date_eqb (a b : Datetime.date) : bool :=
  (Datetime.year a =? Datetime.year b)
  && (Datetime.month a =? Datetime.month b)
  && (Datetime.day a =? Datetime.day b).

(** [a > b] on two moments. *)
Definition moment_gtb (a b : moment) : bool :=
  date_ltb (today b) (today a)
  || (date_eqb (today a) (today b) && (micros b <? micros a)%N).

(** [len(v)]: a number has no length. *)
Definition py_len (v : pyobj) : py nat :=
  match v with
  | VStr s => Ok (String.length s)
  | VNum _ => Raise TypeError
  end.

(** The date check; whatever is raised inside it is swallowed. *)
Definition future_date_errors (now : moment) (date_str : pyobj) : list string :=
  if truthy date_str then
    match date_str with
    | VStr s =>
        match Datetime.strptime s "%Y-%m-%d" with
        | Ok loss_date =>
            if moment_gtb (Moment loss_date 0) now
            then ["Date of loss is in the future: " +:+ s]
            else []
        | Raise _ => []
        end
    | VNum _ => []
    end
  else [].

Definition validate_extracted_data (now : moment)
    (extracted_fields : gmap string pyobj) : py report :=
  (* unrealistic damage amounts *)
  let damage := dict_get extracted_fields "estimated_damage" (VNum 0) in
  let* high := py_gt damage 1000000 in
  let* warnings :=
    if high then
      let* amount := Fmt.py_comma_fixed 2 damage in
      Ok ["Unusually high damage amount: $" +:+ amount]
    else Ok [] in
  (* future dates *)
  let date_str := dict_get extracted_fields "date_of_loss" (VStr "") in
  let errors := future_date_errors now date_str in
  (* description length *)
  let description := dict_get extracted_fields "description" (VStr "") in
  let* n := py_len description in
  let warnings :=
    if (n <? 10)%nat
    then warnings ++ ["Description is very short, may be incomplete"]
    else warnings in
  (* claim type against description *)
  let claim_type := dict_get extracted_fields "claim_type" (VStr "") in
  let* inconsistencies :=
    if value_eqb claim_type (VStr "injury") then
      let* lowered := py_lower description in
      if negb (Str.contains "injury" lowered)
      then Ok ["Claim type is 'injury' but description doesn't mention injuries"]
      else Ok []
    else Ok [] in
  Ok (Report warnings errors inconsistencies).

End Validator.

(** ** document_loader.py: text cleaning *)

Module DocumentLoader.

Definition QUOTE : string := String (ascii_of_nat 34) EmptyString.

(** The character table of [_clean_text], in the order it is written;
    the full-width forms are written as their UTF-8 bytes. *)
Definition REPLACEMENTS : list (string * string) :=
  [ ("|", "I"); ("l", "I");
    ("０", "0"); ("１", "1"); ("２", "2"); ("３", "3"); ("４", "4");
    ("５", "5"); ("６", "6"); ("７", "7"); ("８", "8"); ("９", "9");
    ("．", "."); ("，", ","); ("；", ";"); ("：", ":");
    ("（", "("); ("）", ")"); ("［", "["); ("］", "]");
    ("｛", "{"); ("｝", "}"); ("＄", "$"); ("％", "%"); ("＆", "&");
    ("＠", "@"); ("＃", "#"); ("＊", "*"); ("＋", "+"); ("＝", "=");
    ("～", "~"); ("＾", "^"); ("＿", "_"); ("－", "-"); ("／", "/");
    ("＼", "\"); ("｜", "|"); ("＜", "<"); ("＞", ">"); ("？", "?");
    ("！", "!"); ("＂", QUOTE); ("＇", "'"); ("｀", "`") ].

(** [ord(char) >= 32 or ord(char) in [9, 10, 13]] *)
Definition keeps (c : ascii) : bool :=
  (32 <=? Str.code c)%nat
  || (Str.code c =? 9)%nat || (Str.code c =? 10)%nat || (Str.code c =? 13)%nat.

Definition _clean_text (text : string) : py string :=
  if Str.is_empty text then Ok EmptyString
  else
    let* text := Re.sub Re.NOFLAG "\s+" " " text in
    let text := FieldExtractor.apply_corrections REPLACEMENTS text in
    let text := Str.filter keeps text in
    Ok (Str.strip text).

End DocumentLoader.

(** ** acord_parser.py: the document entry point *)

Module ACORDEntry.

(** [ACORDParser.parse_acord_document], on the text of the document. *)
Definition parse_acord_document (text : string) : py (gmap string pyobj) :=
  if Str.is_empty text then Ok ∅
  else ACORDParser.extract_acord_fields text.

End ACORDEntry.

(** ** main.py: the agent *)

Module FNOLAgent.

(** ['ACORD' in text.upper() or 'acord' in text.lower()] *)
Definition is_acord (text : string) : bool :=
  Str.contains "ACORD" (Str.upper text) || Str.contains "acord" (Str.lower text).

(** What [process_document] compiles for a document that went through. *)
Record analysis : Type := Analysis {
  extractedFields : gmap string pyobj;
  missingFields : list string;
  validation : Validator.report;
  recommendedRoute : string;
  reasoning : string
}.

(** The body of the [try] of [process_document], from the loaded text on:
    steps 2 to 6. *)
Definition analyse (now : Validator.moment) (text : string) : py analysis :=
  if Str.is_empty text then Raise ValueError
  else
    let* extracted_fields :=
      if is_acord text then ACORDParser.extract_acord_fields text
      else FieldExtractor.extract_all_fields (Some text) in
    let missing_fields := FieldExtractor.identify_missing_fields extracted_fields in
    let* validation_results := Validator.validate_extracted_data now extracted_fields in
    let* decision := RoutingEngine.determine_route extracted_fields missing_fields in
    Ok (Analysis extracted_fields missing_fields validation_results
                 decision.1 decision.2).

(** The counters of [self.stats]; the average time is left out. *)
Record stats : Type := Stats {
  processed : nat;
  failures : nat;
  routes : gmap string nat
}.

Definition no_stats : stats := Stats O O ∅.

(** [if route in routes: routes[route] += 1 else: routes[route] = 1] *)
Definition count_route (route : string) (routes : gmap string nat) : gmap string nat :=
  match routes !! route with
  | Some n => <[route := S n]> routes
  | None => <[route := 1%nat]> routes
  end.

(** The outcome of one document: what was compiled, or the exception
    that the handler turned into an error result. *)
Definition ERROR_ROUTE : string := "Error - Manual Review".

Definition route_of (outcome : py analysis) : string :=
  match outcome with
  | Ok a => recommendedRoute a
  | Raise _ => ERROR_ROUTE
  end.

(** [process_document]: [loaded] is what the loader gave, its text or the
    exception it raised. *)
Definition process_document (now : Validator.moment) (loaded : py string)
    (st : stats) : py analysis * stats :=
  let outcome := let* text := loaded in analyse now text in
  match outcome with
  | Ok a =>
      (outcome,
       Stats (S (processed st)) (failures st)
             (count_route (recommendedRoute a) (routes st)))
  | Raise _ => (outcome, Stats (processed st) (S (failures st)) (routes st))
  end.

(** [process_batch]: the documents in turn, on the same counters. *)
Fixpoint process_batch (now : Validator.moment) (loaded : list (py string))
    (st : stats) : list (py analysis) * stats :=
  match loaded with
  | [] => ([], st)
  | doc :: rest =>
      let '(outcome, st') := process_document now doc st in
      let '(outcomes, st'') := process_batch now rest st' in
      (outcome :: outcomes, st'')
  end.

End FNOLAgent.

(** ** Vocabulary of the pipeline properties *)

(** The claim types [_infer_claim_type] can give. *)
Definition CLAIM_TYPES : list string :=
  [ "injury"; "theft"; "fire"; "water_damage"; "vandalism";
    "vehicle_damage"; "property_damage" ].

(** The currency fields of [_clean_field_value]. *)
Definition amount_field (k : string) : bool :=
  FieldExtractor.member k ["estimated_damage"; "initial_estimate"; "estimate_amount"].

(** An amount that is not negative. *)
Definition nonneg_amount (v : pyobj) : Prop := ∃ q, v = VNum q ∧ (0 <= q)%Q.

(** The keys of the contact block. *)
Definition contact_key (k : string) : Prop :=
  k = "contact_phone" ∨ k = "contact_email".

(** Every character of [s] satisfies [p]. *)
Definition all_chars (p : ascii → bool) (s : string) : bool :=
  forallb p (Str.to_list s).

(** Neither the first nor the last character of [s] is whitespace. *)
Definition trimmed (s : string) : Prop :=
  (∀ c rest, s = String c rest → Str.is_space c = false)
  ∧ (∀ front c, s = front +:+ String c EmptyString → Str.is_space c = false).

(** [datetime.date] accepts the fields of [dt]. *)
Definition valid_date (dt : Datetime.date) : Prop :=
  1 ≤ Datetime.year dt ≤ 9999
  ∧ 1 ≤ Datetime.month dt ≤ 12
  ∧ 1 ≤ Datetime.day dt ≤ Datetime.days_in_month (Datetime.year dt) (Datetime.month dt).

(** The patterns the catalogue files under a field. *)
Definition patterns_of (catalogue : list (string * list string)) (field : string)
  : list string :=
  default [] (snd <$> List.find (fun e => String.eqb (fst e) field) catalogue).

(** The outcomes of a batch that went through, and those that did not. *)
Definition succeeded {A : Type} (outcomes : list (py A)) : list A :=
  omap (fun o => match o with Ok a => Some a | Raise _ => None end) outcomes.

Definition failed {A : Type} (outcomes : list (py A)) : list exn :=
  omap (fun o => match o with Ok _ => None | Raise e => Some e end) outcomes.

(** The documents counted under all the routes together. *)
Definition routed (routes : gmap string nat) : nat :=
  map_fold (fun _ n acc => (n + acc)%nat) O routes.

(** A telephone number as the contact block stores it: digits only, ten
    of them at least. *)
Definition is_phone (v : pyobj) : Prop :=
  ∃ s, v = VStr s ∧ all_chars Str.is_digit s = true ∧ (10 ≤ String.length s)%nat.

(** A text without capital letters. *)
Definition is_lowercase (v : pyobj) : Prop :=
  ∃ s, v = VStr s ∧ all_chars (fun c => negb (Str.is_upper c)) s = true.

(** The look-behind pattern of the policy number. *)
Definition POLICY_LOOKBEHIND : string :=
  "(?<=\bPolicy(?: Number|#| No\.?)?[:\s])([A-Z0-9\-_]+[A-Z0-9])".

(** All the patterns of a catalogue. *)
Definition all_patterns (catalogue : list (string * list string)) : list string :=
  concat (snd <$> catalogue).

(** The number of decimal points of [s]. *)
Definition points (s : string) : nat :=
  length (List.filter (Ascii.eqb ".") (Str.to_list s)).

(** A character of a cleaned document text: no control character, and
    not the small letter L. *)
Definition clean_char (c : ascii) : bool :=
  (32 <=? Str.code c)%nat && negb (Ascii.eqb c "l").

(** What [process_document] does with a loaded text, or with the
    exception of the loader. *)
Definition outcome_of (now : Validator.moment) (loaded : py string)
  : py FNOLAgent.analysis :=
  let* text := loaded in FNOLAgent.analyse now text.

(** A whitespace character that is a space, and the characters other
    than the small letter L and the vertical bar. *)
Definition blank_is_space (c : ascii) : bool :=
  negb (Str.is_space c) || Ascii.eqb c " ".
Definition not_l (c : ascii) : bool := negb (Ascii.eqb c "l").
Definition not_bar (c : ascii) : bool := negb (Ascii.eqb c "|").

(** A text without small letters. *)
Definition is_uppercase (v : pyobj) : Prop :=
  ∃ s, v = VStr s ∧ all_chars (fun c => negb (Str.is_lower c)) s = true.

(** ** The decimal a cleaned amount spells

    The coercion of the data model in its own words: digits with at most
    one decimal point and one digit at least, read place by place. *)

(** The value of a character as a decimal digit. *)
Definition digit_of (c : ascii) : Z := Z.of_nat (Str.code c) - 48.

(** The number a run of digits spells, each digit at its place. *)
Fixpoint decimal_value (s : string) : Z :=
  match s with
  | EmptyString => 0
  | String c s' =>
      digit_of c * 10 ^ Z.of_nat (String.length s') + decimal_value s'
  end.

(** [s] spells the decimal [n / 10^k]: digits, then possibly a point and
    [k] further digits, with one digit at least on either side. *)
Definition spells (s : string) (n : Z) (k : nat) : Prop :=
  ∃ whole frac,
    all_chars Str.is_digit whole = true
    ∧ all_chars Str.is_digit frac = true
    ∧ whole +:+ frac ≠ EmptyString
    ∧ (s = whole +:+ "." +:+ frac ∨ (s = whole ∧ frac = EmptyString))
    ∧ n = decimal_value (whole +:+ frac)
    ∧ k = String.length frac.

(** The decimal [n / 10^k] as an amount. *)
Definition decimal (n : Z) (k : nat) : Q := n # Z.to_pos (10 ^ Z.of_nat k).

(** The amounts a binary64 float holds exactly: [m * 2^e] with a
    significand below [2^53] and an exponent of the format. *)
Definition binary64 (q : Q) : Prop :=
  ∃ m e : Z,
    0 ≤ m < 2 ^ 53 ∧ -1074 ≤ e ≤ 971 ∧ (q == inject_Z m * Qpower 2 e)%Q.

(** A character of the ASCII range, where the digits of [\d] are the ten
    ASCII digits. *)
Definition is_ascii (c : ascii) : bool := (Str.code c <? 128)%nat.

(** * Properties *)

(** ** Strings *)

Module StrFacts.

Lemma app_cons c s t : String c s +:+ t = String c (s +:+ t).
Proof. reflexivity. Qed.

Lemma app_nil_l t : EmptyString +:+ t = t.
Proof. reflexivity. Qed.

Lemma app_nil_r s : s +:+ EmptyString = s.
Proof. induction s as [|c s IH]; [reflexivity|]. rewrite app_cons. by f_equal. Qed.

Lemma app_assoc s t u : (s +:+ t) +:+ u = s +:+ (t +:+ u).
Proof.
  induction s as [|c s IH]; [reflexivity|].
  rewrite !app_cons. by f_equal.
Qed.

Lemma length_app s t :
  String.length (s +:+ t) = (String.length s + String.length t)%nat.
Proof.
  induction s as [|c s IH]; [reflexivity|].
  rewrite app_cons. simpl. by rewrite IH.
Qed.

Lemma app_nonempty_l s t : s ≠ EmptyString → s +:+ t ≠ EmptyString.
Proof. destruct s; [done|]. intros _. by rewrite app_cons. Qed.

Lemma starts_with_app p s : Str.starts_with p (p +:+ s) = true.
Proof.
  induction p as [|c p IH]; [by destruct s|].
  rewrite app_cons. simpl. by rewrite Ascii.eqb_refl.
Qed.

Lemma contains_unfold p s :
  Str.contains p s =
  Str.starts_with p s
  || match s with EmptyString => false | String _ s' => Str.contains p s' end.
Proof. by destruct s. Qed.

Lemma contains_app a p b : Str.contains p (a +:+ p +:+ b) = true.
Proof.
  induction a as [|c a IH].
  - rewrite app_nil_l, contains_unfold, starts_with_app. done.
  - rewrite app_cons, contains_unfold, IH. apply orb_true_r.
Qed.

Lemma join_cons sep p q rest :
  Str.join sep (p :: q :: rest) = p +:+ sep +:+ Str.join sep (q :: rest).
Proof. reflexivity. Qed.

(** Every part of a joined string occurs in it. *)
Lemma join_elem sep (parts : list string) x :
  x ∈ parts → ∃ a b, Str.join sep parts = a +:+ x +:+ b.
Proof.
  induction parts as [|p rest IH]; [by intros ?%elem_of_nil|].
  intros [->|Hin]%elem_of_cons.
  - destruct rest as [|q rest].
    + exists EmptyString, EmptyString. by rewrite app_nil_l, app_nil_r.
    + exists EmptyString, (sep +:+ Str.join sep (q :: rest)). by rewrite join_cons.
  - destruct rest as [|q rest]; [by apply elem_of_nil in Hin|].
    destruct (IH Hin) as (a & b & Heq).
    exists (p +:+ sep +:+ a), b.
    rewrite join_cons, Heq, !app_assoc. done.
Qed.

Lemma join_starts_with sep p rest :
  Str.starts_with p (Str.join sep (p :: rest)) = true.
Proof.
  destruct rest as [|q rest].
  - simpl. rewrite <- (app_nil_r p) at 2. apply starts_with_app.
  - rewrite join_cons. apply starts_with_app.
Qed.

Lemma join_nonempty sep p rest :
  p ≠ EmptyString → Str.join sep (p :: rest) ≠ EmptyString.
Proof.
  intros Hp. destruct rest as [|q rest]; [done|].
  rewrite join_cons. by apply app_nonempty_l.
Qed.

End StrFacts.

(** ** The routing engine *)

Module RoutingFacts.

Import RoutingEngine.

(** The keyword loop keeps the keywords that occur, in list order. *)
Lemma keywords_in_filter keywords description :
  keywords_in keywords description
  = List.filter (fun kw => Str.contains kw description) keywords.
Proof.
  unfold keywords_in.
  enough (H : ∀ acc,
    fold_left
      (fun found keyword =>
         if Str.contains keyword description then found ++ [keyword] else found)
      keywords acc
    = acc ++ List.filter (fun kw => Str.contains kw description) keywords)
    by apply (H []).
  induction keywords as [|kw kws IH]; intros acc; simpl.
  - by rewrite app_nil_r.
  - rewrite IH. destruct (Str.contains kw description); [|done].
    by rewrite <- app_assoc.
Qed.

Lemma keywords_in_nil_iff keywords description :
  keywords_in keywords description = []
  ↔ ∀ kw, kw ∈ keywords → Str.contains kw description = false.
Proof.
  rewrite keywords_in_filter. induction keywords as [|k ks IH]; simpl.
  - split; [intros _ kw Hin; by apply elem_of_nil in Hin|done].
  - destruct (Str.contains k description) eqn:Hk.
    + split; [done|]. intros H. specialize (H k (list_elem_of_here _ _)). congruence.
    + rewrite IH. split.
      * intros H kw [->|Hin]%elem_of_cons; auto.
      * intros H kw Hin. apply H. by apply list_elem_of_further.
Qed.

Lemma additional_factors_ok (extracted : gmap string pyobj) d :
  dict_get extracted "description" (VStr "") = VStr d →
  ∃ extra, _check_additional_factors extracted = Ok extra.
Proof.
  intros Hd. unfold _check_additional_factors. rewrite Hd. simpl. eauto.
Qed.

Lemma dict_get_some (fields : gmap string pyobj) key dflt v :
  fields !! key = Some v → dict_get fields key dflt = v.
Proof. unfold dict_get. by intros ->. Qed.

Lemma threshold_text : Fmt.comma_fixed 0 Config.FAST_TRACK_THRESHOLD = "25,000".
Proof. vm_compute. reflexivity. Qed.

(** The outcome of rule 4, once rules 1 to 3 have not fired. *)
Lemma rule4_outcome (extracted : gmap string pyobj) d q extra :
  dict_get extracted "description" (VStr "") = VStr d →
  dict_get extracted "estimated_damage" (VNum 0) = VNum q →
  keywords_in Config.FRAUD_KEYWORDS (Str.lower d) = [] →
  value_eqb (dict_get extracted "claim_type" (VStr "property_damage")) (VStr "injury")
    = false →
  _check_additional_factors extracted = Ok extra →
  determine_route extracted [] =
    Ok (if Qle_bool q 0 then
          (MANUAL_REVIEW,
           Str.join ". "
             ("Damage amount not specified or could not be extracted" :: extra))
        else if Qle_bool Config.FAST_TRACK_THRESHOLD q then
          (STANDARD_PROCESSING,
           Str.join ". "
             (("Estimated damage ($" +:+ Fmt.comma_fixed 2 q
                 +:+ ") meets or exceeds $25,000 threshold") :: extra))
        else
          (FAST_TRACK,
           Str.join ". "
             (("Estimated damage ($" +:+ Fmt.comma_fixed 2 q
                 +:+ ") is below $25,000 threshold") :: extra))).
Proof.
  intros Hd Hq Hfraud Hinj Hextra.
  unfold determine_route. rewrite Hd, Hq, Hinj. cbn [py_lower py_bind].
  rewrite Hfraud, Hextra. unfold py_gt, py_lt, Fmt.py_comma_fixed.
  rewrite threshold_text. cbn [py_bind].
  destruct (Qle_bool q 0); cbn [negb py_bind fst snd]; [done|].
  destruct (Qle_bool Config.FAST_TRACK_THRESHOLD q); cbn [negb py_bind fst snd]; done.
Qed.

End RoutingFacts.

(** C1. Whatever the extracted fields are, a non-empty list of missing
    fields is routed to manual review; the reasoning is the single
    fragment of rule 1, and every missing field occurs in it. *)
Theorem missing_fields_manual_review
    (extracted : gmap string pyobj) (missing : list string) :
  missing ≠ [] →
  ∃ reasoning,
    RoutingEngine.determine_route extracted missing
      = Ok ("Manual Review", reasoning)
    ∧ reasoning = "Missing required fields: " +:+ Str.join ", " missing
    ∧ ∀ field, field ∈ missing → Str.contains field reasoning = true.
Proof.
  intros Hne. eexists. split; [|split; [reflexivity|]].
  - destruct missing as [|f rest]; [done|]. reflexivity.
  - intros field Hin.
    destruct (StrFacts.join_elem ", " missing field Hin) as (a & b & ->).
    rewrite <- StrFacts.app_assoc. apply StrFacts.contains_app.
Qed.

Lemma missing_fields_manual_review_witness :
  ∃ reasoning,
    RoutingEngine.determine_route
      (<["policy_number" := VStr "TEST123"]> ∅) ["location"; "description"]
      = Ok ("Manual Review", reasoning)
    ∧ reasoning = "Missing required fields: " +:+ Str.join ", " ["location"; "description"]
    ∧ ∀ field, field ∈ ["location"; "description"] →
               Str.contains field reasoning = true.
Proof.
  apply (missing_fields_manual_review
           (<["policy_number" := VStr "TEST123"]> ∅) ["location"; "description"]).
  discriminate.
Defined.

(** C2. With no missing field and a description that contains a fraud
    keyword, the route is the investigation flag, whatever the damage
    amount and the claim type; the reasoning lists the first three
    keywords found, in the order of the keyword list. *)
Theorem fraud_gate_investigation
    (extracted : gmap string pyobj) (d : string) :
  extracted !! "description" = Some (VStr d) →
  (∃ kw, kw ∈ Config.FRAUD_KEYWORDS ∧ Str.contains kw (Str.lower d) = true) →
  let found :=
    List.filter (fun kw => Str.contains kw (Str.lower d)) Config.FRAUD_KEYWORDS in
  RoutingEngine.determine_route extracted []
    = Ok ("Investigation Flag",
          "Fraud indicators detected: " +:+ Str.join ", " (take 3 found))
  ∧ (1 ≤ length (take 3 found) ≤ 3)%nat.
Proof.
  intros Hd (kw & Hkw & Hin) found.
  assert (Hfound : RoutingEngine.keywords_in Config.FRAUD_KEYWORDS (Str.lower d) = found)
    by apply RoutingFacts.keywords_in_filter.
  clearbody found.
  assert (Hne : found ≠ []).
  { intros Hnil. rewrite Hnil in Hfound.
    apply RoutingFacts.keywords_in_nil_iff with (kw := kw) in Hfound; [congruence|done]. }
  split.
  - unfold RoutingEngine.determine_route.
    rewrite (RoutingFacts.dict_get_some _ _ _ _ Hd). cbn [py_lower py_bind].
    rewrite Hfound. destruct found as [|k ks]; [done|]. reflexivity.
  - rewrite length_take. destruct found as [|k ks]; [done|]. cbn [length]. lia.
Qed.

Lemma fraud_gate_investigation_witness :
  RoutingEngine.determine_route
    (<["description" := VStr "Suspicious claim, possibly staged accident for fraud"]>
       (<["estimated_damage" := VNum 18000]>
          (<["claim_type" := VStr "injury"]> ∅))) []
    = Ok ("Investigation Flag", "Fraud indicators detected: fraud, staged, suspicious").
Proof.
  refine (proj1 (fraud_gate_investigation
            (<["description" := VStr "Suspicious claim, possibly staged accident for fraud"]>
               (<["estimated_damage" := VNum 18000]>
                  (<["claim_type" := VStr "injury"]> ∅)))
            "Suspicious claim, possibly staged accident for fraud" _ _)).
  - reflexivity.
  - exists "fraud". split; [apply list_elem_of_here|reflexivity].
Defined.

Module RoutingTotal.

Import RoutingEngine.

Lemma typed_description (extracted : gmap string pyobj) :
  well_typed extracted →
  ∃ d, dict_get extracted "description" (VStr "") = VStr d.
Proof.
  intros [Hd _]. unfold dict_get.
  destruct (extracted !! "description") as [v|] eqn:E; [|by eexists].
  destruct (Hd v eq_refl) as [s ->]. by eexists.
Qed.

Lemma typed_damage (extracted : gmap string pyobj) :
  well_typed extracted →
  ∃ q, dict_get extracted "estimated_damage" (VNum 0) = VNum q.
Proof.
  intros [_ Hq]. unfold dict_get.
  destruct (extracted !! "estimated_damage") as [v|] eqn:E; [|by eexists].
  destruct (Hq v eq_refl) as [q ->]. by eexists.
Qed.

Lemma route_listed route : In route ROUTES → route ∈ ROUTES.
Proof. intros H. by apply list_elem_of_In. Qed.

Lemma not_injury_eqb v :
  v ≠ VStr "injury" → value_eqb v (VStr "injury") = false.
Proof.
  intros Hne. destruct v as [s|q]; [|done]. simpl.
  apply String.eqb_neq. congruence.
Qed.

Lemma lower_app s t : Str.lower (s +:+ t) = Str.lower s +:+ Str.lower t.
Proof.
  induction s as [|c s IH]; [done|].
  rewrite StrFacts.app_cons. unfold Str.lower in *. simpl.
  rewrite IH. by rewrite StrFacts.app_cons.
Qed.

Lemma lower_join_starts_with frag rest :
  Str.starts_with (Str.lower frag) (Str.lower (Str.join ". " (frag :: rest))) = true.
Proof.
  destruct rest as [|q rest].
  - simpl. rewrite <- (StrFacts.app_nil_r (Str.lower frag)) at 2.
    apply StrFacts.starts_with_app.
  - rewrite StrFacts.join_cons, lower_app. apply StrFacts.starts_with_app.
Qed.

(** Outside the typed mappings the engine does raise: a description that
    is a number has no [lower]. *)
Remark untyped_description_raises :
  determine_route {[ "description" := VNum 1 ]} [] = Raise AttributeError.
Proof. reflexivity. Qed.

End RoutingTotal.

(** C3. When rules 1 to 3 do not fire (nothing missing, no fraud keyword
    in the description, claim type other than injury), the damage amount
    decides: strictly positive and below 25,000 is fast-track, 25,000 or
    more is standard processing, each with the amount, the threshold and
    the comparison in the first reasoning fragment; no strictly positive
    amount is manual review, with the fragment about the amount that was
    not specified.  The additional-factor fragments follow. *)
Theorem damage_threshold_gate
    (extracted : gmap string pyobj) (d : string) (q : Q) :
  dict_get extracted "description" (VStr "") = VStr d →
  dict_get extracted "estimated_damage" (VNum 0) = VNum q →
  (∀ kw, kw ∈ Config.FRAUD_KEYWORDS → Str.contains kw (Str.lower d) = false) →
  dict_get extracted "claim_type" (VStr "property_damage") ≠ VStr "injury" →
  ∃ extra,
    RoutingEngine._check_additional_factors extracted = Ok extra
    ∧ ((0 < q)%Q ∧ (q < 25000)%Q →
       RoutingEngine.determine_route extracted [] =
         Ok ("Fast-track",
             Str.join ". "
               (("Estimated damage ($" +:+ Fmt.comma_fixed 2 q
                   +:+ ") is below $25,000 threshold") :: extra)))
    ∧ ((25000 <= q)%Q →
       RoutingEngine.determine_route extracted [] =
         Ok ("Standard Processing",
             Str.join ". "
               (("Estimated damage ($" +:+ Fmt.comma_fixed 2 q
                   +:+ ") meets or exceeds $25,000 threshold") :: extra)))
    ∧ (¬ (0 < q)%Q →
       ∃ reasoning,
         RoutingEngine.determine_route extracted [] = Ok ("Manual Review", reasoning)
         ∧ reasoning =
             Str.join ". "
               ("Damage amount not specified or could not be extracted" :: extra)
         ∧ Str.starts_with
             "damage amount not specified or could not be extracted"
             (Str.lower reasoning) = true).
Proof.
  intros Hd Hq Hfraud Hinj.
  destruct (RoutingFacts.additional_factors_ok extracted d Hd) as [extra Hextra].
  exists extra. split; [done|].
  pose proof (RoutingFacts.rule4_outcome extracted d q extra Hd Hq
                (proj2 (RoutingFacts.keywords_in_nil_iff _ _) Hfraud)
                (RoutingTotal.not_injury_eqb _ Hinj) Hextra) as Hroute.
  rewrite Hroute. clear Hroute. repeat split.
  - intros [Hpos Hlt].
    destruct (Qle_bool q 0) eqn:E0.
    { apply Qle_bool_iff in E0. exfalso. apply (Qlt_not_le _ _ Hpos E0). }
    destruct (Qle_bool Config.FAST_TRACK_THRESHOLD q) eqn:E1; [|done].
    apply Qle_bool_iff in E1. exfalso. apply (Qlt_not_le _ _ Hlt E1).
  - intros Hge.
    destruct (Qle_bool q 0) eqn:E0.
    { apply Qle_bool_iff in E0. exfalso.
      apply (Qlt_not_le 0 25000); [reflexivity|]. by apply Qle_trans with q. }
    destruct (Qle_bool Config.FAST_TRACK_THRESHOLD q) eqn:E1; [done|].
    exfalso. apply Qle_bool_iff in Hge. unfold Config.FAST_TRACK_THRESHOLD in E1.
    congruence.
  - intros Hnpos. eexists. split; [|split; [reflexivity|]].
    + destruct (Qle_bool q 0) eqn:E0; [done|].
      exfalso. apply Hnpos. apply Qnot_le_lt. intros Hle.
      apply Qle_bool_iff in Hle. congruence.
    + apply (RoutingTotal.lower_join_starts_with
               "Damage amount not specified or could not be extracted").
Qed.

Lemma damage_threshold_gate_witness :
  RoutingEngine.determine_route
    (<["description" := VStr "Minor scratch on bumper"]>
       (<["estimated_damage" := VNum 8000]>
          (<["claim_type" := VStr "vehicle_damage"]> ∅))) []
  = Ok ("Fast-track", "Estimated damage ($8,000.00) is below $25,000 threshold").
Proof.
  destruct (damage_threshold_gate
              (<["description" := VStr "Minor scratch on bumper"]>
                 (<["estimated_damage" := VNum 8000]>
                    (<["claim_type" := VStr "vehicle_damage"]> ∅)))
              "Minor scratch on bumper" 8000)
    as (extra & Hextra & Hfast & _).
  - reflexivity.
  - reflexivity.
  - intros kw Hkw. apply list_elem_of_In in Hkw. simpl in Hkw.
    repeat (destruct Hkw as [<-|Hkw]; [vm_compute; reflexivity|]). destruct Hkw.
  - discriminate.
  - vm_compute in Hextra. injection Hextra as <-.
    rewrite Hfast; [reflexivity|]. split; reflexivity.
Defined.




(** ** Regular expressions: deleting the characters of a class *)

Module ReFacts.

Import Re.

Lemma length_to_list s : length (Str.to_list s) = String.length s.
Proof. induction s as [|c s IH]; simpl; [done|]. by rewrite IH. Qed.

Lemma of_list_cons c l : Str.of_list (c :: l) = String c (Str.of_list l).
Proof. reflexivity. Qed.

(** [re.sub] with a negated class and an empty replacement keeps exactly
    the characters outside the class. *)
Lemma sub_go_negated_class fl items fuel st :
  (length (after st) < fuel)%nat →
  sub_go fl (Set_ true items) EmptyString fuel st
  = Str.of_list (List.filter (fun c => negb (in_set fl true items c)) (after st)).
Proof.
  revert st. induction fuel as [|fuel IH]; intros st Hlen; [lia|].
  destruct st as [bef aft off caps]. simpl in Hlen.
  destruct aft as [|c rest].
  - reflexivity.
  - simpl in Hlen. cbn [sub_go]. unfold match_at. cbn [run after].
    destruct (in_set fl true items c) eqn:Hin.
    + cbn [advance mbind option_bind option_ret offset m_end m_start before after captures].
      replace (S off =? off)%nat with false by (symmetry; apply Nat.eqb_neq; lia).
      replace (S off - off)%nat with 1%nat by lia.
      cbn [take drop rev_append List.filter]. rewrite Hin. cbn [negb].
      rewrite StrFacts.app_nil_l.
      change (drop 0 rest) with rest. change (take 0 rest) with (@nil ascii).
      rewrite IH by (simpl; lia). reflexivity.
    + cbn [mbind option_bind List.filter]. rewrite Hin. cbn [negb].
      rewrite of_list_cons. f_equal.
      rewrite IH by (simpl; lia). reflexivity.
Qed.

Lemma sub_negated_class fl pattern items n text :
  compile pattern = Some (Set_ true items, n) →
  sub fl pattern EmptyString text
  = Ok (Str.filter (fun c => negb (in_set fl true items c)) text).
Proof.
  intros Hc. unfold sub. rewrite Hc. f_equal.
  rewrite sub_go_negated_class; [done|].
  simpl. rewrite length_to_list. lia.
Qed.

End ReFacts.

(** ** Currency coercion *)

Module AmountFacts.

Import FieldExtractor.

Lemma clean_amount amount_str :
  Re.sub Re.NOFLAG "[^\d.]" "" amount_str = Ok (Str.filter amount_char amount_str).
Proof.
  rewrite (ReFacts.sub_negated_class Re.NOFLAG "[^\d.]"
             [Re.IDigit; Re.IChar "."] O) by (vm_compute; reflexivity).
  f_equal. unfold Str.filter. f_equal. apply filter_ext. intros c.
  unfold Re.in_set, Re.in_items, amount_char. cbn [Re.IGNORECASE Re.NOFLAG existsb Re.in_item].
  rewrite negb_involutive, orb_false_r, Ascii.eqb_sym. reflexivity.
Qed.

Lemma digits_value_nonneg s : ∀ acc v,
  digits_value acc s = Some v → 0 ≤ acc → 0 ≤ v.
Proof.
  induction s as [|c s IH]; intros acc v; simpl.
  - intros [= <-]. done.
  - destruct (Str.is_digit c); [|done]. intros H Hacc.
    apply (IH _ _ H). lia.
Qed.

Lemma py_float_nonneg s x : py_float s = Ok x → (0 <= x)%Q.
Proof.
  unfold py_float. destruct (split_point s) as [whole frac].
  destruct (Str.is_empty whole && Str.is_empty (default EmptyString frac)); [done|].
  destruct (digits_value 0 whole) as [w|] eqn:Hw; [|done].
  destruct (digits_value 0 (default EmptyString frac)) as [f|] eqn:Hf; [|done].
  intros [= <-]. unfold Qle. simpl.
  apply digits_value_nonneg in Hw; [|lia].
  apply digits_value_nonneg in Hf; [|lia].
  assert (0 < 10 ^ Z.of_nat (String.length (default EmptyString frac))) by lia.
  nia.
Qed.

End AmountFacts.

(** ** The decimal value of a cleaned amount *)

Module DecimalFacts.

Import FieldExtractor.

Lemma all_digits_cons c s :
  all_chars Str.is_digit (String c s)
  = Str.is_digit c && all_chars Str.is_digit s.
Proof. reflexivity. Qed.

Lemma all_digits_app s t :
  all_chars Str.is_digit (s +:+ t)
  = all_chars Str.is_digit s && all_chars Str.is_digit t.
Proof.
  induction s as [|c s IH]; [reflexivity|].
  rewrite StrFacts.app_cons, !all_digits_cons, IH. by rewrite andb_assoc.
Qed.

Lemma digit_val_of c : Z.of_nat (Re.digit_val c) = digit_of c ∨ Str.is_digit c = false.
Proof.
  unfold Re.digit_val, digit_of, Str.is_digit.
  destruct (48 <=? Str.code c)%nat eqn:E; [|by right].
  apply Nat.leb_le in E. left. lia.
Qed.

(** The accumulator of [digits_value] against the places of the digits. *)
Lemma digits_value_spec s : ∀ acc,
  digits_value acc s
  = if all_chars Str.is_digit s
    then Some (acc * 10 ^ Z.of_nat (String.length s) + decimal_value s)
    else None.
Proof.
  induction s as [|c s IH]; intros acc.
  - cbn. f_equal. lia.
  - cbn [digits_value decimal_value String.length]. rewrite all_digits_cons.
    destruct (Str.is_digit c) eqn:E; [|reflexivity]. cbn [andb]. rewrite IH.
    destruct (all_chars Str.is_digit s); [|reflexivity]. f_equal.
    destruct (digit_val_of c) as [-> |H]; [|congruence].
    rewrite Nat2Z.inj_succ, Z.pow_succ_r by lia. lia.
Qed.

Lemma decimal_value_app s t :
  decimal_value (s +:+ t)
  = decimal_value s * 10 ^ Z.of_nat (String.length t) + decimal_value t.
Proof.
  induction s as [|c s IH];
    [rewrite StrFacts.app_nil_l; cbn [decimal_value]; lia|].
  rewrite StrFacts.app_cons. cbn [decimal_value]. rewrite IH, StrFacts.length_app.
  rewrite Nat2Z.inj_add, Z.pow_add_r by lia. lia.
Qed.

Lemma point_not_digit : Str.is_digit "." = false.
Proof. reflexivity. Qed.

(** A text is cut at its first point. *)
Lemma split_point_digits whole rest :
  all_chars Str.is_digit whole = true →
  split_point (whole +:+ "." +:+ rest) = (whole, Some rest).
Proof.
  induction whole as [|c whole IH]; intros Hd; [reflexivity|].
  rewrite all_digits_cons in Hd. apply andb_true_iff in Hd as [Hc Hd].
  rewrite StrFacts.app_cons. cbn [split_point].
  destruct (Ascii.eqb c ".") eqn:E.
  - apply Ascii.eqb_eq in E. subst c. discriminate Hc.
  - by rewrite IH.
Qed.

Lemma split_point_no_point whole :
  all_chars Str.is_digit whole = true → split_point whole = (whole, None).
Proof.
  induction whole as [|c whole IH]; intros Hd; [reflexivity|].
  rewrite all_digits_cons in Hd. apply andb_true_iff in Hd as [Hc Hd].
  cbn [split_point]. destruct (Ascii.eqb c ".") eqn:E.
  - apply Ascii.eqb_eq in E. subst c. discriminate Hc.
  - by rewrite IH.
Qed.

Lemma split_point_join s :
  match split_point s with
  | (whole, Some frac) => s = whole +:+ "." +:+ frac
  | (whole, None) => s = whole
  end.
Proof.
  induction s as [|c s IH]; [reflexivity|]. cbn [split_point].
  destruct (Ascii.eqb c ".") eqn:E.
  - apply Ascii.eqb_eq in E. by subst c.
  - destruct (split_point s) as [whole [frac|]]; rewrite ?StrFacts.app_cons;
      by f_equal.
Qed.

Lemma is_empty_app s t :
  Str.is_empty s && Str.is_empty t = Str.is_empty (s +:+ t).
Proof. by destruct s. Qed.

Lemma is_empty_false s : s ≠ EmptyString → Str.is_empty s = false.
Proof. by destruct s. Qed.

(** [float] on a text that spells a decimal. *)
Lemma py_float_spells s n k :
  spells s n k → py_float s = Ok (decimal n k).
Proof.
  intros (whole & frac & Hw & Hf & Hne & Hs & -> & ->). unfold py_float.
  assert (Hsplit : ∃ fo, split_point s = (whole, fo)
                         ∧ default EmptyString fo = frac).
  { destruct Hs as [-> |[-> ->]].
    - exists (Some frac). by rewrite split_point_digits.
    - exists None. by rewrite split_point_no_point. }
  destruct Hsplit as (fo & -> & ->).
  rewrite is_empty_app, (is_empty_false _ Hne), !digits_value_spec, Hw, Hf.
  unfold decimal. rewrite decimal_value_app. do 2 f_equal; lia.
Qed.

(** [float] returns on such texts only. *)
Lemma py_float_returns s x :
  py_float s = Ok x → ∃ n k, spells s n k ∧ x = decimal n k.
Proof.
  unfold py_float. pose proof (split_point_join s) as Hjoin.
  destruct (split_point s) as [whole fo].
  destruct (Str.is_empty whole && Str.is_empty (default EmptyString fo)) eqn:Hne;
    [discriminate|].
  rewrite !digits_value_spec.
  destruct (all_chars Str.is_digit whole) eqn:Hw; [|discriminate].
  destruct (all_chars Str.is_digit (default EmptyString fo)) eqn:Hf; [|discriminate].
  intros [= <-].
  exists (decimal_value (whole +:+ default EmptyString fo)),
         (String.length (default EmptyString fo)).
  split.
  - exists whole, (default EmptyString fo). split; [exact Hw|]. split; [exact Hf|].
    split.
    { intros H. rewrite is_empty_app, H in Hne. discriminate Hne. }
    split; [|by split].
    destruct fo as [frac|]; [by left|right; by split].
  - unfold decimal. rewrite decimal_value_app. do 2 f_equal; lia.
Qed.

Lemma spells_nonempty s n k : spells s n k → s ≠ EmptyString.
Proof.
  intros (whole & frac & _ & _ & Hne & Hs & _) ->.
  destruct Hs as [Hs|[Hs Hf]].
  - by destruct whole.
  - subst. by apply Hne.
Qed.

End DecimalFacts.

(** C6. [_parse_amount] is a total function into the amounts that are
    not negative.  On ASCII text it keeps the digits and the decimal
    points; when these spell a decimal (digits with at most one point,
    one digit at least) that a float holds exactly, the result is that
    decimal, and when they spell none (nothing is left, a lone point,
    two points or more) the result is exactly 0.  Amounts are kept as
    exact rationals, so the value is stated where [float] is exact. *)
Theorem parse_amount_total (amount_str : string) :
  let clean_str := Str.filter amount_char amount_str in
  (0 <= FieldExtractor._parse_amount amount_str)%Q
  ∧ (all_chars is_ascii amount_str = true →
     Re.sub Re.NOFLAG "[^\d.]" "" amount_str = Ok clean_str
     ∧ (∀ n k, spells clean_str n k → binary64 (decimal n k) →
               (FieldExtractor._parse_amount amount_str == decimal n k)%Q)
     ∧ ((∀ n k, ¬ spells clean_str n k) →
        FieldExtractor._parse_amount amount_str = 0%Q)).
Proof.
  intros clean_str.
  assert (Hclean := AmountFacts.clean_amount amount_str). fold clean_str in Hclean.
  assert (Heq : FieldExtractor._parse_amount amount_str
                = match FieldExtractor.py_float clean_str with
                  | Ok x => x
                  | Raise _ => 0%Q
                  end).
  { unfold FieldExtractor._parse_amount. rewrite Hclean. cbn [py_bind].
    destruct clean_str as [|c s] eqn:E; [reflexivity|]. cbn [Str.is_empty negb].
    destruct (FieldExtractor.py_float (String c s)); reflexivity. }
  split.
  { rewrite Heq. destruct (FieldExtractor.py_float clean_str) as [x|e] eqn:Hx.
    - by apply AmountFacts.py_float_nonneg in Hx.
    - apply Qle_refl. }
  intros _. split; [exact Hclean|]. split.
  - intros n k Hs _. rewrite Heq, (DecimalFacts.py_float_spells _ _ _ Hs).
    apply Qeq_refl.
  - intros Hnone. rewrite Heq.
    destruct (FieldExtractor.py_float clean_str) as [x|e] eqn:Hx; [|reflexivity].
    destruct (DecimalFacts.py_float_returns _ _ Hx) as (n & k & Hs & _).
    by destruct (Hnone n k).
Qed.

Lemma parse_amount_total_witness :
  (FieldExtractor._parse_amount "$12,500.00" == 12500)%Q
  ∧ FieldExtractor._parse_amount "N/A" = 0%Q.
Proof.
  split.
  - destruct (parse_amount_total "$12,500.00") as [_ H].
    destruct (H eq_refl) as (_ & Hvalue & _).
    rewrite (Hvalue 1250000 2%nat).
    + reflexivity.
    + exists "12500", "00". repeat split; try reflexivity; try discriminate.
      left. reflexivity.
    + exists 12500, 0. split; [lia|]. split; [lia|]. reflexivity.
  - destruct (parse_amount_total "N/A") as [_ H].
    destruct (H eq_refl) as (_ & _ & Hzero).
    apply Hzero. intros n k Hs. by apply DecimalFacts.spells_nonempty in Hs.
Defined.

(** ** Regular expressions: runs of one class

    The three substitutions of [_clean_description] repeat one class;
    each is shown equal to its direct form. *)

Module RunFacts.

Import Re.

Lemma skip_length p l : (length (skip p l) ≤ length l)%nat.
Proof.
  induction l as [|c rest IH]; simpl; [done|].
  destruct (p c); simpl; lia.
Qed.

Lemma drop_skip p l : drop (length l - length (skip p l)) l = skip p l.
Proof.
  induction l as [|c rest IH]; [done|]. simpl skip.
  destruct (p c) eqn:Hc.
  - pose proof (skip_length p rest).
    replace (length (c :: rest) - length (skip p rest))%nat
      with (S (length rest - length (skip p rest))) by (simpl in *; lia).
    exact IH.
  - by rewrite Nat.sub_diag.
Qed.

Lemma after_run_past p aft : ∀ bef off caps,
  after (run_past p bef aft off caps) = skip p aft.
Proof.
  induction aft as [|c rest IH]; intros bef off caps; simpl; [done|].
  destruct (p c); [apply IH|done].
Qed.

Lemma offset_run_past p aft : ∀ bef off caps,
  offset (run_past p bef aft off caps)
  = (off + (length aft - length (skip p aft)))%nat.
Proof.
  induction aft as [|c rest IH]; intros bef off caps; simpl; [lia|].
  destruct (p c).
  - rewrite IH. pose proof (skip_length p rest). lia.
  - simpl. lia.
Qed.

Lemma squeeze_in_run p fill l :
  squeeze p fill true l = squeeze p fill false (skip p l).
Proof.
  induction l as [|c rest IH]; simpl; [done|].
  destruct (p c) eqn:Hc; [done|]. simpl. by rewrite Hc.
Qed.






Lemma repeat_unfold body greedy k fuel lo hi st :
  repeat_ body greedy k (S fuel) lo hi st
  = let more :=
      match hi with
      | Some O => None
      | _ =>
          body st (fun st' =>
            if (offset st' =? offset st)%nat && (lo =? 0)%nat then None
            else repeat_ body greedy k fuel (Nat.pred lo) (Nat.pred <$> hi) st')
      end in
    if (0 <? lo)%nat then more
    else if greedy then or_else more (k st)
    else or_else (k st) more.
Proof. reflexivity. Qed.

Lemma run_rep fl greedy lo hi body st k :
  run fl (Rep greedy lo hi body) st k
  = repeat_ (run fl body) greedy k (S (length (after st) + lo)) lo hi st.
Proof. reflexivity. Qed.

Lemma run_set fl negated items st k :
  run fl (Set_ negated items) st k
  = match after st with
    | x :: rest => if in_set fl negated items x then k (advance st x rest) else None
    | [] => None
    end.
Proof. reflexivity. Qed.


Lemma succ_neq_eqb n : (S n =? n)%nat = false.
Proof. apply Nat.eqb_neq. lia. Qed.

Section OneClass.

Variables (fl : flags) (negated : bool) (items : list item) (p : ascii → bool).
Hypothesis Hp : ∀ c, in_set fl negated items c = p c.

Let cls : re := Set_ negated items.
Let plus : re := Rep true 1 None cls.

(** A greedy repetition that may stop anywhere reads the whole run. *)
Lemma repeat_reads_run fuel : ∀ st,
  (length (after st) < fuel)%nat →
  repeat_ (run fl cls) true Some fuel 0 None st
  = Some (run_past p (before st) (after st) (offset st) (captures st)).
Proof.
  induction fuel as [|fuel IH]; intros [bef aft off caps] Hlen; simpl in Hlen; [lia|].
  rewrite repeat_unfold. cbv zeta. cbn [Nat.ltb Nat.leb].
  unfold cls at 1. rewrite run_set. cbv [after].
  destruct aft as [|c rest]; [reflexivity|].
  rewrite Hp. cbn [run_past before offset captures]. destruct (p c); [|reflexivity].
  cbn [advance offset before after captures].
  rewrite succ_neq_eqb. cbn [andb fmap option_fmap option_map Nat.pred].
  rewrite IH by (simpl in *; lia). reflexivity.
Qed.

Lemma plus_reads_run st :
  run fl plus st Some
  = match after st with
    | c :: rest =>
        if p c
        then Some (run_past p (c :: before st) rest (S (offset st)) (captures st))
        else None
    | [] => None
    end.
Proof.
  destruct st as [bef aft off caps]. unfold plus. rewrite run_rep, repeat_unfold.
  cbv zeta. cbn [Nat.ltb Nat.leb]. unfold cls at 1. rewrite run_set. cbv [after].
  destruct aft as [|c rest]; [reflexivity|].
  rewrite Hp. cbn [before offset captures]. destruct (p c); [|reflexivity].
  cbn [advance offset before after captures].
  rewrite succ_neq_eqb. cbn [andb fmap option_fmap option_map Nat.pred].
  rewrite repeat_reads_run by (simpl in *; lia). reflexivity.
Qed.

(** One step of [sub_go], at a match that is not empty and at no match. *)
Lemma sub_go_match r repl fuel st st' :
  run fl r st Some = Some st' →
  (offset st < offset st')%nat →
  sub_go fl r repl (S fuel) st
  = repl +:+ sub_go fl r repl fuel
      (State (rev_append (take (offset st' - offset st) (after st)) (before st))
             (drop (offset st' - offset st) (after st)) (offset st') []).
Proof.
  intros Hrun Hlt. cbn [sub_go]. unfold match_at. rewrite Hrun.
  cbn [mbind option_bind m_end m_start].
  replace (offset st' =? offset st)%nat with false
    by (symmetry; apply Nat.eqb_neq; lia).
  reflexivity.
Qed.

Lemma sub_go_no_match r repl fuel st :
  run fl r st Some = None →
  sub_go fl r repl (S fuel) st
  = match after st with
    | [] => EmptyString
    | c :: rest => String c (sub_go fl r repl fuel (advance st c rest))
    end.
Proof.
  intros Hrun. cbn [sub_go]. unfold match_at. rewrite Hrun. reflexivity.
Qed.

(** [re.sub(cls+, fill, s)]: every run becomes one [fill]. *)
Lemma sub_go_squeeze fill fuel : ∀ st,
  (length (after st) < fuel)%nat →
  sub_go fl plus fill fuel st = squeeze p fill false (after st).
Proof.
  induction fuel as [|fuel IH]; intros [bef aft off caps] Hlen; simpl in Hlen; [lia|].
  destruct aft as [|c rest].
  - rewrite sub_go_no_match by (rewrite plus_reads_run; reflexivity). reflexivity.
  - cbn [squeeze after]. destruct (p c) eqn:Hc.
    + rewrite (sub_go_match plus fill fuel _
                 (run_past p (c :: bef) rest (S off) caps)).
      2:{ rewrite plus_reads_run. cbn [after before offset captures]. by rewrite Hc. }
      2:{ rewrite offset_run_past. simpl. lia. }
      rewrite offset_run_past. cbn [offset after before].
      pose proof (skip_length p rest) as Hs.
      replace (S off + (length rest - length (skip p rest)) - off)%nat
        with (S (length rest - length (skip p rest))) by lia.
      cbn [drop]. rewrite drop_skip.
      rewrite IH by (simpl in *; lia). cbn [after].
      by rewrite squeeze_in_run.
    + rewrite sub_go_no_match
        by (rewrite plus_reads_run; cbn [after]; by rewrite Hc).
      cbn [after]. rewrite IH by (simpl in *; lia). reflexivity.
Qed.







End OneClass.

End RunFacts.

(** ** Description cleaning *)

Module DescriptionFacts.

Import FieldExtractor.

Lemma sub_returns fl pattern repl text :
  is_Some (Re.compile pattern) → ∃ r, Re.sub fl pattern repl text = Ok r.
Proof.
  intros [[r n] Hc]. unfold Re.sub. rewrite Hc. eauto.
Qed.


Ltac compiles := eexists; vm_compute; reflexivity.

Lemma tidy_returns desc : ∃ cleaned, tidy_description desc = Ok cleaned.
Proof.
  unfold tidy_description.
  destruct (sub_returns Re.NOFLAG "\s+" " " (Str.strip desc)) as [d1 ->];
    [compiles|]. cbn [py_bind].
  destruct (sub_returns Re.NOFLAG "^[:\.\-\s]+" "" d1) as [d2 ->];
    [compiles|]. cbn [py_bind].
  destruct (sub_returns Re.NOFLAG "[:\.\-\s]+$" "" d2) as [d3 ->];
    [compiles|]. cbn [py_bind].
  eauto.
Qed.


Lemma length_take n s :
  String.length (Str.take n s) = Nat.min n (String.length s).
Proof.
  revert s. induction n as [|n IH]; intros [|c s]; simpl; try done.
  by rewrite IH.
Qed.


(** *** The three substitutions, in direct form *)

Lemma space_class c : Re.in_set Re.NOFLAG false [Re.ISpace] c = Str.is_space c.
Proof. unfold Re.in_set, Re.in_items. simpl. apply orb_false_r. Qed.


Lemma start_length text fuel :
  fuel = S (String.length text) →
  (length (Re.after (Re.start_of text)) < fuel)%nat.
Proof. intros ->. simpl. rewrite ReFacts.length_to_list. lia. Qed.

Lemma sub_whitespace text :
  Re.sub Re.NOFLAG "\s+" " " text = Ok (collapse_whitespace text).
Proof.
  unfold Re.sub.
  replace (Re.compile "\s+")
    with (Some (Re.Rep true 1 None (Re.Set_ false [Re.ISpace]), O))
    by (vm_compute; reflexivity).
  f_equal.
  apply (RunFacts.sub_go_squeeze Re.NOFLAG false [Re.ISpace] Str.is_space space_class).
  by apply start_length.
Qed.




(** What the direct steps achieve. *)
Lemma squeeze_single_spaced l :
  single_spaced (Str.to_list (squeeze Str.is_space " " false l)) = true
  ∧ single_spaced (Str.to_list (squeeze Str.is_space " " true l)) = true
  ∧ match Str.to_list (squeeze Str.is_space " " true l) with
    | c :: _ => Str.is_space c = false
    | [] => True
    end.
Proof.
  induction l as [|c rest (IH1 & IH2 & IH3)]; [done|].
  cbn [squeeze]. destruct (Str.is_space c) eqn:Hc.
  - split; [|done].
    change (Str.to_list (" " +:+ squeeze Str.is_space " " true rest))
      with (" "%char :: Str.to_list (squeeze Str.is_space " " true rest)).
    cbn [single_spaced]. rewrite IH2.
    destruct (Str.to_list (squeeze Str.is_space " " true rest)) as [|d ds]; [done|].
    rewrite IH3. reflexivity.
  - assert (H : single_spaced (c :: Str.to_list (squeeze Str.is_space " " false rest)) = true).
    { cbn [single_spaced]. rewrite Hc, IH1. cbn [negb orb andb].
      by destruct (Str.to_list (squeeze Str.is_space " " false rest)). }
    repeat split; try exact H. exact Hc.
Qed.

Lemma collapse_single_spaced s :
  single_spaced (Str.to_list (collapse_whitespace s)) = true.
Proof. apply squeeze_single_spaced. Qed.

Lemma lstrip_head p s c rest :
  Str.lstrip_by p s = String c rest → p c = false.
Proof.
  induction s as [|d s IH]; simpl; [done|].
  destruct (p d) eqn:Hd; [done|]. by intros [= <- _].
Qed.

Lemma rstrip_last p s : ∀ front c,
  Str.rstrip_by p s = front +:+ String c EmptyString → p c = false.
Proof.
  induction s as [|d s IH]; intros front c; simpl.
  - by destruct front.
  - destruct (Str.rstrip_by p s) as [|e r] eqn:Hr.
    + destruct (p d) eqn:Hd; [by destruct front|].
      destruct front as [|f front]; [by intros [= <-]|].
      rewrite StrFacts.app_cons. intros [= _ H]. by destruct front.
    + destruct front as [|f front].
      * rewrite StrFacts.app_nil_l. intros [= _ ?]. 
      * rewrite StrFacts.app_cons. intros [= _ H]. by apply (IH front c).
Qed.

End DescriptionFacts.



(** ** The loss-notice parser: claim type *)

Module AcordFacts.

Import FieldExtractor ACORDParser.

Lemma search_returns fl pattern text :
  is_Some (Re.compile pattern) → ∃ found, Re.search fl pattern text = Ok found.
Proof.
  intros [[r n] Hc]. unfold Re.search. rewrite Hc. eauto.
Qed.

Lemma any_in_true_iff words description :
  RoutingEngine.any_in words description = true
  ↔ ∃ kw, kw ∈ words ∧ Str.contains kw description = true.
Proof.
  unfold RoutingEngine.any_in. rewrite existsb_exists.
  split; intros (kw & Hin & Hc); exists kw; split; try done;
    by apply list_elem_of_In.
Qed.

Lemma has_key_false (d : gmap string pyobj) key :
  d !! key = None → has_key d key = false.
Proof.
  intros H. unfold has_key. apply bool_decide_eq_false. rewrite H.
  by intros [? ?].
Qed.

Lemma has_key_true (d : gmap string pyobj) key v :
  d !! key = Some v → has_key d key = true.
Proof.
  intros H. unfold has_key. apply bool_decide_eq_true. rewrite H. by eexists.
Qed.

Lemma set_claim_type_spec (extracted : gmap string pyobj) :
  extracted !! "claim_type" = None →
  (∀ v, extracted !! "description" = Some v → is_text v) →
  ∃ fields,
    set_claim_type extracted = Ok fields
    ∧ fields !! "claim_type" = Some (VStr (acord_claim_type extracted))
    ∧ ∀ key, key ≠ "claim_type" → fields !! key = extracted !! key.
Proof.
  intros Hnone Htext. unfold set_claim_type, acord_claim_type.
  rewrite (has_key_false _ _ Hnone). cbn [negb].
  rewrite lookup_insert_ne by done.
  destruct (extracted !! "description") as [v|] eqn:Hd.
  - destruct (Htext v eq_refl) as [d ->]. cbn [py_lower py_bind].
    destruct (RoutingEngine.any_in ACORD_INJURY_WORDS (Str.lower d)).
    + eexists. split; [reflexivity|]. split; [by rewrite lookup_insert_eq|].
      intros key Hkey. by rewrite !lookup_insert_ne.
    + eexists. split; [reflexivity|]. split; [by rewrite lookup_insert_eq|].
      intros key Hkey. by rewrite lookup_insert_ne.
  - eexists. split; [reflexivity|]. split; [by rewrite lookup_insert_eq|].
    intros key Hkey. by rewrite lookup_insert_ne.
Qed.

Lemma find_amount_keeps full_text patterns : ∀ extracted : gmap string pyobj,
  Forall (fun p => is_Some (Re.compile p)) patterns →
  ∃ fields,
    find_amount full_text patterns extracted = Ok fields
    ∧ ∀ key, key ≠ "estimate_amount" → fields !! key = extracted !! key.
Proof.
  induction patterns as [|p rest IH]; intros extracted Hall.
  - by exists extracted.
  - apply Forall_cons in Hall as [Hp Hrest]. cbn [find_amount].
    destruct (search_returns Re.I p full_text Hp) as [found ->]. cbn [py_bind].
    destruct found as [m|]; [|by apply IH].
    eexists. split; [reflexivity|]. intros key Hkey. by rewrite lookup_insert_ne.
Qed.

Lemma amount_patterns_compile :
  Forall (fun p => is_Some (Re.compile p)) AMOUNT_PATTERNS.
Proof. repeat constructor; eexists; vm_compute; reflexivity. Qed.

(** The steps after the first one only write the amount. *)
Lemma amount_steps_keep (fields : gmap string pyobj) full_text :
  ∃ final,
    (let* extracted :=
       if absent_or_falsy fields "estimate_amount"
       then find_amount full_text AMOUNT_PATTERNS fields
       else Ok fields in
     if negb (has_key extracted "estimate_amount") then
       let* estimate_section :=
         Re.search Re.I "ESTIMATE AMOUNT[:\s]*(.*?)(?:\n|$)" full_text in
       match estimate_section with
       | Some m =>
           let value := Str.strip (Re.group m 1) in
           if negb (Str.is_empty value)
           then Ok (<["estimate_amount" := VNum (_parse_amount value)]> extracted)
           else Ok extracted
       | None => Ok extracted
       end
     else Ok extracted) = Ok final
    ∧ ∀ key, key ≠ "estimate_amount" → final !! key = fields !! key.
Proof.
  assert (H1 : ∃ e1,
    (if absent_or_falsy fields "estimate_amount"
     then find_amount full_text AMOUNT_PATTERNS fields
     else Ok fields) = Ok e1
    ∧ ∀ key, key ≠ "estimate_amount" → e1 !! key = fields !! key).
  { destruct (absent_or_falsy fields "estimate_amount").
    - apply find_amount_keeps, amount_patterns_compile.
    - by exists fields. }
  destruct H1 as (e1 & -> & Hkeep). cbn [py_bind].
  destruct (negb (has_key e1 "estimate_amount")); [|by exists e1].
  destruct (search_returns Re.I "ESTIMATE AMOUNT[:\s]*(.*?)(?:\n|$)" full_text)
    as [found ->]; [eexists; vm_compute; reflexivity|]. cbn [py_bind].
  destruct found as [m|]; [|by exists e1].
  destruct (negb (Str.is_empty (Str.strip (Re.group m 1)))); [|by exists e1].
  eexists. split; [reflexivity|]. intros key Hkey.
  rewrite lookup_insert_ne by done. by apply Hkeep.
Qed.

Lemma post_process_claim_type (extracted : gmap string pyobj) full_text :
  extracted !! "claim_type" = None →
  (∀ v, extracted !! "description" = Some v → is_text v) →
  ∃ fields,
    _post_process_acord_fields extracted full_text = Ok fields
    ∧ fields !! "claim_type" = Some (VStr (acord_claim_type extracted))
    ∧ fields !! "description" = extracted !! "description".
Proof.
  intros Hnone Htext.
  destruct (set_claim_type_spec extracted Hnone Htext) as (e1 & He1 & Hct & Hkeep1).
  destruct (amount_steps_keep e1 full_text) as (final & Hfinal & Hkeep2).
  exists final. unfold _post_process_acord_fields. rewrite He1. cbn [py_bind].
  split; [exact Hfinal|]. split.
  - by rewrite Hkeep2.
  - rewrite Hkeep2 by done. by apply Hkeep1.
Qed.

End AcordFacts.

(** C10. When pattern extraction left no claim type, the loss-notice
    post-processing sets it: to "injury" exactly when a description is
    present whose lower-cased text contains one of the six injury words,
    and to "vehicle_damage" otherwise, which is not the default
    "property_damage" of the generic extractor. *)
Theorem acord_claim_type_default
    (extracted : gmap string pyobj) (full_text : string) :
  extracted !! "claim_type" = None →
  (∀ v, extracted !! "description" = Some v → is_text v) →
  ∃ fields claim_type,
    ACORDParser._post_process_acord_fields extracted full_text = Ok fields
    ∧ fields !! "claim_type" = Some (VStr claim_type)
    ∧ (claim_type = "injury" ∨ claim_type = "vehicle_damage")
    ∧ (claim_type = "injury"
       ↔ ∃ d kw,
           extracted !! "description" = Some (VStr d)
           ∧ kw ∈ ["injury"; "injured"; "hurt"; "pain"; "hospital"; "ambulance"]
           ∧ Str.contains kw (Str.lower d) = true)
    ∧ FieldExtractor._infer_claim_type (VStr "") = Ok "property_damage".
Proof.
  intros Hnone Htext.
  destruct (AcordFacts.post_process_claim_type extracted full_text Hnone Htext)
    as (fields & Hpost & Hct & _).
  exists fields, (acord_claim_type extracted).
  split; [done|]. split; [done|].
  unfold acord_claim_type.
  destruct (extracted !! "description") as [[d|q]|] eqn:Hd.
  - destruct (RoutingEngine.any_in ACORDParser.ACORD_INJURY_WORDS (Str.lower d)) eqn:Hany.
    + split; [by left|]. split; [|done]. split; [|done]. intros _.
      apply AcordFacts.any_in_true_iff in Hany as (kw & Hin & Hc). by exists d, kw.
    + split; [by right|]. split; [|done]. split; [done|].
      intros (d' & kw & [= <-] & Hin & Hc).
      assert (RoutingEngine.any_in ACORDParser.ACORD_INJURY_WORDS (Str.lower d) = true)
        by (apply AcordFacts.any_in_true_iff; by exists kw).
      congruence.
  - split; [by right|]. split; [|done]. split; [done|]. by intros (? & ? & [=] & _).
  - split; [by right|]. split; [|done]. split; [done|]. by intros (? & ? & [=] & _).
Qed.

Lemma acord_claim_type_default_witness :
  ∃ fields claim_type,
    ACORDParser._post_process_acord_fields
      (<["description" := VStr "Driver taken to hospital"]> ∅) "ACORD" = Ok fields
    ∧ fields !! "claim_type" = Some (VStr claim_type)
    ∧ (claim_type = "injury" ∨ claim_type = "vehicle_damage")
    ∧ (claim_type = "injury"
       ↔ ∃ d kw,
           (<["description" := VStr "Driver taken to hospital"]> ∅ : gmap string pyobj)
             !! "description" = Some (VStr d)
           ∧ kw ∈ ["injury"; "injured"; "hurt"; "pain"; "hospital"; "ambulance"]
           ∧ Str.contains kw (Str.lower d) = true)
    ∧ FieldExtractor._infer_claim_type (VStr "") = Ok "property_damage".
Proof.
  apply (acord_claim_type_default
           (<["description" := VStr "Driver taken to hospital"]> ∅) "ACORD").
  - reflexivity.
  - intros v Hv. rewrite lookup_insert_eq in Hv. injection Hv as <-. by eexists.
Defined.

(** ** The generic extractor *)

Module ExtractorFacts.

Import FieldExtractor.

(** The catalogue pass stores a value only when it is truthy. *)
Lemma extract_patterns_truthy catalogue text key v :
  extract_patterns catalogue text !! key = Some v → truthy v = true.
Proof.
  unfold extract_patterns.
  enough (H : ∀ acc : gmap string pyobj,
    (∀ k w, acc !! k = Some w → truthy w = true) →
    ∀ k w,
      fold_left
        (fun results '(field, patterns) =>
           match _extract_with_patterns text patterns field with
           | Some v => if truthy v then <[field := v]> results else results
           | None => results
           end)
        catalogue acc !! k = Some w → truthy w = true).
  { apply H. intros k w Hk. by rewrite lookup_empty in Hk. }
  induction catalogue as [|[field patterns] rest IH]; intros acc Hacc k w; simpl.
  - apply Hacc.
  - apply IH. clear k w. intros k w.
    destruct (_extract_with_patterns text patterns field) as [x|]; [|apply Hacc].
    destruct (truthy x) eqn:Hx; [|apply Hacc].
    destruct (decide (field = k)) as [->|Hne].
    + rewrite lookup_insert_eq. by intros [= <-].
    + rewrite lookup_insert_ne by done. apply Hacc.
Qed.

(** One amount key fills in the other, and two keys stay as they are. *)
Lemma sync_amounts_one_sided (extracted : gmap string pyobj) v :
  extracted !! "estimated_damage" = Some v →
  extracted !! "estimate_amount" = None →
  sync_amounts extracted !! "estimate_amount" = Some v
  ∧ sync_amounts extracted !! "estimated_damage" = Some v.
Proof.
  intros H1 H2. unfold sync_amounts. rewrite H1, H2.
  split; [by rewrite lookup_insert_eq|by rewrite lookup_insert_ne].
Qed.

Lemma sync_amounts_other_side (extracted : gmap string pyobj) v :
  extracted !! "estimated_damage" = None →
  extracted !! "estimate_amount" = Some v →
  sync_amounts extracted !! "estimate_amount" = Some v
  ∧ sync_amounts extracted !! "estimated_damage" = Some v.
Proof.
  intros H1 H2. unfold sync_amounts. rewrite H1, H2.
  split; [by rewrite lookup_insert_ne|by rewrite lookup_insert_eq].
Qed.

Lemma sync_amounts_both (extracted : gmap string pyobj) v w :
  extracted !! "estimated_damage" = Some v →
  extracted !! "estimate_amount" = Some w →
  sync_amounts extracted = extracted.
Proof. intros H1 H2. unfold sync_amounts. by rewrite H1, H2. Qed.

End ExtractorFacts.

(** C5 fails on the code: a notice with a deductible ahead of the repair
    amount leaves the two amount keys present with different values. *)
Theorem amount_keys_disagree :
  ∃ fields,
    FieldExtractor.extract_all_fields
      (Some ("Deductible: $500" +:+ FieldExtractor.LF +:+ "Repair Amount: $8,200"))
      = Ok fields
    ∧ fields !! "estimated_damage" = Some (VNum 8200)
    ∧ fields !! "estimate_amount" = Some (VNum 500)
    ∧ ¬ (8200 == 500)%Q.
Proof.
  eexists. split; [vm_compute; reflexivity|].
  split; [vm_compute; reflexivity|]. split; [vm_compute; reflexivity|].
  intros H. discriminate H.
Qed.

(** C7 fails as stated: the extraction of the empty text is not the empty
    mapping, and the claim type is not reported missing. *)
Lemma empty_text_has_claim_type :
  ∃ fields,
    FieldExtractor.extract_all_fields (Some "") = Ok fields
    ∧ fields ≠ ∅
    ∧ "claim_type" ∉ FieldExtractor.identify_missing_fields fields.
Proof.
  exists {[ "claim_type" := VStr "property_damage" ]}.
  split; [vm_compute; reflexivity|]. split.
  - intros H. apply (f_equal (fun m : gmap string pyobj => m !! "claim_type")) in H.
    rewrite lookup_singleton_eq, lookup_empty in H. discriminate.
  - intros H. apply list_elem_of_In in H. vm_compute in H.
    repeat (destruct H as [H|H]; [discriminate H|]). destruct H.
Qed.

(** C7, as the code has it.  For the empty and for the null text the
    normalizer returns the empty string, the extraction returns the
    mapping that holds only the default claim type, the six other
    required fields are reported missing, and the route is manual review;
    nothing is raised on the way. *)
Theorem empty_input_manual_review :
  Forall
    (fun text : option string =>
       FieldExtractor._normalize_text text = Ok EmptyString
       ∧ FieldExtractor.extract_all_fields text
         = Ok {[ "claim_type" := VStr "property_damage" ]}
       ∧ FieldExtractor.identify_missing_fields
           {[ "claim_type" := VStr "property_damage" ]}
         = [ "policy_number"; "policyholder_name"; "date_of_loss"; "location";
             "description"; "estimated_damage" ]
       ∧ RoutingEngine.determine_route
           {[ "claim_type" := VStr "property_damage" ]}
           (FieldExtractor.identify_missing_fields
              {[ "claim_type" := VStr "property_damage" ]})
         = Ok ("Manual Review",
               "Missing required fields: policy_number, policyholder_name, date_of_loss, location, description, estimated_damage"))
    [None; Some EmptyString].
Proof.
  repeat constructor; vm_compute; reflexivity.
Qed.

(** C8 fails on the code: a notice whose only dollar amount is zero gets
    both amount keys, each with the falsy amount 0. *)
Theorem zero_amount_is_stored :
  ∃ fields,
    FieldExtractor.extract_all_fields (Some "Damage Estimate: $0") = Ok fields
    ∧ fields !! "estimated_damage" = Some (VNum 0)
    ∧ fields !! "estimate_amount" = Some (VNum 0)
    ∧ truthy (VNum 0) = false.
Proof.
  eexists. split; [vm_compute; reflexivity|].
  split; [vm_compute; reflexivity|]. split; vm_compute; reflexivity.
Qed.

(** ** Post-processing: totality and the amount keys *)

Module PostProcessFacts.

Import FieldExtractor.

Ltac compiles := eexists; vm_compute; reflexivity.
Ltac all_compile := repeat (apply List.Forall_cons; [compiles|]); apply List.Forall_nil.

Lemma normalize_returns text : ∃ t, _normalize_text text = Ok t.
Proof.
  destruct text as [text|]; [|by eexists]. unfold _normalize_text.
  destruct (Str.is_empty text); [by eexists|].
  destruct (DescriptionFacts.sub_returns Re.NOFLAG " {2,}" " " text) as [t1 ->];
    [compiles|]. cbn [py_bind].
  destruct (DescriptionFacts.sub_returns Re.NOFLAG "\r\n" LF t1) as [t2 ->];
    [compiles|]. cbn [py_bind].
  destruct (DescriptionFacts.sub_returns Re.NOFLAG "\n{3,}" (LF +:+ LF) t2) as [t3 ->];
    [compiles|]. cbn [py_bind].
  by eexists.
Qed.

(** A description that the catalogue pass stores is text. *)
Lemma clean_field_description value v :
  _clean_field_value value "description" = Ok (Some v) → is_text v.
Proof.
  unfold _clean_field_value. destruct (Str.is_empty value); [done|].
  destruct (Re.sub Re.NOFLAG "\s+" " " (Str.strip value)) as [s|e]; [|done].
  cbn [py_bind]. change (member "description" _) with false at 1.
  change (member "description" _) with false at 1.
  change (member "description" _) with false at 1.
  change (member "description" _) with true at 1. cbv iota.
  destruct (_clean_description s) as [d|e]; [|done].
  cbn [py_bind]. intros [= <-]. by eexists.
Qed.

Lemma extract_with_patterns_description text patterns v :
  _extract_with_patterns text patterns "description" = Some v → is_text v.
Proof.
  induction patterns as [|p rest IH]; [done|]. cbn [_extract_with_patterns].
  destruct (Re.search Re.IM p text) as [[m|]|e]; cbn [py_bind]; try exact IH.
  destruct (first_group (Re.groups (Re.ngroups p) m)) as [g|]; [|exact IH].
  destruct (_clean_field_value (Str.strip g) "description") as [[w|]|e] eqn:Hc;
    cbn [py_bind]; try exact IH; [|done].
  intros [= <-]. by apply (clean_field_description _ _ Hc).
Qed.

(** Every stored value is the outcome of the patterns of its own field. *)
Lemma extract_patterns_lookup catalogue text key v :
  extract_patterns catalogue text !! key = Some v →
  ∃ patterns, _extract_with_patterns text patterns key = Some v.
Proof.
  unfold extract_patterns.
  enough (H : ∀ acc : gmap string pyobj,
    (∀ k w, acc !! k = Some w →
            ∃ patterns, _extract_with_patterns text patterns k = Some w) →
    ∀ k w,
      fold_left
        (fun results '(field, patterns) =>
           match _extract_with_patterns text patterns field with
           | Some v => if truthy v then <[field := v]> results else results
           | None => results
           end)
        catalogue acc !! k = Some w →
      ∃ patterns, _extract_with_patterns text patterns k = Some w).
  { apply H. intros k w Hk. by rewrite lookup_empty in Hk. }
  induction catalogue as [|[field patterns] rest IH]; intros acc Hacc k w; simpl.
  - apply Hacc.
  - apply IH. clear k w. intros k w.
    destruct (_extract_with_patterns text patterns field) as [x|] eqn:Hx; [|apply Hacc].
    destruct (truthy x); [|apply Hacc].
    destruct (decide (field = k)) as [->|Hne].
    + rewrite lookup_insert_eq. intros [= <-]. by exists patterns.
    + rewrite lookup_insert_ne by done. apply Hacc.
Qed.

Lemma extract_patterns_description catalogue text v :
  extract_patterns catalogue text !! "description" = Some v → is_text v.
Proof.
  intros [patterns H]%extract_patterns_lookup.
  by apply (extract_with_patterns_description text patterns).
Qed.

Lemma infer_claim_type_returns v :
  is_text v → ∃ claim_type, _infer_claim_type v = Ok claim_type.
Proof.
  intros [s ->]. unfold _infer_claim_type.
  destruct (negb (truthy (VStr s))); [by eexists|]. cbn [py_lower py_bind].
  repeat (match goal with
          | |- context [if ?b then _ else _] => destruct b; [by eexists|]
          end).
  by eexists.
Qed.

(** *** The substructures only write their own keys *)

Lemma pick_spec pattern text key f (info : gmap string pyobj) :
  is_Some (Re.compile pattern) →
  ∃ info', pick pattern text key f info = Ok info'
           ∧ ∀ k, k ≠ key → info' !! k = info !! k.
Proof.
  intros Hc. unfold pick.
  destruct (AcordFacts.search_returns Re.I pattern text Hc) as [found ->].
  cbn [py_bind]. destruct found as [m|]; [|by exists info].
  eexists. split; [reflexivity|]. intros k Hk. by rewrite lookup_insert_ne.
Qed.

Lemma vehicle_sections_spec text patterns :
  Forall (fun p => is_Some (Re.compile p)) patterns →
  ∃ info, vehicle_sections text patterns = Ok info
          ∧ ∀ k, ¬ vehicle_key k → info !! k = None.
Proof.
  induction patterns as [|p rest IH]; intros Hall.
  - exists ∅. split; [done|]. intros k _. apply lookup_empty.
  - apply Forall_cons in Hall as [Hp Hrest]. cbn [vehicle_sections].
    destruct (AcordFacts.search_returns Re.IS p text Hp) as [found ->].
    cbn [py_bind]. destruct found as [m|]; [|by apply IH].
    destruct (pick_spec "YEAR\s*[:\s]*([0-9]{4})" (Re.group m 0) "year" Str.strip ∅)
      as (i1 & -> & H1); [compiles|]. cbn [py_bind].
    destruct (pick_spec "MAKE\s*[:\s]*([A-Za-z\s]+)" (Re.group m 0) "make" Str.strip i1)
      as (i2 & -> & H2); [compiles|]. cbn [py_bind].
    destruct (pick_spec "MODEL\s*[:\s]*([A-Za-z0-9\s\-]+)" (Re.group m 0) "model"
                Str.strip i2) as (i3 & -> & H3); [compiles|]. cbn [py_bind].
    destruct (pick_spec "V\.?I\.?N\.?\s*[:\s]*([A-Z0-9]{17})" (Re.group m 0) "vin"
                Str.upper i3) as (i4 & -> & H4); [compiles|]. cbn [py_bind].
    destruct (pick_spec "PLATE\s*(?:NUMBER|NO|#)\s*[:\s]*([A-Z0-9\-\s]+)" (Re.group m 0)
                "plate_number" (fun g => Str.upper (Str.strip g)) i4)
      as (i5 & -> & H5); [compiles|]. cbn [py_bind].
    exists i5. split; [done|]. intros k Hk. unfold vehicle_key in Hk.
    rewrite H5, H4, H3, H2, H1 by tauto. apply lookup_empty.
Qed.

Lemma vehicle_info_spec text :
  ∃ info, _extract_vehicle_info text = Ok info
          ∧ ∀ k, ¬ vehicle_key k → info !! k = None.
Proof.
  unfold _extract_vehicle_info. apply vehicle_sections_spec.
  unfold VEHICLE_SECTION_PATTERNS. all_compile.
Qed.

Lemma find_phone_spec text patterns : ∀ info : gmap string pyobj,
  Forall (fun p => is_Some (Re.compile p)) patterns →
  ∃ info', find_phone text patterns info = Ok info'
           ∧ ∀ k, k ≠ "contact_phone" → info' !! k = info !! k.
Proof.
  induction patterns as [|p rest IH]; intros info Hall; [by exists info|].
  apply Forall_cons in Hall as [Hp Hrest]. cbn [find_phone].
  destruct (AcordFacts.search_returns Re.I p text Hp) as [found ->].
  cbn [py_bind]. destruct found as [m|]; [|by apply IH].
  destruct (DescriptionFacts.sub_returns Re.NOFLAG "[^\d]" "" (Re.group m 1))
    as [phone ->]; [compiles|]. cbn [py_bind].
  destruct (10 <=? String.length phone)%nat; [|by apply IH].
  eexists. split; [reflexivity|]. intros k Hk. by rewrite lookup_insert_ne.
Qed.

Lemma find_email_spec text patterns : ∀ info : gmap string pyobj,
  Forall (fun p => is_Some (Re.compile p)) patterns →
  ∃ info', find_email text patterns info = Ok info'
           ∧ ∀ k, k ≠ "contact_email" → info' !! k = info !! k.
Proof.
  induction patterns as [|p rest IH]; intros info Hall; [by exists info|].
  apply Forall_cons in Hall as [Hp Hrest]. cbn [find_email].
  destruct (AcordFacts.search_returns Re.I p text Hp) as [found ->].
  cbn [py_bind]. destruct found as [m|]; [|by apply IH].
  eexists. split; [reflexivity|]. intros k Hk. by rewrite lookup_insert_ne.
Qed.

Lemma contact_info_spec text :
  ∃ info, _extract_contact_info text = Ok info
          ∧ ∀ k, k ≠ "contact_phone" → k ≠ "contact_email" → info !! k = None.
Proof.
  unfold _extract_contact_info.
  destruct (find_phone_spec text PHONE_PATTERNS ∅) as (i1 & -> & H1);
    [unfold PHONE_PATTERNS; all_compile|]. cbn [py_bind].
  destruct (find_email_spec text EMAIL_PATTERNS i1) as (i2 & -> & H2);
    [unfold EMAIL_PATTERNS; all_compile|].
  exists i2. split; [done|]. intros k Hp He.
  rewrite H2, H1 by done. apply lookup_empty.
Qed.

Lemma update_other (d other : gmap string pyobj) k :
  other !! k = None → dict_update d other !! k = d !! k.
Proof.
  intros H. unfold dict_update. rewrite lookup_union, H.
  by destruct (d !! k).
Qed.

(** Post-processing returns on a mapping whose description is text; the
    amount keys then agree unless both were extracted, and they are
    present together in any case. *)
Lemma post_process_amounts (extracted : gmap string pyobj) full_text :
  (∀ v, extracted !! "description" = Some v → is_text v) →
  ∃ fields,
    _post_process_fields extracted full_text = Ok fields
    ∧ (is_Some (fields !! "estimated_damage")
       ↔ is_Some (fields !! "estimate_amount"))
    ∧ (extracted !! "estimated_damage" = None
       ∨ extracted !! "estimate_amount" = None → amounts_agree fields).
Proof.
  intros Htext. unfold _post_process_fields.
  set (e0 := sync_amounts extracted).
  assert (Hd0 : e0 !! "description" = extracted !! "description").
  { unfold e0, sync_amounts.
    destruct (extracted !! "estimated_damage"), (extracted !! "estimate_amount");
      try done; by rewrite lookup_insert_ne. }
  assert (Hboth0 : is_Some (e0 !! "estimated_damage")
                   ↔ is_Some (e0 !! "estimate_amount")).
  { unfold e0, sync_amounts.
    destruct (extracted !! "estimated_damage") as [v|] eqn:E1,
             (extracted !! "estimate_amount") as [w|] eqn:E2.
    - rewrite E1, E2. split; by eexists.
    - rewrite lookup_insert_eq, lookup_insert_ne, E1 by done. split; by eexists.
    - rewrite lookup_insert_eq, lookup_insert_ne, E2 by done. split; by eexists.
    - rewrite E1, E2. split; by intros [? ?]. }
  assert (Hone0 : extracted !! "estimated_damage" = None
                  ∨ extracted !! "estimate_amount" = None → amounts_agree e0).
  { unfold e0, sync_amounts, amounts_agree.
    destruct (extracted !! "estimated_damage") as [v|] eqn:E1,
             (extracted !! "estimate_amount") as [w|] eqn:E2;
      intros [H|H]; try done.
    - by rewrite lookup_insert_eq, lookup_insert_ne, E1.
    - by rewrite lookup_insert_eq, lookup_insert_ne, E2.
    - by rewrite E1, E2.
    - by rewrite E1, E2. }
  clearbody e0.
  (* the claim type *)
  assert (H1 : ∃ e1 : gmap string pyobj,
    (if negb (has_key e0 "claim_type")
     then let* claim_type := _infer_claim_type (dict_get e0 "description" (VStr "")) in
          Ok (<["claim_type" := VStr claim_type]> e0)
     else Ok e0) = Ok e1
    ∧ e1 !! "estimated_damage" = e0 !! "estimated_damage"
    ∧ e1 !! "estimate_amount" = e0 !! "estimate_amount").
  { destruct (negb (has_key e0 "claim_type")); [|by exists e0].
    destruct (infer_claim_type_returns (dict_get e0 "description" (VStr "")))
      as [ct ->].
    { unfold dict_get. rewrite Hd0.
      destruct (extracted !! "description") as [v|] eqn:E; [by apply Htext|by eexists]. }
    cbn [py_bind]. eexists. split; [reflexivity|].
    by rewrite !lookup_insert_ne. }
  destruct H1 as (e1 & -> & Hed1 & Hea1). cbn [py_bind].
  (* the dollar fallback *)
  assert (H2 : ∃ e2 : gmap string pyobj,
    (if absent_or_falsy e1 "estimated_damage" then
       let* amount_match := Re.search Re.NOFLAG "\$([0-9,]+\.?[0-9]*)" full_text in
       match amount_match with
       | Some m =>
           Ok (<["estimate_amount" := VNum (_parse_amount (Re.group m 1))]>
                 (<["estimated_damage" := VNum (_parse_amount (Re.group m 1))]> e1))
       | None => Ok e1
       end
     else Ok e1) = Ok e2
    ∧ (is_Some (e2 !! "estimated_damage") ↔ is_Some (e2 !! "estimate_amount"))
    ∧ (amounts_agree e0 → amounts_agree e2)).
  { assert (Hkeep : (is_Some (e1 !! "estimated_damage")
                     ↔ is_Some (e1 !! "estimate_amount"))
                    ∧ (amounts_agree e0 → amounts_agree e1)).
    { unfold amounts_agree. rewrite Hed1, Hea1. done. }
    destruct (absent_or_falsy e1 "estimated_damage"); [|by exists e1].
    destruct (AcordFacts.search_returns Re.NOFLAG "\$([0-9,]+\.?[0-9]*)" full_text)
      as [found ->]; [compiles|]. cbn [py_bind].
    destruct found as [m|]; [|by exists e1].
    eexists. split; [reflexivity|]. unfold amounts_agree.
    rewrite lookup_insert_eq, lookup_insert_ne, lookup_insert_eq by done.
    split; [split; by eexists|done]. }
  destruct H2 as (e2 & -> & Hboth2 & Hone2). cbn [py_bind].
  destruct (vehicle_info_spec full_text) as (vi & -> & Hvi). cbn [py_bind].
  destruct (contact_info_spec full_text) as (ci & -> & Hci). cbn [py_bind].
  eexists. split; [reflexivity|].
  assert (Hfinal : ∀ k, k = "estimated_damage" ∨ k = "estimate_amount" →
    (strip_value <$> dict_update (dict_update e2 vi) ci) !! k
    = strip_value <$> e2 !! k).
  { intros k Hk. rewrite lookup_fmap. f_equal.
    rewrite update_other by (apply Hci; destruct Hk as [-> | ->]; done).
    apply update_other, Hvi. unfold vehicle_key.
    destruct Hk as [-> | ->]; intros [?|[?|[?|[?|?]]]]; done. }
  split.
  - rewrite !Hfinal by tauto. rewrite !fmap_is_Some. exact Hboth2.
  - intros Hone. unfold amounts_agree. rewrite !Hfinal by tauto.
    f_equal. by apply Hone2, Hone0.
Qed.

(** The generic extractor returns on every text, with the amount keys
    present together. *)
Lemma extract_all_fields_returns text :
  ∃ fields,
    extract_all_fields text = Ok fields
    ∧ (is_Some (fields !! "estimated_damage")
       ↔ is_Some (fields !! "estimate_amount")).
Proof.
  unfold extract_all_fields.
  destruct (normalize_returns text) as [t ->]. cbn [py_bind].
  pose proof (extract_patterns_description PATTERNS t) as Hd.
  revert Hd. generalize (extract_patterns PATTERNS t). intros results Hd.
  destruct (post_process_amounts results t Hd) as (fields & Hf & Hboth & _).
  exists fields. split; assumption.
Qed.

End PostProcessFacts.

(** ** The loss-notice parser, end to end *)

Module AcordTotal.

Import FieldExtractor ACORDParser.

Ltac compiles := eexists; vm_compute; reflexivity.
Ltac all_compile := repeat (apply List.Forall_cons; [compiles|]); apply List.Forall_nil.

Lemma clean_acord_text_returns text : ∃ t, _clean_acord_text text = Ok t.
Proof.
  unfold _clean_acord_text. destruct (Str.is_empty text); [by eexists|].
  destruct (DescriptionFacts.sub_returns Re.NOFLAG " {2,}" "  " text) as [t1 ->];
    [compiles|]. cbn [py_bind]. by eexists.
Qed.

Lemma find_section_returns text patterns :
  Forall (fun p => is_Some (Re.compile p)) patterns →
  ∃ section, find_section text patterns = Ok section.
Proof.
  induction patterns as [|p rest IH]; intros Hall; [by eexists|].
  apply Forall_cons in Hall as [Hp Hrest]. cbn [find_section].
  destruct (AcordFacts.search_returns Re.IS p text Hp) as [found ->].
  cbn [py_bind]. destruct found as [m|]; [by eexists|by apply IH].
Qed.

Lemma cell_spec pattern section key f (table_data : gmap string pyobj) :
  is_Some (Re.compile pattern) →
  ∃ t, cell pattern section key f table_data = Ok t
       ∧ ∀ k, k ≠ key → t !! k = table_data !! k.
Proof.
  intros Hc. unfold cell.
  destruct (AcordFacts.search_returns Re.NOFLAG pattern section Hc) as [found ->].
  cbn [py_bind]. destruct found as [m|]; [|by exists table_data].
  eexists. split; [reflexivity|]. intros k Hk. by rewrite lookup_insert_ne.
Qed.

Lemma tables_spec text :
  ∃ t, _extract_from_acord_tables text = Ok t
       ∧ ∀ k, ¬ vehicle_key k → t !! k = None.
Proof.
  unfold _extract_from_acord_tables, _find_vehicle_section.
  destruct (find_section_returns text SECTION_PATTERNS) as [section ->];
    [unfold SECTION_PATTERNS; all_compile|]. cbn [py_bind].
  destruct section as [section|]; [|exists ∅; split; [done|intros; apply lookup_empty]].
  destruct (Str.is_empty section); [exists ∅; split; [done|intros; apply lookup_empty]|].
  destruct (cell_spec "YEAR\s*([0-9]{4})" section "year" id ∅)
    as (t1 & -> & H1); [compiles|]. cbn [py_bind].
  destruct (cell_spec "MAKE[:\s]*([A-Za-z\s]+?)(?=\s{2,}|\n|MODEL|BODY)" section
              "make" Str.strip t1) as (t2 & -> & H2); [compiles|]. cbn [py_bind].
  destruct (cell_spec "MODEL[:\s]*([A-Za-z0-9\s]+?)(?=\s{2,}|\n|V\.I\.N\.)" section
              "model" Str.strip t2) as (t3 & -> & H3); [compiles|]. cbn [py_bind].
  destruct (cell_spec "V\.I\.N\.\s*[:\s]*([A-Z0-9]{17})" section "vin" id t3)
    as (t4 & -> & H4); [compiles|]. cbn [py_bind].
  destruct (cell_spec "PLATE\s*NUMBER\s*([A-Z0-9\-\s]+?)(?=\s{2,}|\n|STATE)" section
              "plate_number" Str.strip t4) as (t5 & -> & H5); [compiles|].
  cbn [py_bind]. exists t5. split; [done|]. intros k Hk. unfold vehicle_key in Hk.
  rewrite H5, H4, H3, H2, H1 by tauto. apply lookup_empty.
Qed.

(** No pattern of the loss-notice catalogue is filed under the claim type. *)
Lemma extract_patterns_absent catalogue text key :
  key ∉ (fst <$> catalogue) → extract_patterns catalogue text !! key = None.
Proof.
  unfold extract_patterns.
  enough (H : ∀ acc : gmap string pyobj,
    acc !! key = None → key ∉ (fst <$> catalogue) →
    fold_left
      (fun results '(field, patterns) =>
         match _extract_with_patterns text patterns field with
         | Some v => if truthy v then <[field := v]> results else results
         | None => results
         end)
      catalogue acc !! key = None).
  { apply H, lookup_empty. }
  induction catalogue as [|[field patterns] rest IH]; intros acc Hacc Hnot; simpl.
  - exact Hacc.
  - rewrite fmap_cons, not_elem_of_cons in Hnot. destruct Hnot as [Hne Hrest].
    apply IH; [|done].
    destruct (_extract_with_patterns text patterns field) as [x|]; [|done].
    destruct (truthy x); [|done]. by rewrite lookup_insert_ne.
Qed.

(** The loss-notice extractor returns on every text, and its claim type
    is the one its own description calls for. *)
Lemma acord_catalogue_has_no_claim_type :
  "claim_type" ∉ (fst <$> ACORD_PATTERNS).
Proof.
  intros H. apply list_elem_of_In in H. vm_compute in H.
  repeat (destruct H as [H|H]; [discriminate H|]). destruct H.
Qed.

Lemma not_vehicle_key_claim_type : ¬ vehicle_key "claim_type".
Proof. unfold vehicle_key. intros [?|[?|[?|[?|?]]]]; discriminate. Qed.

Lemma not_vehicle_key_description : ¬ vehicle_key "description".
Proof. unfold vehicle_key. intros [?|[?|[?|[?|?]]]]; discriminate. Qed.

Lemma extract_acord_fields_claim_type document_text :
  ∃ fields,
    extract_acord_fields document_text = Ok fields
    ∧ fields !! "claim_type" = Some (VStr (acord_claim_type fields)).
Proof.
  unfold extract_acord_fields.
  destruct (clean_acord_text_returns document_text) as [text ->]. cbn [py_bind].
  destruct (tables_spec text) as (t & -> & Ht). cbn [py_bind].
  pose proof (extract_patterns_absent ACORD_PATTERNS text "claim_type"
                acord_catalogue_has_no_claim_type) as Hnone0.
  pose proof (PostProcessFacts.extract_patterns_description ACORD_PATTERNS text)
    as Hdesc0.
  revert Hnone0 Hdesc0. generalize (extract_patterns ACORD_PATTERNS text).
  intros found Hnone0 Hdesc0.
  assert (Hnone : dict_update found t !! "claim_type" = None).
  { rewrite PostProcessFacts.update_other; [exact Hnone0|].
    apply Ht, not_vehicle_key_claim_type. }
  assert (Hdesc : ∀ v, dict_update found t !! "description" = Some v → is_text v).
  { intros v. rewrite PostProcessFacts.update_other; [apply Hdesc0|].
    apply Ht, not_vehicle_key_description. }
  destruct (AcordFacts.post_process_claim_type (dict_update found t) text Hnone Hdesc)
    as (fields & Hpost & Hct & Hd).
  exists fields. split; [exact Hpost|]. rewrite Hct.
  unfold acord_claim_type. rewrite Hd. reflexivity.
Qed.

End AcordTotal.

(** ** Worked documents *)

Module ScenarioFacts.

Import Scenarios.

Example fast_track_scenario :
  ∃ fields,
    process fast_track_notice
    = Ok (fields, [],
          ("Fast-track", "Estimated damage ($8,200.00) is below $25,000 threshold"))
    ∧ fields !! "estimated_damage" = Some (VNum 8200)
    ∧ fields !! "date_of_loss" = Some (VStr "2024-02-01").
Proof.
  eexists. split; [vm_compute; reflexivity|]. split; vm_compute; reflexivity.
Qed.

Example sparse_scenario :
  ∃ fields,
    process sparse_notice
    = Ok (fields,
          ["date_of_loss"; "location"; "description"; "estimated_damage"],
          ("Manual Review",
           "Missing required fields: date_of_loss, location, description, estimated_damage")).
Proof. eexists. vm_compute. reflexivity. Qed.

Example amount_format_round : Fmt.comma_fixed 2 (1234567891 # 1000) = "1,234,567.89".
Proof. vm_compute. reflexivity. Qed.

Example amount_format_tie : Fmt.comma_fixed 2 (1 # 8) = "0.12".
Proof. vm_compute. reflexivity. Qed.

End ScenarioFacts.

(** ** Routing: the injury gate and the data-quality checks *)

Module ValidatorFacts.

Import Validator.



(** The outcome of the checks on a text description and a numeric amount. *)
Lemma validate_result now (fields : gmap string pyobj) d q :
  dict_get fields "description" (VStr "") = VStr d →
  dict_get fields "estimated_damage" (VNum 0) = VNum q →
  validate_extracted_data now fields
  = Ok (Report
          ((if Qle_bool q 1000000 then []
            else ["Unusually high damage amount: $" +:+ Fmt.comma_fixed 2 q])
           ++ (if (String.length d <? 10)%nat
               then ["Description is very short, may be incomplete"] else []))
          (future_date_errors now (dict_get fields "date_of_loss" (VStr "")))
          (if value_eqb (dict_get fields "claim_type" (VStr "")) (VStr "injury")
              && negb (Str.contains "injury" (Str.lower d))
           then ["Claim type is 'injury' but description doesn't mention injuries"]
           else [])).
Proof.
  intros Hd Hq. unfold validate_extracted_data.
  rewrite Hd, Hq. cbn [py_gt py_bind py_len py_lower].
  destruct (Qle_bool q 1000000); cbn [negb Fmt.py_comma_fixed py_bind];
    destruct (value_eqb _ _);
    try destruct (negb (Str.contains "injury" (Str.lower d)));
    cbn [py_bind andb]; destruct (String.length d <? 10)%nat; reflexivity.
Qed.

Lemma validate_returns now (fields : gmap string pyobj) :
  well_typed fields → ∃ r, validate_extracted_data now fields = Ok r.
Proof.
  intros Hty.
  destruct (RoutingTotal.typed_description fields Hty) as [d Hd].
  destruct (RoutingTotal.typed_damage fields Hty) as [q Hq].
  rewrite (validate_result now fields d q Hd Hq). by eexists.
Qed.

End ValidatorFacts.

(** X1. The injury gate.  With nothing missing and no fraud keyword in
    the description, a claim of type "injury" goes to the specialist
    queue whatever the damage amount is, even an absent or ill-typed
    one; the reasoning names the first three injury keywords found in
    the description, or says that the claim type was identified when
    there is none. *)
Theorem injury_claims_specialist_queue
    (extracted : gmap string pyobj) (d : string) :
  dict_get extracted "description" (VStr "") = VStr d →
  (∀ kw, kw ∈ Config.FRAUD_KEYWORDS → Str.contains kw (Str.lower d) = false) →
  dict_get extracted "claim_type" (VStr "property_damage") = VStr "injury" →
  RoutingEngine.determine_route extracted []
  = Ok ("Specialist Queue",
        match List.filter (fun kw => Str.contains kw (Str.lower d))
                Config.INJURY_KEYWORDS with
        | [] => "Injury claim type identified"
        | found => "Injury claim with indicators: " +:+ Str.join ", " (take 3 found)
        end).
Proof.
  intros Hd Hfraud Hct. unfold RoutingEngine.determine_route.
  rewrite Hd. cbn [py_lower py_bind].
  rewrite (proj2 (RoutingFacts.keywords_in_nil_iff _ _) Hfraud), Hct.
  change (value_eqb (VStr "injury") (VStr "injury")) with true. cbv iota.
  rewrite RoutingFacts.keywords_in_filter.
  by destruct (List.filter _ Config.INJURY_KEYWORDS).
Qed.

Lemma injury_claims_specialist_queue_witness :
  RoutingEngine.determine_route
    (<["description" := VStr "Driver taken to hospital with a broken arm"]>
       (<["estimated_damage" := VStr "unknown"]>
          (<["claim_type" := VStr "injury"]> ∅))) []
  = Ok ("Specialist Queue", "Injury claim with indicators: hospital, broken").
Proof.
  rewrite (injury_claims_specialist_queue _
             "Driver taken to hospital with a broken arm").
  - reflexivity.
  - reflexivity.
  - intros kw Hkw. apply list_elem_of_In in Hkw. simpl in Hkw.
    repeat (destruct Hkw as [<-|Hkw]; [vm_compute; reflexivity|]). destruct Hkw.
  - reflexivity.
Defined.



(** ** The generic extractor: what the passes store *)

Module CatalogueFacts.

Import FieldExtractor.

Lemma parse_amount_nonneg amount_str : (0 <= _parse_amount amount_str)%Q.
Proof.
  unfold _parse_amount. rewrite AmountFacts.clean_amount. cbn [py_bind].
  destruct (Str.filter amount_char amount_str) as [|c s] eqn:E; [apply Qle_refl|].
  cbn [Str.is_empty negb].
  destruct (py_float (String c s)) as [x|e] eqn:Hx; cbn [py_bind].
  - by apply AmountFacts.py_float_nonneg in Hx.
  - apply Qle_refl.
Qed.

(** A cleaned value is an amount under a currency field and text under
    any other field. *)
Lemma clean_field_value_typed value key v :
  _clean_field_value value key = Ok (Some v) →
  if amount_field key then nonneg_amount v else is_text v.
Proof.
  unfold _clean_field_value, amount_field. destruct (Str.is_empty value); [done|].
  destruct (Re.sub Re.NOFLAG "\s+" " " (Str.strip value)) as [s|e]; [|done].
  cbn [py_bind].
  destruct (member key ["estimated_damage"; "initial_estimate"; "estimate_amount"]).
  { intros [= <-]. eexists. split; [reflexivity|]. apply parse_amount_nonneg. }
  destruct (member key ["date_of_loss"]); [intros [= <-]; by eexists|].
  destruct (member key ["policy_number"; "asset_id"]); [intros [= <-]; by eexists|].
  destruct (member key ["description"]).
  { destruct (_clean_description s) as [d|e]; [|done]. cbn [py_bind].
    intros [= <-]. by eexists. }
  destruct (member key ["policyholder_name"; "claimant"]); [|intros [= <-]; by eexists].
  destruct (Re.sub Re.NOFLAG "\s+[A-Z]\.?$" "" s) as [s1|e]; [|done]. cbn [py_bind].
  destruct (Re.sub Re.I "\s+(?:JR|SR|II|III|IV|V)$" "" s1) as [s2|e]; [|done].
  cbn [py_bind]. intros [= <-]. by eexists.
Qed.

Lemma extract_with_patterns_typed text patterns key v :
  _extract_with_patterns text patterns key = Some v →
  if amount_field key then nonneg_amount v else is_text v.
Proof.
  induction patterns as [|p rest IH]; [done|]. cbn [_extract_with_patterns].
  destruct (Re.search Re.IM p text) as [[m|]|e]; cbn [py_bind]; try exact IH.
  destruct (first_group (Re.groups (Re.ngroups p) m)) as [g|]; [|exact IH].
  destruct (_clean_field_value (Str.strip g) key) as [[w|]|e] eqn:Hc;
    cbn [py_bind]; try exact IH; [|done].
  intros [= <-]. by apply (clean_field_value_typed _ _ _ Hc).
Qed.

Lemma extract_patterns_typed catalogue text key v :
  extract_patterns catalogue text !! key = Some v →
  if amount_field key then nonneg_amount v else is_text v.
Proof.
  intros [patterns H]%PostProcessFacts.extract_patterns_lookup.
  by apply (extract_with_patterns_typed text patterns).
Qed.

Lemma truthy_amount_positive q : truthy (VNum q) = true → (0 <= q)%Q → (0 < q)%Q.
Proof.
  simpl. intros Hne Hle. apply Qle_lteq in Hle as [Hlt|Heq]; [exact Hlt|].
  exfalso. apply negb_true_iff in Hne.
  assert (Qeq_bool q 0 = true) by (apply Qeq_bool_iff; by symmetry). congruence.
Qed.

(** A pattern the compiler rejects is passed over. *)
Lemma rejected_pattern_skipped text bad rest key :
  Re.compile bad = None →
  _extract_with_patterns text (bad :: rest) key = _extract_with_patterns text rest key.
Proof.
  intros Hbad. cbn [_extract_with_patterns]. unfold Re.search. by rewrite Hbad.
Qed.

Lemma rejected_pattern_last text pre bad key :
  Re.compile bad = None →
  _extract_with_patterns text (pre ++ [bad]) key = _extract_with_patterns text pre key.
Proof.
  intros Hbad. induction pre as [|p pre IH].
  - by rewrite app_nil_l, rejected_pattern_skipped.
  - cbn [app _extract_with_patterns]. by rewrite IH.
Qed.

End CatalogueFacts.

Module PipelineFacts.

Import FieldExtractor.

Ltac compiles := eexists; vm_compute; reflexivity.

Lemma not_in_catalogue (catalogue : list (string * list string)) key :
  forallb (fun e => negb (String.eqb (fst e) key)) catalogue = true →
  key ∉ (fst <$> catalogue).
Proof.
  intros Hall Hin. apply list_elem_of_fmap in Hin as ([k ps] & -> & Hin).
  rewrite forallb_forall in Hall. apply list_elem_of_In in Hin.
  specialize (Hall _ Hin). simpl in Hall. by rewrite String.eqb_refl in Hall.
Qed.

(** The catalogue has no entry for the claim type, the vehicle block and
    the contact block. *)
Lemma catalogue_leaves_out text k :
  k = "claim_type" ∨ vehicle_key k ∨ contact_key k →
  extract_patterns PATTERNS text !! k = None.
Proof.
  intros Hk. apply AcordTotal.extract_patterns_absent, not_in_catalogue.
  unfold vehicle_key, contact_key in Hk.
  destruct Hk as [->|[[->|[->|[->|[->| ->]]]]|[->| ->]]]; vm_compute; reflexivity.
Qed.

Lemma sync_amounts_other (extracted : gmap string pyobj) k :
  k ≠ "estimated_damage" → k ≠ "estimate_amount" →
  sync_amounts extracted !! k = extracted !! k.
Proof.
  intros H1 H2. unfold sync_amounts.
  destruct (extracted !! "estimated_damage"), (extracted !! "estimate_amount");
    try done; by rewrite lookup_insert_ne.
Qed.

Lemma sync_amounts_nonneg (extracted : gmap string pyobj) :
  (∀ k v, k = "estimated_damage" ∨ k = "estimate_amount" →
          extracted !! k = Some v → nonneg_amount v) →
  ∀ k v, k = "estimated_damage" ∨ k = "estimate_amount" →
         sync_amounts extracted !! k = Some v → nonneg_amount v.
Proof.
  intros Hamt k v Hk. unfold sync_amounts.
  destruct (extracted !! "estimated_damage") as [a|] eqn:E1,
           (extracted !! "estimate_amount") as [b|] eqn:E2.
  - by apply Hamt.
  - destruct Hk as [-> | ->].
    + rewrite lookup_insert_ne, E1 by done. intros [= <-].
      apply (Hamt "estimated_damage"); [by left|exact E1].
    + rewrite lookup_insert_eq. intros [= <-].
      apply (Hamt "estimated_damage"); [by left|exact E1].
  - destruct Hk as [-> | ->].
    + rewrite lookup_insert_eq. intros [= <-].
      apply (Hamt "estimate_amount"); [by right|exact E2].
    + rewrite lookup_insert_ne, E2 by done. intros [= <-].
      apply (Hamt "estimate_amount"); [by right|exact E2].
  - by apply Hamt.
Qed.

Lemma strip_label ct : ct ∈ CLAIM_TYPES → Str.strip ct = ct.
Proof.
  intros H. apply list_elem_of_In in H. simpl in H.
  repeat (destruct H as [<-|H]; [vm_compute; reflexivity|]). destruct H.
Qed.

Lemma infer_claim_type_label d :
  ∃ ct, _infer_claim_type (VStr d) = Ok ct ∧ ct ∈ CLAIM_TYPES.
Proof.
  unfold _infer_claim_type.
  destruct (negb (truthy (VStr d)));
    [eexists; split; [reflexivity|]; apply list_elem_of_In; simpl; tauto|].
  cbn [py_lower py_bind].
  repeat (match goal with
          | |- context [if ?b then _ else _] =>
              destruct b;
              [eexists; split; [reflexivity|]; apply list_elem_of_In; simpl; tauto|]
          end).
  eexists; split; [reflexivity|]; apply list_elem_of_In; simpl; tauto.
Qed.

(** What the post-processing does to a mapping of the catalogue pass. *)
Lemma post_process_spec (extracted : gmap string pyobj) full_text :
  extracted !! "claim_type" = None →
  (∀ v, extracted !! "description" = Some v → is_text v) →
  (∀ k v, k = "estimated_damage" ∨ k = "estimate_amount" →
          extracted !! k = Some v → nonneg_amount v) →
  ∃ fields ct,
    _post_process_fields extracted full_text = Ok fields
    ∧ _infer_claim_type (dict_get extracted "description" (VStr "")) = Ok ct
    ∧ ct ∈ CLAIM_TYPES
    ∧ fields !! "claim_type" = Some (VStr ct)
    ∧ (∀ k, k ≠ "estimated_damage" → k ≠ "estimate_amount" → k ≠ "claim_type" →
            ¬ vehicle_key k → ¬ contact_key k →
            fields !! k = strip_value <$> extracted !! k)
    ∧ (∀ k v, k = "estimated_damage" ∨ k = "estimate_amount" →
              fields !! k = Some v → nonneg_amount v).
Proof.
  intros Hnone Htext Hamt. unfold _post_process_fields.
  pose proof (sync_amounts_other extracted) as Hkeep0.
  pose proof (sync_amounts_nonneg extracted Hamt) as Hamt0.
  revert Hkeep0 Hamt0. generalize (sync_amounts extracted). intros e0 Hkeep0 Hamt0.
  (* the claim type *)
  rewrite (AcordFacts.has_key_false e0 "claim_type")
    by (by rewrite Hkeep0). cbn [negb].
  assert (Hd0 : dict_get e0 "description" (VStr "")
                = dict_get extracted "description" (VStr "")).
  { unfold dict_get. by rewrite Hkeep0. }
  rewrite Hd0.
  assert (Hct : ∃ ct, _infer_claim_type (dict_get extracted "description" (VStr ""))
                      = Ok ct ∧ ct ∈ CLAIM_TYPES).
  { unfold dict_get. destruct (extracted !! "description") as [v|] eqn:E.
    - destruct (Htext v eq_refl) as [d ->]. apply infer_claim_type_label.
    - apply infer_claim_type_label. }
  destruct Hct as (ct & Hct & Hlabel). rewrite Hct. cbn [py_bind].
  set (e1 := <["claim_type" := VStr ct]> e0).
  (* the dollar fallback *)
  assert (H2 : ∃ e2 : gmap string pyobj,
    (if absent_or_falsy e1 "estimated_damage" then
       let* amount_match := Re.search Re.NOFLAG "\$([0-9,]+\.?[0-9]*)" full_text in
       match amount_match with
       | Some m =>
           Ok (<["estimate_amount" := VNum (_parse_amount (Re.group m 1))]>
                 (<["estimated_damage" := VNum (_parse_amount (Re.group m 1))]> e1))
       | None => Ok e1
       end
     else Ok e1) = Ok e2
    ∧ (∀ k, k ≠ "estimated_damage" → k ≠ "estimate_amount" → e2 !! k = e1 !! k)
    ∧ (∀ k v, k = "estimated_damage" ∨ k = "estimate_amount" →
              e2 !! k = Some v → nonneg_amount v)).
  { assert (Hamt1 : ∀ k v, k = "estimated_damage" ∨ k = "estimate_amount" →
                           e1 !! k = Some v → nonneg_amount v).
    { intros k v Hk. unfold e1.
      rewrite lookup_insert_ne by (destruct Hk as [-> | ->]; done). by apply Hamt0. }
    destruct (absent_or_falsy e1 "estimated_damage"); [|by exists e1].
    destruct (AcordFacts.search_returns Re.NOFLAG "\$([0-9,]+\.?[0-9]*)" full_text)
      as [found ->]; [compiles|]. cbn [py_bind].
    destruct found as [m|]; [|by exists e1].
    eexists. split; [reflexivity|]. split.
    - intros k H1 H2. by rewrite !lookup_insert_ne.
    - intros k v [-> | ->].
      + rewrite lookup_insert_ne, lookup_insert_eq by done. intros [= <-].
        eexists. split; [reflexivity|]. apply CatalogueFacts.parse_amount_nonneg.
      + rewrite lookup_insert_eq. intros [= <-].
        eexists. split; [reflexivity|]. apply CatalogueFacts.parse_amount_nonneg. }
  destruct H2 as (e2 & -> & Hkeep2 & Hamt2). cbn [py_bind].
  destruct (PostProcessFacts.vehicle_info_spec full_text) as (vi & -> & Hvi).
  cbn [py_bind].
  destruct (PostProcessFacts.contact_info_spec full_text) as (ci & -> & Hci).
  cbn [py_bind].
  assert (Hfinal : ∀ k, ¬ vehicle_key k → ¬ contact_key k →
    (strip_value <$> dict_update (dict_update e2 vi) ci) !! k
    = strip_value <$> e2 !! k).
  { intros k Hv Hc. rewrite lookup_fmap. f_equal.
    rewrite PostProcessFacts.update_other
      by (apply Hci; intros ->; apply Hc; [by left|by right]).
    by apply PostProcessFacts.update_other, Hvi. }
  assert (Hnv : ∀ k, k = "estimated_damage" ∨ k = "estimate_amount" ∨ k = "claim_type" →
                     ¬ vehicle_key k ∧ ¬ contact_key k).
  { intros k Hk. unfold vehicle_key, contact_key.
    split; destruct Hk as [->|[->| ->]]; intros H; decompose [or] H; discriminate. }
  eexists _, ct. split; [reflexivity|]. split; [reflexivity|]. split; [exact Hlabel|].
  split; [|split].
  - rewrite Hfinal by (apply Hnv; tauto).
    rewrite Hkeep2 by done. unfold e1. rewrite lookup_insert_eq. cbn.
    by rewrite strip_label.
  - intros k H1 H2 H3 Hv Hc. rewrite Hfinal by done.
    rewrite Hkeep2 by done. unfold e1. rewrite lookup_insert_ne by done.
    by rewrite Hkeep0.
  - intros k v Hk. rewrite Hfinal by (apply Hnv; tauto).
    destruct (e2 !! k) as [w|] eqn:E; [|done]. cbn. intros [= <-].
    destruct (Hamt2 k w Hk E) as (q & -> & Hq). by exists q.
Qed.

(** The generic extractor on any text, and on no text. *)
Lemma extract_all_fields_spec text :
  ∃ t fields ct,
    _normalize_text text = Ok t
    ∧ extract_all_fields text = Ok fields
    ∧ ct ∈ CLAIM_TYPES
    ∧ fields !! "claim_type" = Some (VStr ct)
    ∧ (∀ k, k ≠ "estimated_damage" → k ≠ "estimate_amount" → k ≠ "claim_type" →
            ¬ vehicle_key k → ¬ contact_key k →
            fields !! k = strip_value <$> extract_patterns PATTERNS t !! k)
    ∧ (∀ k v, k = "estimated_damage" ∨ k = "estimate_amount" →
              fields !! k = Some v → nonneg_amount v).
Proof.
  unfold extract_all_fields.
  destruct (PostProcessFacts.normalize_returns text) as [t Ht]. rewrite Ht.
  cbn [py_bind]. exists t.
  pose proof (catalogue_leaves_out t "claim_type" (or_introl eq_refl)) as Hnone.
  pose proof (PostProcessFacts.extract_patterns_description PATTERNS t) as Hd.
  assert (Hamt : ∀ k v, k = "estimated_damage" ∨ k = "estimate_amount" →
                        extract_patterns PATTERNS t !! k = Some v → nonneg_amount v).
  { intros k v Hk Hv. apply CatalogueFacts.extract_patterns_typed in Hv.
    by destruct Hk as [-> | ->]. }
  revert Hnone Hd Hamt. generalize (extract_patterns PATTERNS t).
  intros results Hnone Hd Hamt.
  destruct (post_process_spec results t Hnone Hd Hamt)
    as (fields & ct & Hf & _ & Hlabel & Hct & Hkeep & Hamts).
  exists fields, ct. split; [reflexivity|]. split; [exact Hf|].
  split; [exact Hlabel|]. split; [exact Hct|]. split; assumption.
Qed.

End PipelineFacts.

(** ** Strings: characters, trimming *)

Module CharFacts.

Lemma all_chars_cons p c s :
  all_chars p (String c s) = p c && all_chars p s.
Proof. reflexivity. Qed.

Lemma all_chars_app p s t :
  all_chars p (s +:+ t) = all_chars p s && all_chars p t.
Proof.
  induction s as [|c s IH]; [reflexivity|].
  rewrite StrFacts.app_cons, !all_chars_cons, IH. by rewrite andb_assoc.
Qed.

Lemma all_chars_of_list p l : all_chars p (Str.of_list l) = forallb p l.
Proof.
  unfold all_chars, Str.of_list, Str.to_list.
  by rewrite list_ascii_of_string_of_list_ascii.
Qed.

Lemma all_chars_filter p s : all_chars p (Str.filter p s) = true.
Proof.
  unfold Str.filter. rewrite all_chars_of_list. apply forallb_forall.
  intros c Hc. by apply filter_In in Hc as [_ Hc].
Qed.

Lemma all_chars_filter_keeps p q s :
  all_chars p s = true → all_chars p (Str.filter q s) = true.
Proof.
  unfold Str.filter, all_chars at 1. rewrite all_chars_of_list, !forallb_forall.
  intros H c Hc. apply filter_In in Hc as [Hc _]. by apply H.
Qed.

Lemma all_chars_weaken (p q : ascii → bool) s :
  (∀ c, p c = true → q c = true) → all_chars p s = true → all_chars q s = true.
Proof.
  unfold all_chars. rewrite !forallb_forall. intros Hpq H c Hc. by apply Hpq, H.
Qed.

Lemma all_chars_and (p q : ascii → bool) s :
  all_chars p s = true → all_chars q s = true →
  all_chars (fun c => p c && q c) s = true.
Proof.
  unfold all_chars. rewrite !forallb_forall. intros Hp Hq c Hc.
  by rewrite Hp, Hq.
Qed.

Lemma all_chars_drop p n : ∀ s,
  all_chars p s = true → all_chars p (Str.drop n s) = true.
Proof.
  induction n as [|n IH]; intros [|c s]; simpl; try done.
  rewrite all_chars_cons. intros [_ H]%andb_true_iff. by apply IH.
Qed.

Lemma all_chars_lstrip p q s :
  all_chars p s = true → all_chars p (Str.lstrip_by q s) = true.
Proof.
  induction s as [|c s IH]; [done|]. simpl. destruct (q c); [|done].
  rewrite all_chars_cons. intros [_ H]%andb_true_iff. by apply IH.
Qed.

Lemma all_chars_rstrip p q s :
  all_chars p s = true → all_chars p (Str.rstrip_by q s) = true.
Proof.
  induction s as [|c s IH]; [done|]. simpl. rewrite all_chars_cons.
  intros [Hc Hs]%andb_true_iff. specialize (IH Hs).
  destruct (Str.rstrip_by q s) as [|e r].
  - destruct (q c); [done|]. by rewrite all_chars_cons, Hc.
  - by rewrite all_chars_cons, Hc, IH.
Qed.

Lemma all_chars_strip p s :
  all_chars p s = true → all_chars p (Str.strip s) = true.
Proof. intros H. by apply all_chars_rstrip, all_chars_lstrip. Qed.

(** [replace] brings in the characters of the new text only. *)
Lemma all_chars_replace_go p old new fuel : ∀ s,
  all_chars p new = true → all_chars p s = true →
  all_chars p (Str.replace_go fuel old new s) = true.
Proof.
  induction fuel as [|fuel IH]; intros s Hnew Hs; [done|]. simpl.
  destruct (Str.starts_with old s).
  - rewrite all_chars_app, Hnew. by apply IH, all_chars_drop.
  - destruct s as [|c s]; [done|]. rewrite all_chars_cons in *.
    apply andb_true_iff in Hs as [Hc Hs]. rewrite Hc. by apply IH.
Qed.

Lemma all_chars_replace p old new s :
  all_chars p new = true → all_chars p s = true →
  all_chars p (Str.replace old new s) = true.
Proof.
  intros Hnew Hs. unfold Str.replace. destruct old; [done|].
  by apply all_chars_replace_go.
Qed.

(** Replacing a character by a text without it leaves none. *)
Lemma replace_go_removes c new fuel : ∀ s,
  all_chars (fun x => negb (Ascii.eqb x c)) new = true →
  (String.length s < fuel)%nat →
  all_chars (fun x => negb (Ascii.eqb x c))
    (Str.replace_go fuel (String c EmptyString) new s) = true.
Proof.
  induction fuel as [|fuel IH]; intros s Hnew Hlen; [lia|].
  destruct s as [|x s]; [reflexivity|].
  simpl in Hlen. cbn [Str.replace_go String.length].
  replace (Str.starts_with (String c EmptyString) (String x s)) with (Ascii.eqb c x)
    by (simpl; destruct s; by rewrite andb_true_r).
  destruct (Ascii.eqb c x) eqn:E.
  - rewrite all_chars_app, Hnew. apply IH; [done|]. simpl. lia.
  - rewrite all_chars_cons, Ascii.eqb_sym, E. apply IH; [done|]. lia.
Qed.

Lemma replace_removes c new s :
  all_chars (fun x => negb (Ascii.eqb x c)) new = true →
  all_chars (fun x => negb (Ascii.eqb x c))
    (Str.replace (String c EmptyString) new s) = true.
Proof. intros Hnew. apply replace_go_removes; [done|lia]. Qed.

Lemma apply_corrections_keeps p table : ∀ s,
  forallb (fun e => all_chars p (snd e)) table = true →
  all_chars p s = true →
  all_chars p (FieldExtractor.apply_corrections table s) = true.
Proof.
  unfold FieldExtractor.apply_corrections.
  induction table as [|[old new] rest IH]; intros s Hall Hs; [done|].
  simpl in *. apply andb_true_iff in Hall as [Hnew Hrest].
  apply IH; [done|]. by apply all_chars_replace.
Qed.

(** *** Trimming *)

Lemma rstrip_head p s c rest :
  Str.rstrip_by p s = String c rest → ∃ rest', s = String c rest'.
Proof.
  destruct s as [|d s]; [done|]. simpl.
  destruct (Str.rstrip_by p s); [destruct (p d); [done|]|]; intros [= <- _];
    by eexists.
Qed.

Lemma strip_trimmed s : trimmed (Str.strip s).
Proof.
  unfold Str.strip. split.
  - intros c rest H. destruct (rstrip_head _ _ _ _ H) as [rest' H'].
    by apply DescriptionFacts.lstrip_head in H'.
  - intros front c H. by apply DescriptionFacts.rstrip_last in H.
Qed.

Lemma lower_no_upper s :
  all_chars (fun c => negb (Str.is_upper c)) (Str.lower s) = true.
Proof.
  induction s as [|c s IH]; [done|].
  unfold Str.lower in *. cbn [Str.map]. rewrite all_chars_cons, IH, andb_true_r.
  clear. destruct c as [[] [] [] [] [] [] [] []]; vm_compute; reflexivity.
Qed.

End CharFacts.

(** ** The contact block and the dates *)

Module ContactFacts.

Import FieldExtractor.

Ltac compiles := eexists; vm_compute; reflexivity.
Ltac all_compile := repeat (apply List.Forall_cons; [compiles|]); apply List.Forall_nil.

Lemma digits_only text :
  Re.sub Re.NOFLAG "[^\d]" "" text = Ok (Str.filter Str.is_digit text).
Proof.
  rewrite (ReFacts.sub_negated_class Re.NOFLAG "[^\d]" [Re.IDigit] O)
    by (vm_compute; reflexivity).
  f_equal. unfold Str.filter. f_equal. apply filter_ext. intros c.
  unfold Re.in_set, Re.in_items.
  cbn [Re.IGNORECASE Re.NOFLAG existsb Re.in_item].
  by rewrite negb_involutive, orb_false_r.
Qed.

Lemma find_phone_normalized text patterns : ∀ info : gmap string pyobj,
  Forall (fun p => is_Some (Re.compile p)) patterns →
  (∀ v, info !! "contact_phone" = Some v → is_phone v) →
  ∃ info', find_phone text patterns info = Ok info'
           ∧ (∀ k, k ≠ "contact_phone" → info' !! k = info !! k)
           ∧ (∀ v, info' !! "contact_phone" = Some v → is_phone v).
Proof.
  induction patterns as [|p rest IH]; intros info Hall Hinfo; [by exists info|].
  apply Forall_cons in Hall as [Hp Hrest]. cbn [find_phone].
  destruct (AcordFacts.search_returns Re.I p text Hp) as [found ->].
  cbn [py_bind]. destruct found as [m|]; [|by apply IH].
  rewrite digits_only. cbn [py_bind].
  destruct (10 <=? String.length (Str.filter Str.is_digit (Re.group m 1)))%nat
    eqn:Hlen; [|by apply IH].
  eexists. split; [reflexivity|]. split.
  - intros k Hk. by rewrite lookup_insert_ne.
  - intros v. rewrite lookup_insert_eq. intros [= <-]. eexists.
    split; [reflexivity|]. split; [apply CharFacts.all_chars_filter|].
    by apply Nat.leb_le.
Qed.

Lemma find_email_normalized text patterns : ∀ info : gmap string pyobj,
  Forall (fun p => is_Some (Re.compile p)) patterns →
  (∀ v, info !! "contact_email" = Some v → is_lowercase v) →
  ∃ info', find_email text patterns info = Ok info'
           ∧ (∀ k, k ≠ "contact_email" → info' !! k = info !! k)
           ∧ (∀ v, info' !! "contact_email" = Some v → is_lowercase v).
Proof.
  induction patterns as [|p rest IH]; intros info Hall Hinfo; [by exists info|].
  apply Forall_cons in Hall as [Hp Hrest]. cbn [find_email].
  destruct (AcordFacts.search_returns Re.I p text Hp) as [found ->].
  cbn [py_bind]. destruct found as [m|]; [|by apply IH].
  eexists. split; [reflexivity|]. split.
  - intros k Hk. by rewrite lookup_insert_ne.
  - intros v. rewrite lookup_insert_eq. intros [= <-]. eexists.
    split; [reflexivity|]. apply CharFacts.lower_no_upper.
Qed.

End ContactFacts.

Module DateFacts.

Import FieldExtractor.

Lemma make_date_valid y m d dt : Datetime.make_date y m d = Ok dt → valid_date dt.
Proof.
  unfold Datetime.make_date, valid_date.
  destruct (_ && _) eqn:E; [|discriminate]. intros [= <-]. cbn.
  repeat (apply andb_true_iff in E as [E ?]). lia.
Qed.

Lemma strptime_valid s fmt dt : Datetime.strptime s fmt = Ok dt → valid_date dt.
Proof.
  unfold Datetime.strptime.
  destruct (Datetime.format_regex (Str.to_list fmt) false) as [[pattern ds]|];
    [|discriminate].
  destruct (Re.match_start Re.I pattern s) as [[m|]|e]; cbn [py_bind];
    try discriminate.
  destruct (negb _); [discriminate|].
  destruct (Datetime.read_fields _ _ _) as [[y mo] d]. apply make_date_valid.
Qed.

(** The formats are tried in order, and the first that parses decides. *)
Lemma try_formats_spec s formats :
  (try_formats s formats = s
   ∧ ∀ fmt, fmt ∈ formats → ∃ e, Datetime.strptime s fmt = Raise e)
  ∨ ∃ pre fmt post dt,
      formats = pre ++ fmt :: post
      ∧ (∀ f, f ∈ pre → ∃ e, Datetime.strptime s f = Raise e)
      ∧ Datetime.strptime s fmt = Ok dt
      ∧ valid_date dt
      ∧ try_formats s formats = Datetime.strftime_ymd dt.
Proof.
  induction formats as [|fmt rest IH].
  - left. split; [reflexivity|]. intros fmt Hin. by apply elem_of_nil in Hin.
  - cbn [try_formats]. destruct (Datetime.strptime s fmt) as [dt|e] eqn:Hp.
    + right. exists [], fmt, rest, dt. split; [reflexivity|]. split.
      { intros f Hin. by apply elem_of_nil in Hin. }
      split; [exact Hp|]. split; [exact (strptime_valid _ _ _ Hp)|reflexivity].
    + destruct IH as [[Heq Hall]|(pre & f & post & dt & -> & Hpre & Hf & Hv & Heq)].
      * left. split; [exact Heq|]. intros f [->|Hin]%elem_of_cons;
          [by exists e|by apply Hall].
      * right. exists (fmt :: pre), f, post, dt. split; [reflexivity|]. split.
        { intros g [->|Hin]%elem_of_cons; [by exists e|by apply Hpre]. }
        split; [exact Hf|]. split; [exact Hv|exact Heq].
Qed.

End DateFacts.

(** X3. The claim type inferred from a description is always one of
    seven labels, and it is "injury" exactly when the lower-cased
    description contains one of the thirteen injury words as a
    substring; the two-letter word "er" is one of them. *)
Theorem infer_claim_type_labels (d : string) :
  ∃ ct,
    FieldExtractor._infer_claim_type (VStr d) = Ok ct
    ∧ ct ∈ CLAIM_TYPES
    ∧ (ct = "injury"
       ↔ ∃ kw, kw ∈ FieldExtractor.INJURY_WORDS
               ∧ Str.contains kw (Str.lower d) = true)
    ∧ (Str.contains "er" (Str.lower d) = true → ct = "injury").
Proof.
  assert (Her : "er" ∈ FieldExtractor.INJURY_WORDS).
  { apply list_elem_of_In. simpl. tauto. }
  unfold FieldExtractor._infer_claim_type.
  destruct d as [|c d].
  { exists "property_damage". split; [reflexivity|].
    split; [apply list_elem_of_In; simpl; tauto|].
    assert (Hno : ¬ ∃ kw, kw ∈ FieldExtractor.INJURY_WORDS
                          ∧ Str.contains kw (Str.lower "") = true).
    { rewrite <- AcordFacts.any_in_true_iff. vm_compute. discriminate. }
    split; [split; [discriminate|by intros H; destruct (Hno H)]|].
    vm_compute. discriminate. }
  change (negb (truthy (VStr (String c d)))) with false. cbv iota.
  cbn [py_lower py_bind].
  destruct (RoutingEngine.any_in FieldExtractor.INJURY_WORDS
              (Str.lower (String c d))) eqn:Einj.
  { exists "injury". split; [reflexivity|].
    split; [apply list_elem_of_In; simpl; tauto|].
    split; [|done]. split; [|done]. intros _.
    by apply AcordFacts.any_in_true_iff. }
  assert (Hno : ¬ ∃ kw, kw ∈ FieldExtractor.INJURY_WORDS
                        ∧ Str.contains kw (Str.lower (String c d)) = true).
  { rewrite <- AcordFacts.any_in_true_iff. by rewrite Einj. }
  assert (Hner : Str.contains "er" (Str.lower (String c d)) = true → False).
  { intros H. apply Hno. by exists "er". }
  repeat (match goal with
          | |- context [if ?b then _ else _] =>
              destruct b;
              [eexists; split; [reflexivity|];
               split; [apply list_elem_of_In; simpl; tauto|];
               split; [split; [discriminate|by intros H; destruct (Hno H)]|];
               by intros H; destruct (Hner H)|]
          end).
  eexists; split; [reflexivity|];
    split; [apply list_elem_of_In; simpl; tauto|];
    split; [split; [discriminate|by intros H; destruct (Hno H)]|];
    by intros H; destruct (Hner H).
Qed.

(** X4. The catalogue pass stores no falsy value: under a currency
    field it stores a strictly positive amount, under any other field a
    text that is not empty.  A field whose amount parses as zero is
    left out. *)
Theorem extract_patterns_stores
    (catalogue : list (string * list string)) (text key : string) (v : pyobj) :
  FieldExtractor.extract_patterns catalogue text !! key = Some v →
  truthy v = true
  ∧ if amount_field key
    then ∃ q, v = VNum q ∧ (0 < q)%Q
    else ∃ s, v = VStr s ∧ s ≠ EmptyString.
Proof.
  intros Hv.
  pose proof (ExtractorFacts.extract_patterns_truthy _ _ _ _ Hv) as Ht.
  pose proof (CatalogueFacts.extract_patterns_typed _ _ _ _ Hv) as Hty.
  split; [exact Ht|]. destruct (amount_field key).
  - destruct Hty as (q & -> & Hq). exists q. split; [reflexivity|].
    by apply CatalogueFacts.truthy_amount_positive.
  - destruct Hty as [s ->]. exists s. split; [reflexivity|]. by destruct s.
Qed.

Lemma extract_patterns_stores_witness :
  ∃ q,
    FieldExtractor.extract_patterns FieldExtractor.PATTERNS
      "Damage Estimate: $500" !! "estimated_damage" = Some (VNum q)
    ∧ (0 < q)%Q.
Proof.
  assert (H : FieldExtractor.extract_patterns FieldExtractor.PATTERNS
                "Damage Estimate: $500" !! "estimated_damage" = Some (VNum 500))
    by (vm_compute; reflexivity).
  destruct (extract_patterns_stores _ _ _ _ H) as [_ (q & Hq & Hpos)].
  exists q. split; [|exact Hpos]. rewrite H. exact (f_equal Some Hq).
Defined.

(** X5. The generic extractor returns on every text and on no text, and
    its mapping is typed: the description, when present, is text; each
    of the two amount keys, when present, holds an amount that is not
    negative; and the two amount keys are present together. *)
Theorem extract_all_fields_typed (text : option string) :
  ∃ fields,
    FieldExtractor.extract_all_fields text = Ok fields
    ∧ well_typed fields
    ∧ (∀ k v, k = "estimated_damage" ∨ k = "estimate_amount" →
              fields !! k = Some v → nonneg_amount v)
    ∧ (is_Some (fields !! "estimated_damage")
       ↔ is_Some (fields !! "estimate_amount")).
Proof.
  destruct (PipelineFacts.extract_all_fields_spec text)
    as (t & fields & ct & Ht & Hf & Hlabel & Hct & Hkeep & Hamt).
  destruct (PostProcessFacts.extract_all_fields_returns text)
    as (fields' & Hf' & Hboth).
  rewrite Hf in Hf'. injection Hf' as <-.
  exists fields. split; [exact Hf|]. split; [|split; [exact Hamt|exact Hboth]].
  assert (Hk : fields !! "description"
               = FieldExtractor.strip_value
                   <$> FieldExtractor.extract_patterns FieldExtractor.PATTERNS t
                       !! "description").
  { apply Hkeep; [discriminate|discriminate|discriminate
                 |apply AcordTotal.not_vehicle_key_description|].
    unfold contact_key. intros [H|H]; discriminate H. }
  pose proof (PostProcessFacts.extract_patterns_description
                FieldExtractor.PATTERNS t) as Hd.
  revert Hk Hd. generalize (FieldExtractor.extract_patterns FieldExtractor.PATTERNS t).
  intros results Hk Hd. split.
  - intros v. rewrite Hk.
    destruct (results !! "description") as [w|]; [|discriminate].
    destruct (Hd w eq_refl) as [s ->]. cbn. intros [= <-]. by eexists.
  - intros v Hv. destruct (Hamt "estimated_damage" v (or_introl eq_refl) Hv)
      as (q & -> & _). by eexists.
Qed.

(** X6. The generic extractor always sets the claim type, to one of the
    seven labels, so the claim type is never reported missing: the
    missing fields are among the six other required fields. *)
Theorem claim_type_never_missing (text : option string) :
  ∃ fields ct,
    FieldExtractor.extract_all_fields text = Ok fields
    ∧ fields !! "claim_type" = Some (VStr ct)
    ∧ ct ∈ CLAIM_TYPES
    ∧ ∀ field, field ∈ FieldExtractor.identify_missing_fields fields →
        field ∈ [ "policy_number"; "policyholder_name"; "date_of_loss";
                  "location"; "description"; "estimated_damage" ].
Proof.
  destruct (PipelineFacts.extract_all_fields_spec text)
    as (t & fields & ct & Ht & Hf & Hlabel & Hct & Hkeep & Hamt).
  exists fields, ct. split; [exact Hf|]. split; [exact Hct|].
  split; [exact Hlabel|]. clear Hkeep Hamt Hf Ht.
  intros field Hin. unfold FieldExtractor.identify_missing_fields in Hin.
  apply list_elem_of_In, filter_In in Hin as [Hreq Hfalsy].
  apply list_elem_of_In. simpl in Hreq |- *.
  destruct Hreq as [<-|[<-|[<-|[<-|[<-|[<-|[<-|[]]]]]]]]; try tauto.
  exfalso. unfold FieldExtractor.absent_or_falsy in Hfalsy. rewrite Hct in Hfalsy.
  apply list_elem_of_In in Hlabel. simpl in Hlabel.
  repeat (destruct Hlabel as [<-|Hlabel]; [discriminate Hfalsy|]). destruct Hlabel.
Qed.

(** X7. Post-processing keeps what the catalogue pass found: under every
    key other than the two amount keys, the claim type, the vehicle
    block and the contact block, the final mapping holds the value of
    the catalogue pass, stripped, and holds nothing when the pass found
    nothing. *)
Theorem post_processing_keeps_catalogue_fields (text : option string) :
  ∃ t fields,
    FieldExtractor._normalize_text text = Ok t
    ∧ FieldExtractor.extract_all_fields text = Ok fields
    ∧ ∀ k, k ≠ "estimated_damage" → k ≠ "estimate_amount" → k ≠ "claim_type" →
           ¬ vehicle_key k → ¬ contact_key k →
           fields !! k
           = FieldExtractor.strip_value
               <$> FieldExtractor.extract_patterns FieldExtractor.PATTERNS t !! k.
Proof.
  destruct (PipelineFacts.extract_all_fields_spec text)
    as (t & fields & ct & Ht & Hf & Hlabel & Hct & Hkeep & Hamt).
  exists t, fields. split; [exact Ht|]. split; [exact Hf|exact Hkeep].
Qed.

(** X8. The look-behind pattern of the policy number is rejected by the
    regular-expression compiler, as every search with it is; on every
    text the policy number is what the four patterns before it give.
    It is the only pattern of the two catalogues that is rejected. *)
Theorem policy_lookbehind_never_matches (text : string) :
  Re.search Re.IM POLICY_LOOKBEHIND text = Raise ReError
  ∧ (∃ pre,
       patterns_of FieldExtractor.PATTERNS "policy_number" = pre ++ [POLICY_LOOKBEHIND]
       ∧ length pre = 4%nat
       ∧ FieldExtractor._extract_with_patterns text
           (patterns_of FieldExtractor.PATTERNS "policy_number") "policy_number"
         = FieldExtractor._extract_with_patterns text pre "policy_number")
  ∧ Forall (fun p => Re.compile p = None ↔ p = POLICY_LOOKBEHIND)
      (all_patterns FieldExtractor.PATTERNS ++ all_patterns ACORDParser.ACORD_PATTERNS).
Proof.
  assert (Hbad : Re.compile POLICY_LOOKBEHIND = None) by (vm_compute; reflexivity).
  split; [unfold Re.search; by rewrite Hbad|]. split.
  - exists [ "Policy\s*Number[:\s]+([A-Z0-9\-_]+[A-Z0-9])(?=\s|$|\n)";
             "POLICY\s*NUMBER[:\s]+([A-Z0-9\-_]+[A-Z0-9])(?=\s|$|\n)";
             "Policy\s*#[:\s]+([A-Z0-9\-_]+[A-Z0-9])(?=\s|$|\n)";
             "POLICY[:\s]+([A-Z0-9\-_]+[A-Z0-9])(?=\s|$|\n)" ].
    assert (Hps : patterns_of FieldExtractor.PATTERNS "policy_number"
                  = [ "Policy\s*Number[:\s]+([A-Z0-9\-_]+[A-Z0-9])(?=\s|$|\n)";
                      "POLICY\s*NUMBER[:\s]+([A-Z0-9\-_]+[A-Z0-9])(?=\s|$|\n)";
                      "Policy\s*#[:\s]+([A-Z0-9\-_]+[A-Z0-9])(?=\s|$|\n)";
                      "POLICY[:\s]+([A-Z0-9\-_]+[A-Z0-9])(?=\s|$|\n)" ]
                    ++ [POLICY_LOOKBEHIND]) by (vm_compute; reflexivity).
    split; [exact Hps|]. split; [reflexivity|]. rewrite Hps.
    by apply CatalogueFacts.rejected_pattern_last.
  - unfold all_patterns, FieldExtractor.PATTERNS, ACORDParser.ACORD_PATTERNS.
    cbn [fmap list_fmap snd concat app].
    repeat (apply List.Forall_cons;
            [split; [intros H; vm_compute in H; first [discriminate H|reflexivity]
                    |intros H; first [discriminate H|vm_compute; reflexivity]]|]).
    apply List.Forall_nil.
Qed.

(** X9. The contact block never raises and writes two keys only: a
    telephone number, stored as its digits, at least ten of them, and
    an e-mail address, stored without capital letters. *)
Theorem contact_info_normalized (text : string) :
  ∃ info,
    FieldExtractor._extract_contact_info text = Ok info
    ∧ (∀ k, is_Some (info !! k) → contact_key k)
    ∧ (∀ v, info !! "contact_phone" = Some v → is_phone v)
    ∧ (∀ v, info !! "contact_email" = Some v → is_lowercase v).
Proof.
  unfold FieldExtractor._extract_contact_info.
  destruct (ContactFacts.find_phone_normalized text FieldExtractor.PHONE_PATTERNS ∅)
    as (i1 & -> & Hk1 & Hp1).
  { unfold FieldExtractor.PHONE_PATTERNS. ContactFacts.all_compile. }
  { intros v Hv. by rewrite lookup_empty in Hv. }
  cbn [py_bind].
  destruct (ContactFacts.find_email_normalized text FieldExtractor.EMAIL_PATTERNS i1)
    as (i2 & -> & Hk2 & He2).
  { unfold FieldExtractor.EMAIL_PATTERNS. ContactFacts.all_compile. }
  { intros v Hv. rewrite Hk1 in Hv by done. by rewrite lookup_empty in Hv. }
  exists i2. split; [reflexivity|]. split; [|split].
  - intros k [v Hv]. unfold contact_key.
    destruct (decide (k = "contact_email")) as [->|Hne]; [by right|].
    destruct (decide (k = "contact_phone")) as [->|Hne']; [by left|].
    rewrite Hk2, Hk1 in Hv by done. by rewrite lookup_empty in Hv.
  - intros v Hv. rewrite Hk2 in Hv by done. by apply Hp1.
  - exact He2.
Qed.

(** X10. A date is rewritten by the first of the nine formats that
    parses it, into the ISO form of a valid calendar date; when no
    format parses it, it is returned as it came. *)
Theorem parse_date_first_format (date_str : string) :
  (FieldExtractor._parse_date date_str = date_str
   ∧ ∀ fmt, fmt ∈ FieldExtractor.DATE_FORMATS →
            ∃ e, Datetime.strptime date_str fmt = Raise e)
  ∨ ∃ pre fmt post dt,
      FieldExtractor.DATE_FORMATS = pre ++ fmt :: post
      ∧ (∀ f, f ∈ pre → ∃ e, Datetime.strptime date_str f = Raise e)
      ∧ Datetime.strptime date_str fmt = Ok dt
      ∧ valid_date dt
      ∧ FieldExtractor._parse_date date_str = Datetime.strftime_ymd dt.
Proof. apply DateFacts.try_formats_spec. Qed.

(** X11. Normalization never raises, gives the empty text for no text
    and for the empty text, and its result neither starts nor ends with
    whitespace. *)
Theorem normalize_text_trimmed (text : option string) :
  ∃ t,
    FieldExtractor._normalize_text text = Ok t
    ∧ trimmed t
    ∧ (text = None ∨ text = Some EmptyString → t = EmptyString).
Proof.
  assert (Hempty : trimmed EmptyString).
  { split; [discriminate|]. intros front c H. by destruct front. }
  destruct text as [text|]; [|exists EmptyString; split; [reflexivity|]; split; [exact Hempty|done]].
  unfold FieldExtractor._normalize_text.
  destruct text as [|c text]; [exists EmptyString; split; [reflexivity|]; split; [exact Hempty|done]|].
  cbn [Str.is_empty].
  destruct (DescriptionFacts.sub_returns Re.NOFLAG " {2,}" " " (String c text))
    as [t1 ->]; [eexists; vm_compute; reflexivity|]. cbn [py_bind].
  destruct (DescriptionFacts.sub_returns Re.NOFLAG "\r\n" FieldExtractor.LF t1)
    as [t2 ->]; [eexists; vm_compute; reflexivity|]. cbn [py_bind].
  destruct (DescriptionFacts.sub_returns Re.NOFLAG "\n{3,}"
              (FieldExtractor.LF +:+ FieldExtractor.LF) t2)
    as [t3 ->]; [eexists; vm_compute; reflexivity|]. cbn [py_bind].
  eexists. split; [reflexivity|]. split; [apply CharFacts.strip_trimmed|].
  intros [H|H]; discriminate H.
Qed.

(** ** The loss-notice parser and the agent *)

Module AgentFacts.

Import FieldExtractor ACORDParser.

(** Rule 1 on a list of missing fields that has a member. *)
Lemma missing_routes_manual (fields : gmap string pyobj) missing field :
  field ∈ missing →
  RoutingEngine.determine_route fields missing
  = Ok ("Manual Review", "Missing required fields: " +:+ Str.join ", " missing).
Proof.
  intros Hin. destruct missing as [|f rest]; [by apply elem_of_nil in Hin|].
  reflexivity.
Qed.

(** The routing on a typed mapping. *)
Lemma determine_route_returns (extracted : gmap string pyobj) missing :
  well_typed extracted →
  ∃ route reasoning,
    RoutingEngine.determine_route extracted missing = Ok (route, reasoning)
    ∧ route ∈ RoutingEngine.ROUTES
    ∧ reasoning ≠ EmptyString.
Proof.
  intros Hty.
  destruct missing as [|f rest].
  2:{ eexists _, _. split; [reflexivity|]. split.
      - apply RoutingTotal.route_listed. simpl. tauto.
      - simpl. by apply StrFacts.app_nonempty_l. }
  destruct (RoutingTotal.typed_description extracted Hty) as [d Hd].
  destruct (RoutingTotal.typed_damage extracted Hty) as [q Hq].
  destruct (RoutingFacts.additional_factors_ok extracted d Hd) as [extra Hextra].
  destruct (RoutingEngine.keywords_in Config.FRAUD_KEYWORDS (Str.lower d))
    as [|k ks] eqn:Hfraud.
  2:{ unfold RoutingEngine.determine_route. rewrite Hd. cbn [py_lower py_bind].
      rewrite Hfraud. eexists _, _. split; [reflexivity|]. split.
      - apply RoutingTotal.route_listed. simpl. tauto.
      - simpl. by apply StrFacts.app_nonempty_l. }
  destruct (value_eqb (dict_get extracted "claim_type" (VStr "property_damage"))
              (VStr "injury")) eqn:Hinj.
  { unfold RoutingEngine.determine_route. rewrite Hd. cbn [py_lower py_bind].
    rewrite Hfraud, Hinj. eexists _, _. split; [reflexivity|]. split.
    - apply RoutingTotal.route_listed. simpl. tauto.
    - cbn [Str.join].
      destruct (RoutingEngine.keywords_in Config.INJURY_KEYWORDS (Str.lower d));
        [discriminate|]. by apply StrFacts.app_nonempty_l. }
  rewrite (RoutingFacts.rule4_outcome extracted d q extra Hd Hq Hfraud Hinj Hextra).
  destruct (Qle_bool q 0); [|destruct (Qle_bool Config.FAST_TRACK_THRESHOLD q)];
    (eexists _, _; split; [reflexivity|]; split;
     [apply RoutingTotal.route_listed; simpl; tauto
     |apply StrFacts.join_nonempty; try done; by apply StrFacts.app_nonempty_l]).
Qed.

(** The loss-notice post-processing writes the claim type and the
    estimate amount, and nothing else. *)
Lemma post_process_acord_keeps (extracted : gmap string pyobj) full_text :
  extracted !! "claim_type" = None →
  (∀ v, extracted !! "description" = Some v → is_text v) →
  ∃ fields,
    _post_process_acord_fields extracted full_text = Ok fields
    ∧ fields !! "claim_type" = Some (VStr (acord_claim_type extracted))
    ∧ ∀ key, key ≠ "claim_type" → key ≠ "estimate_amount" →
             fields !! key = extracted !! key.
Proof.
  intros Hnone Htext.
  destruct (AcordFacts.set_claim_type_spec extracted Hnone Htext)
    as (e1 & He1 & Hct & Hkeep1).
  destruct (AcordFacts.amount_steps_keep e1 full_text) as (final & Hfinal & Hkeep2).
  exists final. unfold _post_process_acord_fields. rewrite He1. cbn [py_bind].
  split; [exact Hfinal|]. split.
  - by rewrite Hkeep2.
  - intros key H1 H2. rewrite Hkeep2 by done. by apply Hkeep1.
Qed.

Lemma acord_claim_type_cases (extracted : gmap string pyobj) :
  acord_claim_type extracted = "injury" ∨ acord_claim_type extracted = "vehicle_damage".
Proof.
  unfold acord_claim_type. destruct (extracted !! "description") as [[d|q]|]; try tauto.
  destruct (RoutingEngine.any_in _ _); tauto.
Qed.

(** The loss-notice parser on any text. *)
Lemma extract_acord_fields_spec document_text :
  ∃ fields ct,
    extract_acord_fields document_text = Ok fields
    ∧ fields !! "estimated_damage" = None
    ∧ fields !! "claim_type" = Some (VStr ct)
    ∧ (ct = "injury" ∨ ct = "vehicle_damage")
    ∧ (∀ v, fields !! "description" = Some v → is_text v).
Proof.
  unfold extract_acord_fields.
  destruct (AcordTotal.clean_acord_text_returns document_text) as [text ->].
  cbn [py_bind].
  destruct (AcordTotal.tables_spec text) as (t & -> & Ht). cbn [py_bind].
  pose proof (AcordTotal.extract_patterns_absent ACORD_PATTERNS text "claim_type"
                AcordTotal.acord_catalogue_has_no_claim_type) as Hnone0.
  assert (Hdmg0 : extract_patterns ACORD_PATTERNS text !! "estimated_damage" = None).
  { apply AcordTotal.extract_patterns_absent, PipelineFacts.not_in_catalogue.
    vm_compute. reflexivity. }
  pose proof (PostProcessFacts.extract_patterns_description ACORD_PATTERNS text)
    as Hdesc0.
  revert Hnone0 Hdmg0 Hdesc0. generalize (extract_patterns ACORD_PATTERNS text).
  intros found Hnone0 Hdmg0 Hdesc0.
  assert (Hnone : dict_update found t !! "claim_type" = None).
  { rewrite PostProcessFacts.update_other; [exact Hnone0|].
    apply Ht, AcordTotal.not_vehicle_key_claim_type. }
  assert (Hdmg : dict_update found t !! "estimated_damage" = None).
  { rewrite PostProcessFacts.update_other; [exact Hdmg0|].
    apply Ht. unfold vehicle_key. intros H. decompose [or] H; discriminate. }
  assert (Hdesc : ∀ v, dict_update found t !! "description" = Some v → is_text v).
  { intros v. rewrite PostProcessFacts.update_other; [apply Hdesc0|].
    apply Ht, AcordTotal.not_vehicle_key_description. }
  destruct (post_process_acord_keeps (dict_update found t) text Hnone Hdesc)
    as (fields & Hpost & Hct & Hkeep).
  exists fields, (acord_claim_type (dict_update found t)).
  split; [exact Hpost|]. split; [by rewrite Hkeep|]. split; [exact Hct|].
  split; [apply acord_claim_type_cases|].
  intros v. rewrite Hkeep by done. apply Hdesc.
Qed.

Lemma missing_estimated_damage (fields : gmap string pyobj) :
  fields !! "estimated_damage" = None →
  "estimated_damage" ∈ identify_missing_fields fields.
Proof.
  intros H. unfold identify_missing_fields. apply list_elem_of_In, filter_In.
  split; [simpl; tauto|]. unfold absent_or_falsy. by rewrite H.
Qed.

Lemma is_acord_nonempty text : FNOLAgent.is_acord text = true → text ≠ EmptyString.
Proof. intros H ->. vm_compute in H. discriminate H. Qed.

(** The analysis of a loaded text, on either path. *)
Lemma analyse_spec now text :
  text ≠ EmptyString →
  ∃ fields validation route reasoning,
    (if FNOLAgent.is_acord text then extract_acord_fields text
     else extract_all_fields (Some text)) = Ok fields
    ∧ FNOLAgent.analyse now text
      = Ok (FNOLAgent.Analysis fields (identify_missing_fields fields)
              validation route reasoning)
    ∧ RoutingEngine.determine_route fields (identify_missing_fields fields)
      = Ok (route, reasoning)
    ∧ route ∈ RoutingEngine.ROUTES
    ∧ reasoning ≠ EmptyString.
Proof.
  intros Hne. unfold FNOLAgent.analyse.
  destruct text as [|c text]; [done|]. cbn [Str.is_empty].
  assert (Hfields : ∃ fields,
    (if FNOLAgent.is_acord (String c text) then extract_acord_fields (String c text)
     else extract_all_fields (Some (String c text))) = Ok fields
    ∧ well_typed fields).
  { destruct (FNOLAgent.is_acord (String c text)).
    - destruct (extract_acord_fields_spec (String c text))
        as (fields & ct & Hf & Hdmg & _ & _ & Hdesc).
      exists fields. split; [exact Hf|]. split; [exact Hdesc|].
      intros v Hv. rewrite Hdmg in Hv. discriminate Hv.
    - destruct (PipelineFacts.extract_all_fields_spec (Some (String c text)))
        as (t & fields & ct & Ht & Hf & Hlabel & Hct & Hkeep & Hamt).
      exists fields. split; [exact Hf|].
      assert (Hk : fields !! "description"
                   = strip_value <$> extract_patterns PATTERNS t !! "description").
      { apply Hkeep; [discriminate|discriminate|discriminate
                     |apply AcordTotal.not_vehicle_key_description|].
        unfold contact_key. intros [H|H]; discriminate H. }
      pose proof (PostProcessFacts.extract_patterns_description PATTERNS t) as Hd.
      revert Hk Hd. generalize (extract_patterns PATTERNS t).
      intros results Hk Hd. split.
      + intros v. rewrite Hk.
        destruct (results !! "description") as [w|]; [|discriminate].
        destruct (Hd w eq_refl) as [s ->]. cbn. intros [= <-]. by eexists.
      + intros v Hv. destruct (Hamt "estimated_damage" v (or_introl eq_refl) Hv)
          as (q & -> & _). by eexists. }
  destruct Hfields as (fields & Hf & Hty). rewrite Hf. cbn [py_bind].
  destruct (ValidatorFacts.validate_returns now fields Hty) as [r Hr].
  rewrite Hr. cbn [py_bind].
  destruct (determine_route_returns fields (identify_missing_fields fields) Hty)
    as (route & reasoning & Hroute & Hlisted & Hreason).
  rewrite Hroute. cbn [py_bind fst snd].
  exists fields, r, route, reasoning. by repeat split.
Qed.

(** *** The counters *)

Lemma routed_insert_fresh route n (routes : gmap string nat) :
  routes !! route = None →
  routed (<[route := n]> routes) = (n + routed routes)%nat.
Proof.
  intros E. unfold routed.
  rewrite map_fold_insert_L; [reflexivity| |exact E].
  intros. lia.
Qed.

Lemma routed_count_route route (routes : gmap string nat) :
  routed (FNOLAgent.count_route route routes) = S (routed routes).
Proof.
  unfold FNOLAgent.count_route.
  destruct (routes !! route) as [n|] eqn:E.
  - rewrite <- (insert_delete_eq routes route (S n)).
    rewrite routed_insert_fresh by apply lookup_delete_eq.
    rewrite <- (insert_delete_id routes route n E) at 2.
    rewrite routed_insert_fresh by apply lookup_delete_eq. lia.
  - by rewrite routed_insert_fresh.
Qed.

Lemma count_route_keys route (routes : gmap string nat) r :
  is_Some (FNOLAgent.count_route route routes !! r) →
  r = route ∨ is_Some (routes !! r).
Proof.
  unfold FNOLAgent.count_route.
  destruct (decide (r = route)) as [->|Hne]; [by left|].
  destruct (routes !! route); rewrite lookup_insert_ne by done; by right.
Qed.

Lemma succeeded_cons {A} (o : py A) outcomes :
  length (succeeded (o :: outcomes))
  = ((match o with Ok _ => 1 | Raise _ => 0 end) + length (succeeded outcomes))%nat.
Proof. by destruct o. Qed.

Lemma failed_cons {A} (o : py A) outcomes :
  length (failed (o :: outcomes))
  = ((match o with Ok _ => 0 | Raise _ => 1 end) + length (failed outcomes))%nat.
Proof. by destruct o. Qed.

End AgentFacts.

(** ** Cleaning of the loaded text *)

Module CleanFacts.

Lemma squeeze_blank_is_space l : ∀ in_run,
  all_chars blank_is_space (squeeze Str.is_space " " in_run l) = true.
Proof.
  induction l as [|c l IH]; intros in_run; [done|]. cbn [squeeze].
  destruct (Str.is_space c) eqn:E.
  - destruct in_run; [apply IH|].
    rewrite CharFacts.all_chars_app, IH. reflexivity.
  - rewrite CharFacts.all_chars_cons, IH. unfold blank_is_space. by rewrite E.
Qed.

Lemma printable_char c :
  DocumentLoader.keeps c = true → blank_is_space c = true →
  (32 <=? Str.code c)%nat = true.
Proof.
  destruct c as [[] [] [] [] [] [] [] []]; vm_compute; intros H1 H2;
    first [reflexivity|discriminate H1|discriminate H2].
Qed.

Lemma corrections_remove_l first rest s :
  forallb (fun e => all_chars not_l (snd e)) rest = true →
  all_chars not_l
    (FieldExtractor.apply_corrections (first :: ("l", "I") :: rest) s) = true.
Proof.
  intros Hrest. unfold FieldExtractor.apply_corrections.
  destruct first as [old new]. cbn [fold_left].
  apply (CharFacts.apply_corrections_keeps not_l rest); [exact Hrest|].
  by apply (CharFacts.replace_removes "l" "I").
Qed.

Lemma corrections_cons old new rest s :
  FieldExtractor.apply_corrections ((old, new) :: rest) s
  = FieldExtractor.apply_corrections rest (Str.replace old new s).
Proof. reflexivity. Qed.

End CleanFacts.

(** ** Amounts with more than one decimal point *)

Module PointFacts.

Import FieldExtractor.

Lemma digits_value_digits s : ∀ acc v,
  digits_value acc s = Some v → all_chars Str.is_digit s = true.
Proof.
  induction s as [|c s IH]; intros acc v; [done|]. cbn [digits_value].
  destruct (Str.is_digit c) eqn:E; [|discriminate].
  intros H. rewrite CharFacts.all_chars_cons, E. exact (IH _ _ H).
Qed.

Lemma digits_no_point s : all_chars Str.is_digit s = true → points s = O.
Proof.
  unfold points, all_chars. induction (Str.to_list s) as [|c l IH]; [done|].
  cbn [forallb List.filter]. intros [Hc Hl]%andb_true_iff.
  destruct (Ascii.eqb "." c) eqn:E; [|by apply IH].
  apply Ascii.eqb_eq in E. subst c. vm_compute in Hc. discriminate Hc.
Qed.

Lemma split_point_points s :
  match split_point s with
  | (whole, Some frac) => points s = S (points whole + points frac)
  | (whole, None) => points s = points whole
  end.
Proof.
  induction s as [|c s IH]; [reflexivity|]. cbn [split_point].
  destruct (Ascii.eqb c ".") eqn:E.
  - apply Ascii.eqb_eq in E. subst c. reflexivity.
  - destruct (split_point s) as [a [b|]]; unfold points in *;
      cbn [Str.to_list list_ascii_of_string List.filter];
      rewrite Ascii.eqb_sym, E; exact IH.
Qed.

Lemma py_float_two_points s : (2 ≤ points s)%nat → ∃ e, py_float s = Raise e.
Proof.
  intros Hp. unfold py_float. pose proof (split_point_points s) as Hs.
  destruct (split_point s) as [whole [frac|]]; cbn [default from_option id].
  - destruct (_ && _); [by eexists|].
    destruct (digits_value 0 whole) as [w|] eqn:Hw; [|by eexists].
    destruct (digits_value 0 frac) as [f|] eqn:Hf; [|by eexists].
    apply digits_value_digits, digits_no_point in Hw.
    apply digits_value_digits, digits_no_point in Hf. lia.
  - destruct (_ && _); [by eexists|].
    destruct (digits_value 0 whole) as [w|] eqn:Hw; [|by eexists].
    apply digits_value_digits, digits_no_point in Hw. lia.
Qed.

Lemma points_filter s : points (Str.filter amount_char s) = points s.
Proof.
  unfold points, Str.filter, Str.of_list, Str.to_list.
  rewrite list_ascii_of_string_of_list_ascii.
  induction (list_ascii_of_string s) as [|c l IH]; [done|].
  cbn [List.filter]. destruct (amount_char c) eqn:Ea.
  - cbn [List.filter]. destruct (Ascii.eqb "." c); simpl; by rewrite IH.
  - destruct (Ascii.eqb "." c) eqn:E; [|exact IH].
    apply Ascii.eqb_eq in E. subst c. vm_compute in Ea. discriminate Ea.
Qed.

End PointFacts.

(** X12. The loss-notice parser returns on every text, and its mapping
    never holds the key of the estimated damage; that required field is
    therefore always reported missing, and the routing of the parser's
    result is always manual review for missing fields. *)
Theorem acord_estimated_damage_always_missing (document_text : string) :
  ∃ fields,
    ACORDParser.extract_acord_fields document_text = Ok fields
    ∧ fields !! "estimated_damage" = None
    ∧ "estimated_damage" ∈ FieldExtractor.identify_missing_fields fields
    ∧ RoutingEngine.determine_route fields
        (FieldExtractor.identify_missing_fields fields)
      = Ok ("Manual Review",
            "Missing required fields: "
              +:+ Str.join ", " (FieldExtractor.identify_missing_fields fields)).
Proof.
  destruct (AgentFacts.extract_acord_fields_spec document_text)
    as (fields & ct & Hf & Hdmg & _).
  exists fields. split; [exact Hf|]. split; [exact Hdmg|].
  pose proof (AgentFacts.missing_estimated_damage fields Hdmg) as Hin.
  split; [exact Hin|]. exact (AgentFacts.missing_routes_manual _ _ _ Hin).
Qed.

(** X13. A document that loaded with some text is always processed: the
    extraction, the checks and the routing raise nothing, the route is
    one of the five routes and the reasoning is not empty.  The error
    result, with its route "Error - Manual Review", is left to the
    documents that did not load or loaded without text. *)
Theorem analyse_never_fails_on_text (now : Validator.moment) (text : string) :
  text ≠ EmptyString →
  ∃ a,
    FNOLAgent.analyse now text = Ok a
    ∧ FNOLAgent.missingFields a
      = FieldExtractor.identify_missing_fields (FNOLAgent.extractedFields a)
    ∧ RoutingEngine.determine_route (FNOLAgent.extractedFields a)
        (FNOLAgent.missingFields a)
      = Ok (FNOLAgent.recommendedRoute a, FNOLAgent.reasoning a)
    ∧ FNOLAgent.recommendedRoute a ∈ RoutingEngine.ROUTES
    ∧ FNOLAgent.recommendedRoute a ≠ FNOLAgent.ERROR_ROUTE
    ∧ FNOLAgent.reasoning a ≠ EmptyString.
Proof.
  intros Hne.
  destruct (AgentFacts.analyse_spec now text Hne)
    as (fields & r & route & reasoning & _ & Ha & Hroute & Hlisted & Hreason).
  eexists. split; [exact Ha|].
  cbn [FNOLAgent.missingFields FNOLAgent.extractedFields
       FNOLAgent.recommendedRoute FNOLAgent.reasoning].
  split; [reflexivity|]. split; [exact Hroute|]. split; [exact Hlisted|].
  split; [|exact Hreason].
  intros ->. apply list_elem_of_In in Hlisted. vm_compute in Hlisted.
  repeat (destruct Hlisted as [Hlisted|Hlisted]; [discriminate Hlisted|]).
  destruct Hlisted.
Qed.

Lemma analyse_never_fails_on_text_witness :
  ∃ a,
    FNOLAgent.analyse (Validator.Moment (Datetime.Date 2024 3 1) 0)
      "Car got hit." = Ok a
    ∧ FNOLAgent.recommendedRoute a ∈ RoutingEngine.ROUTES.
Proof.
  destruct (analyse_never_fails_on_text
              (Validator.Moment (Datetime.Date 2024 3 1) 0) "Car got hit.")
    as (a & Ha & _ & _ & Hlisted & _); [discriminate|].
  exists a. split; [exact Ha|exact Hlisted].
Defined.

(** X14. A document whose text contains "acord", in any case, goes to
    the loss-notice parser, and its route is always manual review with
    the estimated damage among the missing fields, whatever the
    document says. *)
Theorem acord_documents_manual_review (now : Validator.moment) (text : string) :
  FNOLAgent.is_acord text = true →
  ∃ a,
    FNOLAgent.analyse now text = Ok a
    ∧ ACORDParser.extract_acord_fields text = Ok (FNOLAgent.extractedFields a)
    ∧ "estimated_damage" ∈ FNOLAgent.missingFields a
    ∧ FNOLAgent.recommendedRoute a = "Manual Review"
    ∧ FNOLAgent.reasoning a
      = "Missing required fields: " +:+ Str.join ", " (FNOLAgent.missingFields a).
Proof.
  intros Hacord.
  destruct (AgentFacts.analyse_spec now text (AgentFacts.is_acord_nonempty _ Hacord))
    as (fields & r & route & reasoning & Hf & Ha & Hroute & _).
  rewrite Hacord in Hf.
  destruct (AgentFacts.extract_acord_fields_spec text)
    as (fields' & ct & Hf' & Hdmg & _).
  rewrite Hf in Hf'. injection Hf' as <-.
  pose proof (AgentFacts.missing_estimated_damage fields Hdmg) as Hin.
  rewrite (AgentFacts.missing_routes_manual _ _ _ Hin) in Hroute.
  injection Hroute as <- <-.
  eexists. split; [exact Ha|].
  cbn [FNOLAgent.missingFields FNOLAgent.extractedFields
       FNOLAgent.recommendedRoute FNOLAgent.reasoning].
  split; [exact Hf|]. split; [exact Hin|]. split; reflexivity.
Qed.

Lemma acord_documents_manual_review_witness :
  ∃ a,
    FNOLAgent.analyse (Validator.Moment (Datetime.Date 2024 3 1) 0)
      "Acord automobile loss notice. ESTIMATE AMOUNT: $4,500" = Ok a
    ∧ FNOLAgent.recommendedRoute a = "Manual Review".
Proof.
  destruct (acord_documents_manual_review
              (Validator.Moment (Datetime.Date 2024 3 1) 0)
              "Acord automobile loss notice. ESTIMATE AMOUNT: $4,500")
    as (a & Ha & _ & _ & Hroute & _); [vm_compute; reflexivity|].
  exists a. split; [exact Ha|exact Hroute].
Defined.

(** X15. The counters of a batch.  The outcome of each document is that
    of the document alone, whatever was processed before; the counter
    of processed documents grows by the number of documents that went
    through and the error counter by the number of the others, so the
    processed counter does not include the errors; the route counters
    together grow by the documents that went through, and only the five
    routes are counted, never the error route. *)
Theorem process_batch_counters
    (now : Validator.moment) (loaded : list (py string)) (st : FNOLAgent.stats) :
  let outcomes := fst (FNOLAgent.process_batch now loaded st) in
  let st' := snd (FNOLAgent.process_batch now loaded st) in
  outcomes = List.map (outcome_of now) loaded
  ∧ FNOLAgent.processed st'
    = (FNOLAgent.processed st + length (succeeded outcomes))%nat
  ∧ FNOLAgent.failures st'
    = (FNOLAgent.failures st + length (failed outcomes))%nat
  ∧ (length (succeeded outcomes) + length (failed outcomes))%nat = length loaded
  ∧ routed (FNOLAgent.routes st')
    = (routed (FNOLAgent.routes st) + length (succeeded outcomes))%nat
  ∧ ∀ route, is_Some (FNOLAgent.routes st' !! route) →
             is_Some (FNOLAgent.routes st !! route) ∨ route ∈ RoutingEngine.ROUTES.
Proof.
  revert st. induction loaded as [|doc rest IH]; intros st.
  { cbn. repeat split; try lia. intros route H. by left. }
  cbn [FNOLAgent.process_batch].
  assert (Hdoc : FNOLAgent.process_document now doc st
    = (outcome_of now doc,
       match outcome_of now doc with
       | Ok a =>
           FNOLAgent.Stats (S (FNOLAgent.processed st)) (FNOLAgent.failures st)
             (FNOLAgent.count_route (FNOLAgent.recommendedRoute a)
                (FNOLAgent.routes st))
       | Raise _ =>
           FNOLAgent.Stats (FNOLAgent.processed st) (S (FNOLAgent.failures st))
             (FNOLAgent.routes st)
       end)).
  { unfold FNOLAgent.process_document, outcome_of.
    by destruct (let* text := doc in FNOLAgent.analyse now text). }
  rewrite Hdoc. clear Hdoc.
  assert (Hroute : ∀ a, outcome_of now doc = Ok a →
                        FNOLAgent.recommendedRoute a ∈ RoutingEngine.ROUTES).
  { intros a Ha. unfold outcome_of in Ha. destruct doc as [text|e]; [|discriminate].
    cbn [py_bind] in Ha. destruct text as [|c text]; [discriminate Ha|].
    destruct (AgentFacts.analyse_spec now (String c text))
      as (fields & r & route & reasoning & _ & Ha' & _ & Hlisted & _); [done|].
    rewrite Ha' in Ha. by injection Ha as <-. }
  destruct (outcome_of now doc) as [a|e] eqn:Heq.
  - set (st1 := FNOLAgent.Stats _ _ _). specialize (IH st1).
    destruct (FNOLAgent.process_batch now rest st1) as [outcomes st2].
    cbn [fst snd] in IH |- *.
    destruct IH as (Hout & Hproc & Hfail & Hlen & Hrouted & Hkeys).
    cbn [List.map]. rewrite Heq, <- Hout.
    rewrite !AgentFacts.succeeded_cons, !AgentFacts.failed_cons. cbn [length].
    cbn [st1 FNOLAgent.processed FNOLAgent.failures FNOLAgent.routes] in *.
    rewrite AgentFacts.routed_count_route in Hrouted.
    split; [reflexivity|]. repeat split; try lia.
    intros route Hr. destruct (Hkeys route Hr) as [H|H]; [|by right].
    apply AgentFacts.count_route_keys in H as [->|H];
      [right; by apply Hroute|by left].
  - set (st1 := FNOLAgent.Stats _ _ _). specialize (IH st1).
    destruct (FNOLAgent.process_batch now rest st1) as [outcomes st2].
    cbn [fst snd] in IH |- *.
    destruct IH as (Hout & Hproc & Hfail & Hlen & Hrouted & Hkeys).
    cbn [List.map]. rewrite Heq, <- Hout.
    rewrite !AgentFacts.succeeded_cons, !AgentFacts.failed_cons. cbn [length].
    cbn [st1 FNOLAgent.processed FNOLAgent.failures FNOLAgent.routes] in *.
    split; [reflexivity|]. repeat split; try lia. exact Hkeys.
Qed.

(** X16. The cleaning of a loaded text never raises, and what it gives
    is a single trimmed line without the small letter L: no character
    below the space, so no line break and no tabulator, is left, every
    small L has become a capital I, and the text neither starts nor
    ends with whitespace. *)
Theorem clean_text_single_line (text : string) :
  ∃ t,
    DocumentLoader._clean_text text = Ok t
    ∧ all_chars clean_char t = true
    ∧ trimmed t.
Proof.
  unfold DocumentLoader._clean_text.
  destruct (Str.is_empty text).
  { exists EmptyString. split; [reflexivity|]. split; [reflexivity|].
    split; [discriminate|]. intros front c H. by destruct front. }
  rewrite DescriptionFacts.sub_whitespace. cbn [py_bind].
  eexists. split; [reflexivity|]. split; [|apply CharFacts.strip_trimmed].
  apply CharFacts.all_chars_strip.
  assert (Hblank : all_chars blank_is_space
                     (FieldExtractor.apply_corrections DocumentLoader.REPLACEMENTS
                        (collapse_whitespace text)) = true).
  { apply CharFacts.apply_corrections_keeps; [vm_compute; reflexivity|].
    apply CleanFacts.squeeze_blank_is_space. }
  assert (Hl : all_chars not_l
                 (FieldExtractor.apply_corrections DocumentLoader.REPLACEMENTS
                    (collapse_whitespace text)) = true).
  { apply CleanFacts.corrections_remove_l. vm_compute. reflexivity. }
  revert Hblank Hl.
  generalize (FieldExtractor.apply_corrections DocumentLoader.REPLACEMENTS
                (collapse_whitespace text)).
  intros s Hblank Hl.
  apply (CharFacts.all_chars_weaken
           (fun c => DocumentLoader.keeps c && blank_is_space c && not_l c)).
  { intros c [[Hk Hb]%andb_true_iff Hn]%andb_true_iff. unfold clean_char.
    rewrite (CleanFacts.printable_char c Hk Hb). exact Hn. }
  apply CharFacts.all_chars_and; [apply CharFacts.all_chars_and|].
  - apply CharFacts.all_chars_filter.
  - by apply CharFacts.all_chars_filter_keeps.
  - by apply CharFacts.all_chars_filter_keeps.
Qed.

(** X17. The cleaning of a loss-notice text never raises and leaves
    neither a small letter L nor a vertical bar: each has become a
    capital I, in the labels and in the values alike. *)
Theorem clean_acord_text_no_small_l (text : string) :
  ∃ t,
    ACORDParser._clean_acord_text text = Ok t
    ∧ all_chars (fun c => not_l c && not_bar c) t = true.
Proof.
  unfold ACORDParser._clean_acord_text.
  destruct (Str.is_empty text); [by exists EmptyString|].
  destruct (DescriptionFacts.sub_returns Re.NOFLAG " {2,}" "  " text) as [t1 ->];
    [eexists; vm_compute; reflexivity|]. cbn [py_bind].
  eexists. split; [reflexivity|].
  apply CharFacts.all_chars_and.
  - apply CharFacts.apply_corrections_keeps; [vm_compute; reflexivity|].
    unfold ACORDParser.REPLACEMENTS. do 2 rewrite CleanFacts.corrections_cons.
    apply CharFacts.apply_corrections_keeps; [vm_compute; reflexivity|].
    apply CharFacts.all_chars_replace; [reflexivity|].
    by apply (CharFacts.replace_removes "l" "I").
  - apply CharFacts.apply_corrections_keeps; [vm_compute; reflexivity|].
    unfold ACORDParser.REPLACEMENTS. do 2 rewrite CleanFacts.corrections_cons.
    apply CharFacts.apply_corrections_keeps; [vm_compute; reflexivity|].
    by apply (CharFacts.replace_removes "|" "I").
Qed.

(** X18. An amount text with two decimal points or more, such as an
    amount with points between the thousands, parses as zero. *)
Theorem parse_amount_two_points (amount_str : string) :
  (2 ≤ points amount_str)%nat →
  FieldExtractor._parse_amount amount_str = 0%Q.
Proof.
  intros Hp. unfold FieldExtractor._parse_amount.
  rewrite AmountFacts.clean_amount. cbn [py_bind].
  rewrite <- PointFacts.points_filter in Hp.
  destruct (Str.filter amount_char amount_str) as [|c s]; [reflexivity|].
  cbn [Str.is_empty negb].
  destruct (PointFacts.py_float_two_points _ Hp) as [e ->]. reflexivity.
Qed.

Lemma parse_amount_two_points_witness :
  FieldExtractor._parse_amount "$1.234.567" = 0%Q.
Proof. apply parse_amount_two_points. vm_compute. lia. Defined.

(** X19. The document entry point of the loss-notice parser never
    raises, and it gives the empty mapping for the empty text only: any
    other text gets a claim type at least. *)
Theorem parse_acord_document_empty_iff (text : string) :
  ∃ fields,
    ACORDEntry.parse_acord_document text = Ok fields
    ∧ (fields = ∅ ↔ text = EmptyString).
Proof.
  unfold ACORDEntry.parse_acord_document. destruct text as [|c text].
  { exists ∅. by split. }
  cbn [Str.is_empty].
  destruct (AgentFacts.extract_acord_fields_spec (String c text))
    as (fields & ct & Hf & _ & Hct & _).
  exists fields. split; [exact Hf|]. split; [|discriminate].
  intros ->. rewrite lookup_empty in Hct. discriminate Hct.
Qed.

(** ** Identifiers *)

Module IdentifierFacts.

Import FieldExtractor.

Lemma upper_no_lower s :
  all_chars (fun c => negb (Str.is_lower c)) (Str.upper s) = true.
Proof.
  induction s as [|c s IH]; [done|].
  unfold Str.upper in *. cbn [Str.map].
  rewrite CharFacts.all_chars_cons, IH, andb_true_r.
  clear. destruct c as [[] [] [] [] [] [] [] []]; vm_compute; reflexivity.
Qed.

Lemma clean_field_value_upper value key v :
  key = "policy_number" ∨ key = "asset_id" →
  _clean_field_value value key = Ok (Some v) → is_uppercase v.
Proof.
  intros Hk. unfold _clean_field_value. destruct (Str.is_empty value); [done|].
  destruct (Re.sub Re.NOFLAG "\s+" " " (Str.strip value)) as [s|e]; [|done].
  cbn [py_bind].
  destruct Hk as [-> | ->];
    (change (member _ ["estimated_damage"; "initial_estimate"; "estimate_amount"])
       with false;
     change (member _ ["date_of_loss"]) with false;
     change (member _ ["policy_number"; "asset_id"]) with true; cbv iota;
     intros [= <-]; eexists; split; [reflexivity|apply upper_no_lower]).
Qed.

Lemma extract_with_patterns_upper text patterns key v :
  key = "policy_number" ∨ key = "asset_id" →
  _extract_with_patterns text patterns key = Some v → is_uppercase v.
Proof.
  intros Hk. induction patterns as [|p rest IH]; [done|].
  cbn [_extract_with_patterns].
  destruct (Re.search Re.IM p text) as [[m|]|e]; cbn [py_bind]; try exact IH.
  destruct (first_group (Re.groups (Re.ngroups p) m)) as [g|]; [|exact IH].
  destruct (_clean_field_value (Str.strip g) key) as [[w|]|e] eqn:Hc;
    cbn [py_bind]; try exact IH; [|done].
  intros [= <-]. by apply (clean_field_value_upper _ _ _ Hk Hc).
Qed.

End IdentifierFacts.

(** X20. The policy number and the asset identifier of the generic
    extractor, when present, are texts without small letters: what the
    patterns find is stored in capital letters, and post-processing
    keeps it so. *)
Theorem identifiers_in_capitals (text : option string) :
  ∃ fields,
    FieldExtractor.extract_all_fields text = Ok fields
    ∧ ∀ k v, k = "policy_number" ∨ k = "asset_id" →
             fields !! k = Some v → is_uppercase v.
Proof.
  destruct (PipelineFacts.extract_all_fields_spec text)
    as (t & fields & ct & Ht & Hf & Hlabel & Hct & Hkeep & Hamt).
  exists fields. split; [exact Hf|]. intros k v Hk.
  assert (Hplain : fields !! k
                   = FieldExtractor.strip_value
                       <$> FieldExtractor.extract_patterns FieldExtractor.PATTERNS t
                           !! k).
  { apply Hkeep; unfold vehicle_key, contact_key;
      destruct Hk as [-> | ->]; try discriminate;
      intros H; decompose [or] H; discriminate. }
  rewrite Hplain. clear Hplain Hkeep Hamt Hct Hf.
  destruct (FieldExtractor.extract_patterns FieldExtractor.PATTERNS t !! k)
    as [w|] eqn:Hw; [|discriminate].
  apply PostProcessFacts.extract_patterns_lookup in Hw as [patterns Hw].
  destruct (IdentifierFacts.extract_with_patterns_upper _ _ _ _ Hk Hw)
    as (s & -> & Hs).
  cbn. intros [= <-]. exists (Str.strip s). split; [reflexivity|].
  by apply CharFacts.all_chars_strip.
Qed.
